(** * RoModerate: business rules of the REST route layer

    A shallow embedding of the request handlers of [server/routes.ts]
    (session lookup, Discord OAuth nonce check, appeal review, ban check,
    moderator shifts, marketplace escrow, appeal webhook) and the
    properties the specification states about them.

    Conventions.
    - Identifiers, tokens and nonces are [string]s, as in the source.
    - Times are [Z], milliseconds since the epoch; every handler receives
      the value of [Date.now()] / [new Date()] as the argument [now].
    - In-memory [Map]s and the tables of the relational store are
      [gmap string _]; a JavaScript object whose keys are chosen by the
      caller (a request body, a JSON column) is a [gmap string jsval].
    - A handler is a function from the request and the state it reads to
      its reply, the state it leaves and the effects it fires
      (broadcasts, webhook dispatches), in source order: one request
      from start to reply with no other handler in between.
    - Where a property depends on what other requests do while a
      handler awaits, the handler is a [Task.t], split at its
      [await]s, and two requests are interleaved by a schedule (the
      two shift start routes). *)

From Stdlib Require Import ZArith.
From stdpp Require Import gmap strings list fin_maps stringmap pretty.

Local Open Scope string_scope.

(** ** JavaScript values and truthiness *)

(** A JSON scalar, as found in request bodies and JSON columns. *)
Inductive jsval :=
  | JNull
  | JUndefined
  | JBool (b : bool)
  | JNum (n : Z)
  | JStr (s : string).

#[global] Instance jsval_eq_dec : EqDecision jsval.
Proof. solve_decision. Defined.

(** [!!s] for a string that may be missing: [undefined] and the empty
    string are falsy. *)
Definition truthy (s : option string) : bool :=
  match s with
  | Some s => negb (String.eqb s "")
  | None => false
  end.

(** [a || null]-style selection of a truthy string. *)
Definition truthy_str (s : option string) : option string :=
  if truthy s then s else None.

(** ** Replies *)

(** What a handler sends: [res.json(body)] with the default status 200,
    [res.status(code).json({ error })], or [res.redirect(url)]. *)
Inductive reply (A : Type) :=
  | Json (body : A)
  | Error (code : Z) (error : string)
  | Redirect (url : string).
Arguments Json {A} body.
Arguments Error {A} code error.
Arguments Redirect {A} url.

(** ** Users *)

Module User.
Record t := mk { id : string; discordId : string; username : string }.
End User.

(** ** Sessions: [sessions], [createSession], [getUserFromSession],
       [requireAuth] *)

Module Session.

Record entry := mk { userId : string; expiresAt : Z }.

(** [const sessions = new Map<string, { userId, expiresAt }>()] *)
Abbreviation sessions := (gmap string entry).

(** [7 * 24 * 60 * 60 * 1000], seven days in milliseconds. *)
Definition SESSION_LIFETIME : Z := 7 * 24 * 60 * 60 * 1000.

(** [createSession(userId)]; [token] is the value drawn by
    [generateSessionToken()]. *)
Definition createSession (token : string) (userId : string) (now : Z)
    (ss : sessions) : string * sessions :=
  let expiresAt := (now + SESSION_LIFETIME)%Z in
  (token, <[token := mk userId expiresAt]> ss).

Section Lookup.
(** [storage.getUser], read-only on the user table. *)
Variable getUser : string → option User.t.

(** [getUserFromSession(token)]: the user, and the session map the
    call leaves behind. *)
Definition getUserFromSession (token : option string) (now : Z)
    (ss : sessions) : option User.t * sessions :=
  if negb (truthy token) then (None, ss) else
  match token with
  | None => (None, ss)
  | Some t =>
      match ss !! t with
      | None => (None, delete t ss)
      | Some s =>
          if bool_decide (expiresAt s < now)%Z
          then (None, delete t ss)
          else (getUser (userId s), ss)
      end
  end.

(** [requireAuth]: either the 401 reply, or the user handed to the
    route ([req.user = user; next()]). *)
Definition requireAuth (cookie : option string) (now : Z)
    (ss : sessions) : (reply unit + User.t) * sessions :=
  let '(user, ss') := getUserFromSession cookie now ss in
  match user with
  | None => (inl (Error 401 "Not authenticated"), ss')
  | Some u => (inr u, ss')
  end.
End Lookup.

(** Every session entry names a stored user: [createSession] is only
    called with the id of a user just read from or written to the
    store, and no route deletes a user. *)
Definition sessions_resolve (getUser : string → option User.t)
    (ss : sessions) : Prop :=
  map_Forall (λ _ s, is_Some (getUser (userId s))) ss.

(** The cookie is absent, names no session, or names a session past
    its expiry at [now]. *)
Definition stale (cookie : option string) (now : Z) (ss : sessions) : Prop :=
  truthy cookie = false
  ∨ (∃ t, cookie = Some t ∧ ss !! t = None)
  ∨ (∃ t s, cookie = Some t ∧ ss !! t = Some s ∧ (expiresAt s < now)%Z).

Definition unauthorized : reply unit + User.t :=
  inl (Error 401 "Not authenticated").

End Session.

(** ** Discord OAuth: the CSRF nonce of [/api/auth/discord] and
       [/api/auth/discord/callback] *)

Module OAuth.

Record stored := mkStored { expiresAt : Z }.

(** [const oauthStates = new Map<string, { expiresAt }>()] *)
Abbreviation oauthStates := (gmap string stored).

(** The object packed into the [state] parameter. On the callback side
    [nonce] is [None] when the decoded value has no string under that
    key ([oauthStates.get] then finds nothing). *)
Record stateData := mkState {
  nonce : option string;
  invite : option string;
  returnTo : option string
}.

(** The query of a callback request. *)
Record query := mkQuery {
  code : option string;
  state : option string;
  error : option string
}.

(** [10 * 60 * 1000], ten minutes in milliseconds. *)
Definition STATE_LIFETIME : Z := 10 * 60 * 1000.

(** How the callback ends its nonce check: a redirect to an error
    page, or on to the token exchange with what the state carried. *)
Inductive outcome :=
  | Rejected (url : string)
  | TokenExchange (code : string) (inviteCode returnTo : option string).

Section Flow.
(** [Buffer.from(JSON.stringify(d)).toString("base64url")] and
    [JSON.parse(Buffer.from(s, "base64url").toString())]; decoding
    yields [None] where the source throws. *)
Variable encodeState : stateData → string.
Variable decodeState : string → option stateData.
Variable encodeURIComponent : string → string.
Variables DISCORD_CLIENT_ID DISCORD_REDIRECT_URI : string.

(** [GET /api/auth/discord]; [n] is [randomBytes(16).toString("hex")]. *)
Definition initiate (n : string) (inviteCode returnTo : option string)
    (now : Z) (st : oauthStates) : reply unit * oauthStates :=
  let stateData :=
    mkState (Some n) (truthy_str inviteCode) (truthy_str returnTo) in
  let state := encodeState stateData in
  let expiresAt := (now + STATE_LIFETIME)%Z in
  let st := <[n := mkStored expiresAt]> st in
  let redirectUrl :=
    "https://discord.com/api/oauth2/authorize?client_id="
    ++ DISCORD_CLIENT_ID ++ "&response_type=code&redirect_uri="
    ++ encodeURIComponent DISCORD_REDIRECT_URI
    ++ "&scope=identify%20guilds&state=" ++ state in
  (Redirect redirectUrl, st).

(** [GET /api/auth/discord/callback], up to the token exchange. *)
Definition callback (q : query) (now : Z) (st : oauthStates)
    : outcome * oauthStates :=
  if truthy (error q) then
    (Rejected ("/?error=oauth_failed&details="
               ++ encodeURIComponent (default "" (error q))), st)
  else if negb (truthy (code q)) then
    (Rejected "/?error=missing_code", st)
  else if negb (truthy (state q)) then
    (Rejected "/?error=missing_state", st)
  else
    match decodeState (default "" (state q)) with
    | None => (Rejected "/?error=invalid_state_format", st)
    | Some stateData =>
        match nonce stateData ≫= (λ n, pair n <$> st !! n) with
        | None => (Rejected "/?error=invalid_state", st)
        | Some (n, storedState) =>
            if bool_decide (expiresAt storedState < now)%Z then
              (Rejected "/?error=state_expired", delete n st)
            else
              (TokenExchange (default "" (code q))
                 (invite stateData) (returnTo stateData),
               delete n st)
        end
    end.
End Flow.

(** The request carries a state whose nonce is in the store and has
    not expired at [now]. *)
Definition valid_state (decodeState : string → option stateData)
    (q : query) (now : Z) (st : oauthStates) : Prop :=
  ∃ raw d n s, state q = Some raw ∧ raw ≠ "" ∧ decodeState raw = Some d
    ∧ nonce d = Some n ∧ st !! n = Some s ∧ (now ≤ expiresAt s)%Z.

Definition proceeds (o : outcome) : Prop :=
  match o with TokenExchange _ _ _ => True | Rejected _ => False end.

(** The nonce a request's state names, if it decodes to one. *)
Definition nonce_of (decodeState : string → option stateData)
    (q : query) : option string :=
  match state q with
  | Some raw =>
      match decodeState raw with
      | Some d => nonce d
      | None => None
      end
  | None => None
  end.

End OAuth.

(** ** Rows of the relational store *)

Module Server.
(** The keys of the [settings] JSON column the routes below read. *)
Record settings := mkSettings {
  robloxApiKey : option string;
  robloxUniverseId : option string;
  banAppealWebhook : option string
}.
Record t := mk { id : string; ownerId : string; settings_ : option settings }.
End Server.

Module Member.
Record t := mk { id : string; serverId : string; userId : string }.
End Member.

(** A value under a key of a ban's [metadata] object. *)
Inductive metaval :=
  | MVal (v : jsval)
  | MUnbanResult (success : bool) (timestamp : Z) (error : option string).

Module Ban.
Record t := mk {
  id : string;
  serverId : string;
  robloxUserId : string;
  robloxUsername : option string;
  discordUserId : option string;
  reason : string;
  expiresAt : option Z;
  isActive : bool;
  createdAt : Z;
  metadata : option (gmap string metaval)
}.

(** The fields of a partial update; [None] is a key that is not given. *)
Record update := mkUpdate {
  u_isActive : option bool;
  u_metadata : option (gmap string metaval)
}.

Definition apply (u : update) (b : t) : t :=
  mk (id b) (serverId b) (robloxUserId b) (robloxUsername b)
     (discordUserId b) (reason b) (expiresAt b)
     (default (isActive b) (u_isActive u))
     (createdAt b)
     (match u_metadata u with Some m => Some m | None => metadata b end).
End Ban.

Module Appeal.
Record t := mk {
  id : string;
  banId : string;
  serverId : string;
  discordUserId : option string;
  appealText : string;
  status : string;
  reviewedBy : option string;
  reviewNote : option string;
  reviewedAt : option Z
}.

Record update := mkUpdate {
  u_status : option string;
  u_reviewNote : option string;
  u_reviewedBy : option string;
  u_reviewedAt : option Z
}.

Definition apply (u : update) (a : t) : t :=
  mk (id a) (banId a) (serverId a) (discordUserId a) (appealText a)
     (default (status a) (u_status u))
     (match u_reviewedBy u with Some n => Some n | None => reviewedBy a end)
     (match u_reviewNote u with Some n => Some n | None => reviewNote a end)
     (match u_reviewedAt u with Some n => Some n | None => reviewedAt a end).
End Appeal.

Module Shift.
Record t := mk {
  id : string;
  serverId : string;
  userId : string;
  startTime : Z;
  endTime : option Z;
  status : string;
  metrics : gmap string Z
}.

(** What [createShift] is given: a row without its id. *)
Record insert := mkInsert {
  i_serverId : string;
  i_userId : string;
  i_startTime : Z;
  i_endTime : option Z;
  i_status : string;
  i_metrics : gmap string Z
}.

Record update := mkUpdate {
  u_endTime : option Z;
  u_status : option string;
  u_metrics : option (gmap string Z)
}.

Definition apply (u : update) (s : t) : t :=
  mk (id s) (serverId s) (userId s) (startTime s)
     (match u_endTime u with Some e => Some e | None => endTime s end)
     (default (status s) (u_status u))
     (default (metrics s) (u_metrics u)).

(** The row is an active shift of [user] on [server]. *)
Definition active_of (user server : string) (s : t) : Prop :=
  userId s = user ∧ serverId s = server ∧ status s = "active".

#[global] Instance active_of_dec user server s :
  Decision (active_of user server s).
Proof. unfold active_of. apply _. Defined.
End Shift.

Module Transaction.
Record t := mk {
  id : string;
  sellerId : string;
  buyerId : string;
  amount : Z;
  currency : string
}.

(** A row of the transaction log. *)
Record log := mkLog {
  transactionId : option jsval;
  action : string;
  performedBy : string;
  changes : gmap string jsval
}.
End Transaction.

(** ** The storage layer

    [server/storage.ts] is not among the sources; the routes only call
    it. Its tables are keyed by primary key and its operations are the
    single-row reads and writes the specification describes. *)

Module Storage.

Record t := mk {
  users : gmap string User.t;
  servers : gmap string Server.t;
  serverMembers : gmap string Member.t;
  bans : gmap string Ban.t;
  appeals : gmap string Appeal.t;
  shifts : gmap string Shift.t;
  transactions : gmap string Transaction.t;
  escrows : gmap string (gmap string jsval);
  transactionLogs : list Transaction.log
}.

Definition set_bans (f : gmap string Ban.t → gmap string Ban.t) (st : t) : t :=
  mk (users st) (servers st) (serverMembers st) (f (bans st)) (appeals st)
     (shifts st) (transactions st) (escrows st) (transactionLogs st).

Definition set_appeals (f : gmap string Appeal.t → gmap string Appeal.t)
    (st : t) : t :=
  mk (users st) (servers st) (serverMembers st) (bans st) (f (appeals st))
     (shifts st) (transactions st) (escrows st) (transactionLogs st).

Definition set_shifts (f : gmap string Shift.t → gmap string Shift.t)
    (st : t) : t :=
  mk (users st) (servers st) (serverMembers st) (bans st) (appeals st)
     (f (shifts st)) (transactions st) (escrows st) (transactionLogs st).

Definition set_escrows
    (f : gmap string (gmap string jsval) → gmap string (gmap string jsval))
    (st : t) : t :=
  mk (users st) (servers st) (serverMembers st) (bans st) (appeals st)
     (shifts st) (transactions st) (f (escrows st)) (transactionLogs st).

Definition set_transactionLogs
    (f : list Transaction.log → list Transaction.log) (st : t) : t :=
  mk (users st) (servers st) (serverMembers st) (bans st) (appeals st)
     (shifts st) (transactions st) (escrows st) (f (transactionLogs st)).

(** Rows sit under their primary key. *)
Definition bans_keyed (st : t) : Prop :=
  map_Forall (λ k b, Ban.id b = k) (bans st).

Definition shifts_keyed (st : t) : Prop :=
  map_Forall (λ k s, Shift.id s = k) (shifts st).

(** A row of the table that satisfies [P], if there is one. *)
Definition find_row {A} (P : A → Prop) `{∀ x, Decision (P x)}
    (m : gmap string A) : option A :=
  snd <$> head (map_to_list (filter (λ kv, P kv.2) m)).

(** Modelled from the spec: [storage.getUser], the user row with this
    primary key. *)
Definition getUser (id : string) (st : t) : option User.t := users st !! id.

(** Modelled from the spec: [storage.getServer], read by primary key. *)
Definition getServer (id : string) (st : t) : option Server.t :=
  servers st !! id.

(** Modelled from the spec: [storage.getServerMemberByUserAndServer],
    the membership row of this user on this server, if any. *)
Definition getServerMemberByUserAndServer (userId serverId : string)
    (st : t) : option Member.t :=
  find_row (λ m, Member.userId m = userId ∧ Member.serverId m = serverId)
    (serverMembers st).

(** Modelled from the spec: [storage.getBan], read by primary key. *)
Definition getBan (id : string) (st : t) : option Ban.t := bans st !! id.

(** Modelled from the spec: [storage.getBanByRobloxUserId], the ban
    row of this Roblox user on this server (the ban table is unique on
    that pair); callers test [isActive] themselves where they need it. *)
Definition getBanByRobloxUserId (serverId robloxUserId : string)
    (st : t) : option Ban.t :=
  find_row
    (λ b, Ban.serverId b = serverId ∧ Ban.robloxUserId b = robloxUserId)
    (bans st).

(** Modelled from the spec: [storage.updateBan], a single-row update
    that overwrites the given columns and returns the new row. *)
Definition updateBan (id : string) (u : Ban.update) (st : t)
    : option Ban.t * t :=
  match bans st !! id with
  | Some b => (Some (Ban.apply u b), set_bans <[id := Ban.apply u b]> st)
  | None => (None, st)
  end.

(** Modelled from the spec: [storage.getAppeal], read by primary key. *)
Definition getAppeal (id : string) (st : t) : option Appeal.t :=
  appeals st !! id.

(** Modelled from the spec: [storage.updateAppeal], a single-row
    update that overwrites the given columns and returns the new row. *)
Definition updateAppeal (id : string) (u : Appeal.update) (st : t)
    : option Appeal.t * t :=
  match appeals st !! id with
  | Some a =>
      (Some (Appeal.apply u a), set_appeals <[id := Appeal.apply u a]> st)
  | None => (None, st)
  end.

(** Modelled from the spec: [storage.getShift], read by primary key. *)
Definition getShift (id : string) (st : t) : option Shift.t :=
  shifts st !! id.

(** Modelled from the spec: [storage.getActiveShiftByUserId], a shift
    of this user on this server whose status is ['active'], if any. *)
Definition getActiveShiftByUserId (userId serverId : string) (st : t)
    : option Shift.t :=
  find_row (Shift.active_of userId serverId) (shifts st).

(** Modelled from the spec: [storage.createShift], which inserts the
    row under an id the store has not used and returns it. *)
Definition createShift (i : Shift.insert) (st : t) : Shift.t * t :=
  let id := fresh_string "shift" (shifts st) in
  let row :=
    Shift.mk id (Shift.i_serverId i) (Shift.i_userId i)
      (Shift.i_startTime i) (Shift.i_endTime i) (Shift.i_status i)
      (Shift.i_metrics i) in
  (row, set_shifts <[id := row]> st).

(** Modelled from the spec: [storage.updateShift], a single-row update
    that overwrites the given columns and returns the new row. *)
Definition updateShift (id : string) (u : Shift.update) (st : t)
    : option Shift.t * t :=
  match shifts st !! id with
  | Some s =>
      (Some (Shift.apply u s), set_shifts <[id := Shift.apply u s]> st)
  | None => (None, st)
  end.

(** Modelled from the spec: [storage.getTransaction], read by primary
    key. *)
Definition getTransaction (id : string) (st : t) : option Transaction.t :=
  transactions st !! id.

(** Modelled from the spec: [storage.getEscrow], read by primary key. *)
Definition getEscrow (id : string) (st : t) : option (gmap string jsval) :=
  escrows st !! id.

(** Modelled from the spec: [storage.updateEscrow], a single-row
    update with the caller's object: its keys overwrite the row's. *)
Definition updateEscrow (id : string) (changes : gmap string jsval)
    (st : t) : option (gmap string jsval) * t :=
  match escrows st !! id with
  | Some e => (Some (changes ∪ e), set_escrows <[id := changes ∪ e]> st)
  | None => (None, st)
  end.

(** Modelled from the spec: [storage.createTransactionLog], which
    appends a row to the transaction log. *)
Definition createTransactionLog (l : Transaction.log) (st : t) : t :=
  set_transactionLogs (λ ls, (ls ++ [l])%list) st.

End Storage.

(** ** The appeal webhook: [callBanAppealWebhook] *)

Module Webhook.

Inductive action := created | updated.

Record payload := mkPayload {
  appealId : string;
  action_ : action;
  status : string;
  userId : option string;
  userRobloxId : string;
  robloxUsername : option string;
  reason : string;
  appealText : string;
  reviewNote : option string;
  timestamp : Z
}.

(** What one [await fetch(...)] comes to: a response with its status,
    or a rejection (network error, abort) with its message. *)
Inductive fetched :=
  | Response (status : Z)
  | Throws (message : string).

(** [response.ok]: the status is in the range 200-299. *)
Definition ok (status : Z) : bool :=
  (200 <=? status)%Z && (status <=? 299)%Z.

(** What the call does to the outside, in order. [abortAfter] is the
    delay of the abort timer armed for the request, if any. *)
Inductive effect :=
  | Post (url : string) (body : payload) (abortAfter : option Z)
  | Wait (ms : Z).

Record result := mkResult { success : bool; error : option string }.

Section Call.
(** The network: what the [k]-th [fetch] of this call comes to. *)
Variable net : nat → fetched.

Definition callBanAppealWebhook (webhookUrl : string) (appeal : Appeal.t)
    (ban : Ban.t) (act : action) (now : Z) : result * list effect :=
  let payload :=
    mkPayload (Appeal.id appeal) act (Appeal.status appeal)
      (Ban.discordUserId ban) (Ban.robloxUserId ban)
      (Ban.robloxUsername ban) (Ban.reason ban)
      (Appeal.appealText appeal) (Appeal.reviewNote appeal) now in
  let first := Post webhookUrl payload (Some 5000%Z) in
  (* the [catch] block: one more POST after one second *)
  let retry (message : string) :=
    let tr := [first; Wait 1000; Post webhookUrl payload None] in
    match net 1 with
    | Response status =>
        if ok status then (mkResult true None, tr)
        else (mkResult false (Some message), tr)
    | Throws _ => (mkResult false (Some message), tr)
    end in
  match net 0 with
  | Response status =>
      if ok status then (mkResult true None, [first])
      else retry ("Webhook returned status " ++ pretty status)
  | Throws message => retry message
  end.
End Call.

(** The [k]-th request got a response with an ok status. *)
Definition returned_ok (net : nat → fetched) (k : nat) : Prop :=
  match net k with Response status => ok status = true | Throws _ => False end.

End Webhook.

(** ** Effects of a route *)

(** The messages handed to [broadcastToClients]. *)
Inductive broadcast :=
  | ban_removed (banId serverId : string) (robloxUsername : option string)
      (reason : string)
  | appeal_updated (appealId : string) (status : option string)
      (serverId : string)
  | shift_started (serverId userId shiftId : string)
  | shift_ended (serverId userId shiftId : string) (duration : Z)
  | ban_check (serverId robloxUserId result : string).

(** What a route fires besides its reply and its writes to the store. *)
Inductive effect :=
  | Broadcast (message : broadcast)
  | CallWebhook (webhookUrl : string) (appeal : Appeal.t) (ban : Ban.t)
      (act : Webhook.action).

(** ** Handlers between their awaits *)

(** An [async] handler reaches the store only through
    [await storage.f(...)]. Each such call is one access to the store;
    while its promise is pending the event loop may run other handlers,
    and the handler goes on with the value the call resolved to. *)
Module Task.

Inductive t (A : Type) :=
  | Return (reply : A) (effects : list effect)
  | Await {B : Type} (call : Storage.t → B * Storage.t) (k : B → t A).
Arguments Return {A} reply effects.
Arguments Await {A B} call k.

(** A storage call that only reads. *)
Definition read {B : Type} (f : Storage.t → B) (st : Storage.t)
    : B * Storage.t :=
  (f st, st).

(** The handler up to its next [await], or where it is once it has
    replied. *)
Definition step {A : Type} (task : t A) (st : Storage.t)
    : t A * Storage.t :=
  match task with
  | Return _ _ => (task, st)
  | Await call k => let '(b, st) := call st in (k b, st)
  end.

(** One request from start to reply with no other handler in between. *)
Fixpoint run {A : Type} (task : t A) (st : Storage.t)
    : A * Storage.t * list effect :=
  match task with
  | Return reply effects => (reply, st, effects)
  | Await call k => let '(b, st) := call st in run (k b) st
  end.

(** Two requests in flight: which of them the event loop resumes next. *)
Inductive turn := First | Second.

Fixpoint interleave {A : Type} (schedule : list turn) (t1 t2 : t A)
    (st : Storage.t) : t A * t A * Storage.t :=
  match schedule with
  | [] => (t1, t2, st)
  | First :: schedule =>
      let '(t1, st) := step t1 st in interleave schedule t1 t2 st
  | Second :: schedule =>
      let '(t2, st) := step t2 st in interleave schedule t1 t2 st
  end.

End Task.

(** ** Routes *)

Module Routes.
Import Storage.

(** *** [PATCH /api/appeals/:id] *)

(** [const { status, reviewNote } = req.body] *)
Record appealBody := mkAppealBody {
  status : option string;
  reviewNote : option string
}.

(** [{ ...updated, banUpdated, robloxUnbanned }] *)
Record appealReply := mkAppealReply {
  updated : option Appeal.t;
  banUpdated : bool;
  robloxUnbanned : bool
}.

(** What [robloxCloud.unbanUser] resolves to. *)
Record unbanResult := mkUnban { success : bool; error : option string }.

Definition is_approved (status : option string) : bool :=
  bool_decide (status = Some "approved").

Section Appeals.
(** [robloxCloud.unbanUser({ universeId, userId, apiKey })], the
    call to the Roblox Cloud client. *)
Variable unbanUser : string → string → string → unbanResult.

(** The [if (status === "approved")] block: the store it leaves, the
    result of the Roblox call if one was made, and its broadcast. *)
Definition approve (server : Server.t) (appeal : Appeal.t) (ban : Ban.t)
    (now : Z) (st : Storage.t)
    : option unbanResult * Storage.t * list effect :=
  let st := (updateBan (Ban.id ban) (Ban.mkUpdate (Some false) None) st).2 in
  let robloxApiKey := Server.settings_ server ≫= Server.robloxApiKey in
  let robloxUniverseId := Server.settings_ server ≫= Server.robloxUniverseId in
  let robloxUnbanResult :=
    if truthy robloxApiKey && truthy robloxUniverseId then
      Some (unbanUser (default "" robloxUniverseId) (Ban.robloxUserId ban)
              (default "" robloxApiKey))
    else None in
  let metadata :=
    <["robloxUnbanResult" :=
        match robloxUnbanResult with
        | Some r => MUnbanResult (success r) now (error r)
        | None => MVal JUndefined
        end]>
    (<["appealId" := MVal (JStr (Appeal.id appeal))]>
    (<["unbannedViaAppeal" := MVal (JBool true)]>
    (default ∅ (Ban.metadata ban)))) in
  let st := (updateBan (Ban.id ban) (Ban.mkUpdate None (Some metadata)) st).2 in
  (robloxUnbanResult, st,
   [Broadcast (ban_removed (Ban.id ban) (Server.id server)
                 (Ban.robloxUsername ban) "Appeal approved")]).

Definition patchAppeal (user : User.t) (id : string) (body : appealBody)
    (now : Z) (st : Storage.t)
    : reply appealReply * Storage.t * list effect :=
  match getAppeal id st with
  | None => (Error 404 "Appeal not found", st, [])
  | Some appeal =>
  match getServer (Appeal.serverId appeal) st with
  | None => (Error 403 "Not authorized", st, [])
  | Some server =>
  if negb (String.eqb (Server.ownerId server) (User.id user)) then
    (Error 403 "Not authorized", st, [])
  else
  match getBan (Appeal.banId appeal) st with
  | None => (Error 404 "Associated ban not found", st, [])
  | Some ban =>
      let '(robloxUnbanResult, st, fx1) :=
        if is_approved (status body) then approve server appeal ban now st
        else (None, st, []) in
      let '(updated, st) :=
        updateAppeal id
          (Appeal.mkUpdate (status body) (reviewNote body)
             (Some (User.id user)) (Some now)) st in
      let fx2 :=
        [Broadcast (appeal_updated id (status body) (Server.id server))] in
      let webhookUrl := Server.settings_ server ≫= Server.banAppealWebhook in
      let fx3 :=
        match updated with
        | Some a =>
            if truthy webhookUrl
            then [CallWebhook (default "" webhookUrl) a ban Webhook.updated]
            else []
        | None => []
        end in
      (Json (mkAppealReply updated
               (is_approved (status body))
               (is_approved (status body)
                && from_option success false robloxUnbanResult)),
       st, (fx1 ++ fx2 ++ fx3)%list)
  end end end.
End Appeals.

(** *** [GET /api/game/check-ban/:robloxUserId] *)

Record banCheck := mkBanCheck {
  isBanned : bool;
  banId : option string;
  reason : option string;
  bannedAt : option Z;
  expiresAt : option Z
}.

Definition notBanned : banCheck := mkBanCheck false None None None None.

(** The route after [validateApiKey] has set [req.serverId]. *)
Definition checkBan (serverId robloxUserId : string) (now : Z)
    (st : Storage.t) : reply banCheck * Storage.t * list effect :=
  match getBanByRobloxUserId serverId robloxUserId st with
  | None => (Json notBanned, st, [])
  | Some ban =>
      if from_option (λ e, bool_decide (e < now)%Z) false (Ban.expiresAt ban)
      then
        let st := (updateBan (Ban.id ban) (Ban.mkUpdate (Some false) None) st).2 in
        (Json notBanned, st, [])
      else
        (Json (mkBanCheck true (Some (Ban.id ban)) (Some (Ban.reason ban))
                 (Some (Ban.createdAt ban)) (Ban.expiresAt ban)),
         st,
         [Broadcast (ban_check serverId robloxUserId "banned")])
  end.

(** *** Moderator shifts *)

(** The membership test shared by [/api/shifts/start] and
    [/api/shifts/end]: [isOwner || isMember]. *)
Definition ownerOrMember (server : Server.t) (user : User.t)
    (serverId : string) (st : Storage.t) : bool :=
  let isOwner := String.eqb (Server.ownerId server) (User.id user) in
  let isMember := getServerMemberByUserAndServer (User.id user) serverId st in
  isOwner || bool_decide (is_Some isMember).

(** The metrics of a shift opened by [/api/shifts/start]. *)
Definition zeroMetrics : gmap string Z :=
  <["reportsProcessed" := 0%Z]> (<["ticketsHandled" := 0%Z]>
  (<["appealsReviewed" := 0%Z]> (<["bansIssued" := 0%Z]>
  (<["actionsCount" := 0%Z]> ∅)))).

(** [POST /api/shifts/start]; [serverId] is [req.body.serverId] and
    [now] is the [new Date()] of the row handed to [createShift]. The
    400 reply for an open shift also carries that shift's id, which
    [Error] does not record. *)
Definition shiftsStartTask (user : User.t) (serverId : option string)
    (now : Z) : Task.t (reply Shift.t) :=
  if negb (truthy serverId) then Task.Return (Error 400 "serverId required") []
  else
  let serverId := default "" serverId in
  Task.Await (Task.read (getServer serverId)) (λ server,
  match server with
  | None => Task.Return (Error 404 "Server not found") []
  | Some server =>
  let isOwner := String.eqb (Server.ownerId server) (User.id user) in
  Task.Await
    (Task.read (getServerMemberByUserAndServer (User.id user) serverId))
    (λ isMember,
  if negb isOwner && negb (bool_decide (is_Some isMember)) then
    Task.Return
      (Error 403 "Not authorized - you must be a member of this server") []
  else
  Task.Await (Task.read (getActiveShiftByUserId (User.id user) serverId))
    (λ activeShift,
  match activeShift with
  | Some activeShift =>
      Task.Return (Error 400 "You already have an active shift") []
  | None =>
      Task.Await
        (createShift
           (Shift.mkInsert serverId (User.id user) now None "active"
              zeroMetrics))
        (λ shift,
      Task.Return (Json shift)
        [Broadcast (shift_started serverId (User.id user) (Shift.id shift))])
  end))
  end).

(** The route run from request to reply with no other handler in
    between. *)
Definition shiftsStart (user : User.t) (serverId : option string) (now : Z)
    (st : Storage.t) : reply Shift.t * Storage.t * list effect :=
  Task.run (shiftsStartTask user serverId now) st.

(** [POST /api/servers/:serverId/shifts/start] *)
Definition serverShiftsStartTask (user : User.t) (serverId : string)
    (now : Z) : Task.t (reply Shift.t) :=
  Task.Await (Task.read (getServer serverId)) (λ server,
  match server with
  | None => Task.Return (Error 403 "Not authorized") []
  | Some server =>
  if negb (String.eqb (Server.ownerId server) (User.id user)) then
    Task.Return (Error 403 "Not authorized") []
  else
  Task.Await (Task.read (getActiveShiftByUserId (User.id user) serverId))
    (λ activeShift,
  match activeShift with
  | Some activeShift =>
      Task.Return (Error 400 "You already have an active shift") []
  | None =>
      Task.Await
        (createShift
           (Shift.mkInsert serverId (User.id user) now None "active" ∅))
        (λ shift, Task.Return (Json shift) [])
  end)
  end).

(** The route run from request to reply with no other handler in
    between. *)
Definition serverShiftsStart (user : User.t) (serverId : string) (now : Z)
    (st : Storage.t) : reply Shift.t * Storage.t * list effect :=
  Task.run (serverShiftsStartTask user serverId now) st.

(** Two [POST /api/shifts/start] requests that overlap: each has had
    its three reads answered before either reaches [createShift]. *)
Definition overlappingStarts : list Task.turn :=
  [Task.First; Task.First; Task.First;
   Task.Second; Task.Second; Task.Second;
   Task.First; Task.Second].

(** The same overlap for the server-scoped route, which reads twice. *)
Definition overlappingServerStarts : list Task.turn :=
  [Task.First; Task.First; Task.Second; Task.Second;
   Task.First; Task.Second].

(** [POST /api/shifts/end]; [serverId] is [req.body.serverId]. *)
Definition shiftsEnd (user : User.t) (serverId : option string) (now : Z)
    (st : Storage.t) : reply (option Shift.t) * Storage.t * list effect :=
  if negb (truthy serverId) then (Error 400 "serverId required", st, []) else
  let serverId := default "" serverId in
  match getServer serverId st with
  | None => (Error 404 "Server not found", st, [])
  | Some server =>
  if negb (ownerOrMember server user serverId st) then
    (Error 403 "Not authorized - you must be a member of this server", st, [])
  else
  match getActiveShiftByUserId (User.id user) serverId st with
  | None => (Error 404 "No active shift found", st, [])
  | Some activeShift =>
      let endTime := now in
      let '(updated, st) :=
        updateShift (Shift.id activeShift)
          (Shift.mkUpdate (Some endTime) (Some "completed") None) st in
      (Json updated, st,
       [Broadcast (shift_ended serverId (User.id user) (Shift.id activeShift)
                     (endTime - Shift.startTime activeShift)%Z)])
  end end.

Section ShiftMetrics.
(** [storage.getShiftMetrics(shiftId, startTime, endTime)], a read
    of the moderation tables. *)
Variable getShiftMetrics : string → Z → Z → Storage.t → gmap string Z.

(** [POST /api/servers/:serverId/shifts/:shiftId/end] *)
Definition serverShiftEnd (user : User.t) (serverId shiftId : string)
    (now : Z) (st : Storage.t)
    : reply (option Shift.t) * Storage.t * list effect :=
  match getServer serverId st with
  | None => (Error 403 "Not authorized", st, [])
  | Some server =>
  if negb (String.eqb (Server.ownerId server) (User.id user)) then
    (Error 403 "Not authorized", st, [])
  else
  match getShift shiftId st with
  | None => (Error 404 "Shift not found", st, [])
  | Some shift =>
  if negb (String.eqb (Shift.serverId shift) serverId) then
    (Error 404 "Shift not found", st, [])
  else if negb (String.eqb (Shift.status shift) "active") then
    (Error 400 "Shift is not active", st, [])
  else
    let endTime := now in
    let metrics := getShiftMetrics shiftId (Shift.startTime shift) endTime st in
    let '(updatedShift, st) :=
      updateShift shiftId
        (Shift.mkUpdate (Some endTime) (Some "completed") (Some metrics)) st in
    (Json updatedShift, st, [])
  end end.
End ShiftMetrics.

(** *** [PATCH /api/marketplace/escrow/:id] *)

(** [escrow.transactionId] as a key of the transaction table. *)
Definition transactionId (escrow : gmap string jsval) : option string :=
  match escrow !! "transactionId" with
  | Some (JStr t) => Some t
  | _ => None
  end.

Definition patchEscrow (user : User.t) (id : string)
    (body : gmap string jsval) (st : Storage.t)
    : reply (option (gmap string jsval)) * Storage.t * list effect :=
  match getEscrow id st with
  | None => (Error 404 "Escrow not found", st, [])
  | Some escrow =>
  match transactionId escrow ≫= (λ t, getTransaction t st) with
  | None => (Error 403 "Not authorized", st, [])
  | Some transaction =>
  if negb (String.eqb (Transaction.sellerId transaction) (User.id user))
     && negb (String.eqb (Transaction.buyerId transaction) (User.id user))
  then (Error 403 "Not authorized", st, [])
  else
    let '(updated, st) := updateEscrow id body st in
    let st :=
      createTransactionLog
        (Transaction.mkLog (escrow !! "transactionId") "escrow_updated"
           (User.id user) body) st in
    (Json updated, st, [])
  end end.

(** [user] is the seller or the buyer of the escrow's transaction. *)
Definition party (user : User.t) (escrow : gmap string jsval)
    (st : Storage.t) : Prop :=
  ∃ t transaction,
    transactionId escrow = Some t
    ∧ getTransaction t st = Some transaction
    ∧ (Transaction.sellerId transaction = User.id user
       ∨ Transaction.buyerId transaction = User.id user).

(** No two active shifts in the store belong to the same user on the
    same server. *)
Definition one_active_shift (st : Storage.t) : Prop :=
  ∀ k1 k2 s1 s2 user server,
    shifts st !! k1 = Some s1 → shifts st !! k2 = Some s2 →
    Shift.active_of user server s1 → Shift.active_of user server s2 →
    k1 = k2.

(** [user] has an active shift on [server]. *)
Definition has_active_shift (user server : string) (st : Storage.t) : Prop :=
  ∃ k s, shifts st !! k = Some s ∧ Shift.active_of user server s.

End Routes.

(** ** A small deployment

    One server owned by alice with bob as a member, two bans of which
    one has an expiry, two appeals, one open shift, and one marketplace
    transaction between alice (seller) and bob (buyer) with its escrow.
    The examples below run the routes on it. *)

Module Sample.

Definition alice : User.t := User.mk "u1" "d1" "alice".
Definition bob : User.t := User.mk "u2" "d2" "bob".
Definition carol : User.t := User.mk "u3" "d3" "carol".

Definition server : Server.t :=
  Server.mk "s1" "u1"
    (Some (Server.mkSettings None None (Some "https://hooks.example/appeals"))).

Definition timedBan : Ban.t :=
  Ban.mk "b1" "s1" "r1" (Some "builder") None "exploiting" (Some 1000%Z)
    true 10%Z None.

Definition permanentBan : Ban.t :=
  Ban.mk "b2" "s1" "r2" (Some "griefer") None "griefing" None true 20%Z None.

Definition pendingAppeal : Appeal.t :=
  Appeal.mk "a1" "b1" "s1" None "I was lagging" "pending" None None None.

Definition approvedAppeal : Appeal.t :=
  Appeal.mk "a2" "b2" "s1" None "please" "approved" (Some "u1")
    (Some "first offence") (Some 500%Z).

Definition openShift : Shift.t :=
  Shift.mk "sh1" "s1" "u2" 100%Z None "active" ∅.

Definition sale : Transaction.t := Transaction.mk "t1" "u1" "u2" 50%Z "USD".

Definition escrow : gmap string jsval :=
  <["status" := JStr "held"]> (<["amount" := JNum 50]>
  (<["transactionId" := JStr "t1"]> ∅)).

Definition store : Storage.t :=
  Storage.mk
    (<["u3" := carol]> (<["u2" := bob]> (<["u1" := alice]> ∅)))
    {["s1" := server]}
    {["m1" := Member.mk "m1" "s1" "u2"]}
    (<["b2" := permanentBan]> {["b1" := timedBan]})
    (<["a2" := approvedAppeal]> {["a1" := pendingAppeal]})
    {["sh1" := openShift]}
    {["t1" := sale]}
    {["e1" := escrow]}
    [].

(** The store once alice has removed bob from the server's members
    while his shift is open. *)
Definition storeAfterRemoval : Storage.t :=
  Storage.mk (Storage.users store) (Storage.servers store) ∅
    (Storage.bans store) (Storage.appeals store) (Storage.shifts store)
    (Storage.transactions store) (Storage.escrows store)
    (Storage.transactionLogs store).

Definition getUser (id : string) : option User.t := Storage.getUser id store.

(** alice's session, created at time 1000. *)
Definition sessions : Session.sessions :=
  (Session.createSession "tok" "u1" 1000 ∅).2.

(** A stand-in for the state codec: the state string is the nonce. *)
Definition decodeState (raw : string) : option OAuth.stateData :=
  Some (OAuth.mkState (Some raw) None None).
Definition encodeState (d : OAuth.stateData) : string :=
  default "" (OAuth.nonce d).

(** One nonce issued at time 0. *)
Definition oauthStates : OAuth.oauthStates :=
  (OAuth.initiate encodeState id "client" "https://app.example/cb"
     "n1" None None 0 ∅).2.

(** A Roblox client whose unban call succeeds. *)
Definition unbanUser (universeId userId apiKey : string)
    : Routes.unbanResult :=
  Routes.mkUnban true None.

(** A network on which every webhook request gets a 500 reply. *)
Definition down (k : nat) : Webhook.fetched := Webhook.Response 500.

End Sample.

(** ** More of JavaScript's values *)

(** [!!v] for a value that may be missing. *)
Definition js_truthy (v : option jsval) : bool :=
  match v with
  | None | Some JNull | Some JUndefined => false
  | Some (JBool b) => b
  | Some (JNum n) => negb (n =? 0)%Z
  | Some (JStr s) => negb (String.eqb s "")
  end.

(** [a || b] *)
Definition js_or (a : option jsval) (b : jsval) : jsval :=
  if js_truthy a then default JUndefined a else b.

(** The value as a key of a table: only a string names a row. *)
Definition js_key (v : option jsval) : option string :=
  match v with
  | Some (JStr s) => Some s
  | _ => None
  end.

(** ** Logging out, and the administrator sessions *)

Module Auth.

(** [GET /api/auth/logout]; the reply also clears the [session] cookie. *)
Definition logout (cookie : option string) (ss : Session.sessions)
    : reply unit * Session.sessions :=
  let ss := if truthy cookie then delete (default "" cookie) ss else ss in
  (Redirect "/", ss).

End Auth.

Module Admin.

Record t := mk {
  id : string;
  username : string;
  passwordHash : string;
  role : string;
  lastLoginAt : option Z
}.

(** [const adminSessions = new Map<string, string>()], token to admin id. *)
Abbreviation adminSessions := (gmap string string).

(** [const { username, password } = req.body]: the values of the JSON
    body under the two keys, if any. *)
Record loginBody := mkLoginBody {
  b_username : option jsval;
  b_password : option jsval
}.

(** [{ id, username, role }] *)
Record identity := mkIdentity {
  i_id : string;
  i_username : string;
  i_role : string
}.

Definition unauthorized : reply unit + string :=
  inl (Error 401 "Not authenticated as admin").

(** [requireAdminAuth]: the 401 reply, or the admin id handed to the
    route ([req.admin = { id: adminId }]). *)
Definition requireAdminAuth (cookie : option string) (ss : adminSessions)
    : reply unit + string :=
  match cookie with
  | None => unauthorized
  | Some token =>
      if negb (truthy cookie) then unauthorized else
      match ss !! token with
      | None => unauthorized
      | Some adminId => inr adminId
      end
  end.

(** [POST /api/admin/logout]; the reply also clears the cookie. *)
Definition logout (cookie : option string) (ss : adminSessions)
    : reply bool * adminSessions :=
  let ss := if truthy cookie then delete (default "" cookie) ss else ss in
  (Json true, ss).

(** Modelled from the spec: [storage.getAdminByUsername], the admin row
    with this username, if any. *)
Definition getAdminByUsername (name : string) (admins : gmap string t)
    : option t :=
  Storage.find_row (λ a, username a = name) admins.

(** Modelled from the spec: [storage.updateAdminLastLogin], a single-row
    update of the last-login column. *)
Definition updateAdminLastLogin (adminId : string) (now : Z)
    (admins : gmap string t) : gmap string t :=
  alter (λ a, mk (id a) (username a) (passwordHash a) (role a) (Some now))
    adminId admins.

Section Login.
(** [bcrypt.compare(password, hash)] of [bcryptjs] on two strings.
    Given a password that is not a string the call rejects, and the
    route's [catch] answers 500. *)
Variable compare : string → string → bool.

(** [POST /api/admin/login]; [token] is [randomBytes(32).toString('hex')],
    which the reply also sets as the [adminSession] cookie. A username
    that is not a string names no administrator. *)
Definition login (token : string) (body : loginBody) (now : Z)
    (admins : gmap string t) (ss : adminSessions)
    : reply identity * gmap string t * adminSessions :=
  if negb (js_truthy (b_username body)) || negb (js_truthy (b_password body))
  then (Error 400 "Username and password required", admins, ss)
  else
    match js_key (b_username body)
          ≫= (λ name, getAdminByUsername name admins) with
    | None => (Error 401 "Invalid credentials", admins, ss)
    | Some admin =>
        match b_password body with
        | Some (JStr password) =>
            let isValid := compare password (passwordHash admin) in
            if negb isValid then (Error 401 "Invalid credentials", admins, ss)
            else
              let ss := <[token := id admin]> ss in
              let admins := updateAdminLastLogin (id admin) now admins in
              (Json (mkIdentity (id admin) (username admin) (role admin)),
               admins, ss)
        | _ => (Error 500 "Login failed", admins, ss)
        end
    end.
End Login.

End Admin.

(** One administrator, and a stand-in for the password hash check. *)
Module AdminSample.

Definition compare (password hash : string) : bool :=
  String.eqb ("hash:" ++ password) hash.

Definition admins : gmap string Admin.t :=
  {["ad1" := Admin.mk "ad1" "admin" "hash:admin123" "admin" None]}.

Definition goodLogin : Admin.loginBody :=
  Admin.mkLoginBody (Some (JStr "admin")) (Some (JStr "admin123")).

End AdminSample.

(** ** API keys of game servers: [validateApiKey] and [/api/api-keys] *)

Module ApiKey.
Record t := mk {
  id : string;
  serverId : string;
  name : string;
  keyHash : string;
  keyPreview : string;
  scopes : list string;
  lastUsedAt : option Z
}.
End ApiKey.

Module GameApi.

(** The API key table, by primary key. *)
Abbreviation apiKeys := (gmap string ApiKey.t).

(** Modelled from the spec: [storage.getApiKeyByHash], the key row with
    this hash, if any. *)
Definition getApiKeyByHash (hash : string) (keys : apiKeys)
    : option ApiKey.t :=
  Storage.find_row (λ k, ApiKey.keyHash k = hash) keys.

(** Modelled from the spec: [storage.updateApiKeyLastUsed], a single-row
    update of the last-used column. *)
Definition updateApiKeyLastUsed (id : string) (now : Z) (keys : apiKeys)
    : apiKeys :=
  alter (λ k, ApiKey.mk (ApiKey.id k) (ApiKey.serverId k) (ApiKey.name k)
                (ApiKey.keyHash k) (ApiKey.keyPreview k) (ApiKey.scopes k)
                (Some now)) id keys.

(** Modelled from the spec: [storage.getApiKey], read by primary key. *)
Definition getApiKey (id : string) (keys : apiKeys) : option ApiKey.t :=
  keys !! id.

(** Modelled from the spec: [storage.deleteApiKey], delete by primary
    key. *)
Definition deleteApiKey (id : string) (keys : apiKeys) : apiKeys :=
  delete id keys.

(** Modelled from the spec: [storage.createApiKey], which inserts the
    row under an id the table has not used and returns it. *)
Definition createApiKey (serverId name keyHash keyPreview : string)
    (scopes : list string) (keys : apiKeys) : ApiKey.t * apiKeys :=
  let id := fresh_string "key" keys in
  let row := ApiKey.mk id serverId name keyHash keyPreview scopes None in
  (row, <[id := row]> keys).

(** [const { name, serverId, scopes } = req.body] *)
Record createBody := mkCreateBody {
  b_name : option string;
  b_serverId : option string;
  b_scopes : option (list string)
}.

(** [{ ...key, apiKey }]: the row, and the key itself, sent this once. *)
Record created := mkCreated { row : ApiKey.t; apiKey : string }.

Section Keys.
(** [createHash("sha256").update(s).digest("hex")] *)
Variable sha256 : string → string.

(** [validateApiKey]: the 401 reply, or the key row handed to the route
    ([req.apiKey = key; req.serverId = key.serverId]). *)
Definition validateApiKey (authorization : option string) (now : Z)
    (keys : apiKeys) : (reply unit + ApiKey.t) * apiKeys :=
  match authorization with
  | None => (inl (Error 401 "Missing or invalid API key"), keys)
  | Some authHeader =>
      if negb (truthy authorization)
         || negb (String.prefix "Bearer " authHeader)
      then (inl (Error 401 "Missing or invalid API key"), keys)
      else
        let apiKey :=
          String.substring 7 (String.length authHeader - 7) authHeader in
        let keyHash := sha256 apiKey in
        match getApiKeyByHash keyHash keys with
        | None => (inl (Error 401 "Invalid API key"), keys)
        | Some key => (inr key, updateApiKeyLastUsed (ApiKey.id key) now keys)
        end
  end.

(** [POST /api/api-keys]; [random] is [randomBytes(32).toString("hex")]. *)
Definition postApiKey (user : User.t) (random : string) (body : createBody)
    (st : Storage.t) (keys : apiKeys) : reply created * apiKeys :=
  if negb (truthy (b_name body)) || negb (truthy (b_serverId body))
     || from_option (λ scopes, bool_decide (length scopes = 0)) true
          (b_scopes body)
  then (Error 400 "Missing required fields", keys)
  else
    let serverId := default "" (b_serverId body) in
    match Storage.getServer serverId st with
    | None => (Error 403 "Not authorized", keys)
    | Some server =>
        if negb (String.eqb (Server.ownerId server) (User.id user)) then
          (Error 403 "Not authorized", keys)
        else
          let apiKey := "blox_" ++ random in
          let keyHash := sha256 apiKey in
          let keyPreview := String.substring 0 12 apiKey in
          let '(key, keys) :=
            createApiKey serverId (default "" (b_name body)) keyHash
              keyPreview (default [] (b_scopes body)) keys in
          (Json (mkCreated key apiKey), keys)
    end.
End Keys.

(** [DELETE /api/api-keys/:id] *)
Definition deleteApiKeyRoute (user : User.t) (id : string) (st : Storage.t)
    (keys : apiKeys) : reply bool * apiKeys :=
  match getApiKey id keys with
  | None => (Error 404 "API key not found", keys)
  | Some key =>
      match Storage.getServer (ApiKey.serverId key) st with
      | None => (Error 403 "Not authorized", keys)
      | Some server =>
          if negb (String.eqb (Server.ownerId server) (User.id user)) then
            (Error 403 "Not authorized", keys)
          else (Json true, deleteApiKey id keys)
      end
  end.

End GameApi.

(** No two ban rows are for the same Roblox user on the same server (the
    ban table is unique on that pair). *)
Definition bans_unique (st : Storage.t) : Prop :=
  ∀ k1 k2 b1 b2,
    Storage.bans st !! k1 = Some b1 → Storage.bans st !! k2 = Some b2 →
    Ban.serverId b1 = Ban.serverId b2 →
    Ban.robloxUserId b1 = Ban.robloxUserId b2 → k1 = k2.

(** A stand-in for the hash, and alice's request for a key. *)
Module KeySample.

Definition sha256 (s : string) : string := "h(" ++ s ++ ")".

Definition request : GameApi.createBody :=
  GameApi.mkCreateBody (Some "game") (Some "s1") (Some ["bans:read"]).

End KeySample.

(** ** Announcements of the further routes *)

(** More messages handed to [broadcastToClients]. *)
Inductive announcement :=
  | appeal_created (appealId serverId : string)
  | ticket_created (ticketId : string) (serverId : jsval)
  | ticket_updated (ticketId : string) (status : option jsval).

(** What a further route fires: an announcement to the browser clients,
    or an appeal webhook call. *)
Inductive event :=
  | Announce (message : announcement)
  | Call (webhookUrl : string) (appeal : Appeal.t) (ban : Ban.t)
      (act : Webhook.action).

(** ** [POST /api/appeals] *)

Module AppealFiling.

(** [const { banId, serverId, discordUserId, appealText } = req.body] *)
Record body := mkBody {
  banId : option string;
  serverId : option string;
  discordUserId : option string;
  appealText : option string
}.

(** Modelled from the spec: [storage.createAppeal], which inserts the
    row under an id the store has not used and returns it. *)
Definition createAppeal
    (row : string → Appeal.t) (st : Storage.t) : Appeal.t * Storage.t :=
  let id := fresh_string "appeal" (Storage.appeals st) in
  (row id, Storage.set_appeals <[id := row id]> st).

Definition postAppeal (user : User.t) (b : body) (st : Storage.t)
    : reply Appeal.t * Storage.t * list event :=
  if negb (truthy (banId b)) || negb (truthy (serverId b))
     || negb (truthy (appealText b))
  then (Error 400 "Missing required fields", st, [])
  else
    let banId := default "" (banId b) in
    let serverId := default "" (serverId b) in
    let '(appeal, st) :=
      createAppeal
        (λ id, Appeal.mk id banId serverId (truthy_str (discordUserId b))
                 (default "" (appealText b)) "pending" None None None) st in
    let server := Storage.getServer serverId st in
    let ban := Storage.getBan banId st in
    let webhookUrl :=
      match server with
      | Some server => Server.settings_ server ≫= Server.banAppealWebhook
      | None => None
      end in
    (Json appeal, st,
     Announce (appeal_created (Appeal.id appeal) serverId)
     :: match ban with
        | Some ban =>
            if truthy webhookUrl
            then [Call (default "" webhookUrl) appeal ban Webhook.created]
            else []
        | None => []
        end).

End AppealFiling.

(** ** Tickets: [POST /api/tickets] and [PATCH /api/tickets/:id] *)

Module Tickets.

(** The ticket table; a row is the object the store returns. *)
Abbreviation tickets := (gmap string (gmap string jsval)).

(** Modelled from the spec: [storage.getTicket], read by primary key. *)
Definition getTicket (id : string) (ts : tickets)
    : option (gmap string jsval) :=
  ts !! id.

(** Modelled from the spec: [storage.createTicket], which inserts the
    row under an id the table has not used, with that id in it, and
    returns it. *)
Definition createTicket (row : gmap string jsval) (ts : tickets)
    : gmap string jsval * tickets :=
  let id := fresh_string "ticket" ts in
  (<["id" := JStr id]> row, <[id := <["id" := JStr id]> row]> ts).

(** Modelled from the spec: [storage.updateTicket], a single-row update
    with the given object: its keys overwrite the row's. *)
Definition updateTicket (id : string) (changes : gmap string jsval)
    (ts : tickets) : option (gmap string jsval) * tickets :=
  match ts !! id with
  | Some t => (Some (changes ∪ t), <[id := changes ∪ t]> ts)
  | None => (None, ts)
  end.

(** The server named by [serverId] is owned by the requester. *)
Definition owns (user : User.t) (serverId : option jsval) (st : Storage.t)
    : bool :=
  match js_key serverId ≫= (λ s, Storage.getServer s st) with
  | Some server => String.eqb (Server.ownerId server) (User.id user)
  | None => false
  end.

Definition postTicket (user : User.t) (body : gmap string jsval)
    (st : Storage.t) (ts : tickets)
    : reply (gmap string jsval) * tickets * list event :=
  if negb (js_truthy (body !! "serverId"))
     || negb (js_truthy (body !! "discordUserId"))
     || negb (js_truthy (body !! "discordUsername"))
     || negb (js_truthy (body !! "title"))
     || negb (js_truthy (body !! "description"))
  then (Error 400 "Missing required fields", ts, [])
  else if negb (owns user (body !! "serverId") st) then
    (Error 403 "Not authorized", ts, [])
  else
    let field k := default JUndefined (body !! k) in
    let row : gmap string jsval :=
      <["metadata" := js_or (body !! "metadata") JNull]>
      (<["closedAt" := JNull]> (<["closedBy" := JNull]>
      (<["assignedTo" := JNull]>
      (<["priority" := js_or (body !! "priority") (JStr "medium")]>
      (<["status" := JStr "open"]>
      (<["category" := js_or (body !! "category") (JStr "general")]>
      (<["description" := field "description"]>
      (<["title" := field "title"]>
      (<["discordUsername" := field "discordUsername"]>
      (<["discordUserId" := field "discordUserId"]>
      (<["serverId" := field "serverId"]> ∅))))))))))) in
    let '(ticket, ts) := createTicket row ts in
    (Json ticket, ts,
     [Announce (ticket_created
                  (default "" (js_key (ticket !! "id"))) (field "serverId"))]).

Definition patchTicket (user : User.t) (id : string)
    (body : gmap string jsval) (now : Z) (st : Storage.t) (ts : tickets)
    : reply (option (gmap string jsval)) * tickets * list event :=
  match getTicket id ts with
  | None => (Error 404 "Ticket not found", ts, [])
  | Some ticket =>
      if negb (owns user (ticket !! "serverId") st) then
        (Error 403 "Not authorized", ts, [])
      else
        let closing :=
          bool_decide (body !! "status" = Some (JStr "closed"))
          && negb (bool_decide (ticket !! "status" = Some (JStr "closed"))) in
        let updateData :=
          if closing
          then <["closedAt" := JNum now]>
                 (<["closedBy" := JStr (User.id user)]> body)
          else body in
        let '(updated, ts) := updateTicket id updateData ts in
        (Json updated, ts, [Announce (ticket_updated id (body !! "status"))])
  end.

End Tickets.

(** carol's appeal against the sample permanent ban. *)
Module FilingSample.

Definition request : AppealFiling.body :=
  AppealFiling.mkBody (Some "b2") (Some "s1") None (Some "it was my brother").

End FilingSample.

(** alice opens a ticket on the sample server; the body tries to have
    it closed from the start. *)
Module TicketSample.

Definition request : gmap string jsval :=
  <["status" := JStr "closed"]> (<["closedBy" := JStr "u9"]>
  (<["description" := JStr "stuck in the lobby"]> (<["title" := JStr "help"]>
  (<["discordUsername" := JStr "dave"]> (<["discordUserId" := JStr "d9"]>
  (<["serverId" := JStr "s1"]> ∅)))))).

Definition opened : Tickets.tickets :=
  (Tickets.postTicket Sample.alice request Sample.store ∅).1.2.

Definition row : gmap string jsval := default ∅ (opened !! "ticket").

End TicketSample.

(** ** Reading the active shift, and removing a team member *)

Module Team.
Import Storage.

(** [GET /api/shifts/active]; [serverId] is [req.query.serverId]. *)
Definition shiftsActive (user : User.t) (serverId : option string)
    (st : Storage.t) : reply (option Shift.t) :=
  if negb (truthy serverId) then Error 400 "serverId required" else
  let serverId := default "" serverId in
  match getServer serverId st with
  | None => Error 404 "Server not found"
  | Some server =>
      if negb (Routes.ownerOrMember server user serverId st) then
        Error 403 "Not authorized - you must be a member of this server"
      else Json (getActiveShiftByUserId (User.id user) serverId st)
  end.

Definition set_serverMembers
    (f : gmap string Member.t → gmap string Member.t) (st : Storage.t)
    : Storage.t :=
  Storage.mk (users st) (servers st) (f (serverMembers st)) (bans st)
    (appeals st) (shifts st) (transactions st) (escrows st)
    (transactionLogs st).

(** Modelled from the spec: [storage.deleteServerMember], delete by
    primary key. *)
Definition deleteServerMember (memberId : string) (st : Storage.t)
    : Storage.t :=
  set_serverMembers (delete memberId) st.

(** [DELETE /api/servers/:serverId/members/:memberId] *)
Definition deleteMember (user : User.t) (serverId memberId : string)
    (st : Storage.t) : reply bool * Storage.t :=
  match getServer serverId st with
  | None => (Error 403 "Not authorized", st)
  | Some server =>
      if negb (String.eqb (Server.ownerId server) (User.id user)) then
        (Error 403 "Not authorized", st)
      else (Json true, deleteServerMember memberId st)
  end.

(** [user] has no membership row on [server] other than [memberId]. *)
Definition only_membership (user server memberId : string)
    (st : Storage.t) : Prop :=
  ∀ k m, serverMembers st !! k = Some m →
    Member.userId m = user → Member.serverId m = server → k = memberId.

End Team.

(** ** Marketplace listings and the transaction log *)

Module Market.

(** The listing table; a row is the object the store returns. *)
Abbreviation listings := (gmap string (gmap string jsval)).

(** Modelled from the spec: [storage.getListing], read by primary key. *)
Definition getListing (id : string) (ls : listings)
    : option (gmap string jsval) :=
  ls !! id.

(** Modelled from the spec: [storage.createListing], which inserts the
    row under an id the table has not used, with that id in it, and
    returns it. *)
Definition createListing (row : gmap string jsval) (ls : listings)
    : gmap string jsval * listings :=
  let id := fresh_string "listing" ls in
  (<["id" := JStr id]> row, <[id := <["id" := JStr id]> row]> ls).

(** Modelled from the spec: [storage.updateListing], a single-row
    update with the given object: its keys overwrite the row's. *)
Definition updateListing (id : string) (changes : gmap string jsval)
    (ls : listings) : option (gmap string jsval) * listings :=
  match ls !! id with
  | Some l => (Some (changes ∪ l), <[id := changes ∪ l]> ls)
  | None => (None, ls)
  end.

(** Modelled from the spec: [storage.deleteListing], delete by primary
    key. *)
Definition deleteListing (id : string) (ls : listings) : listings :=
  delete id ls.

(** [listing.sellerId !== req.user.id] *)
Definition notSeller (user : User.t) (listing : gmap string jsval) : bool :=
  negb (bool_decide (listing !! "sellerId" = Some (JStr (User.id user)))).

(** [POST /api/marketplace/listings] *)
Definition postListing (user : User.t) (body : gmap string jsval)
    (ls : listings) : reply (gmap string jsval) * listings :=
  let '(listing, ls) :=
    createListing (<["sellerId" := JStr (User.id user)]> body) ls in
  (Json listing, ls).

(** [PATCH /api/marketplace/listings/:id] *)
Definition patchListing (user : User.t) (id : string)
    (body : gmap string jsval) (ls : listings)
    : reply (option (gmap string jsval)) * listings :=
  match getListing id ls with
  | None => (Error 404 "Listing not found", ls)
  | Some listing =>
      if notSeller user listing then (Error 403 "Not authorized", ls)
      else
        let '(updated, ls) := updateListing id body ls in
        (Json updated, ls)
  end.

(** [DELETE /api/marketplace/listings/:id] *)
Definition deleteListingRoute (user : User.t) (id : string) (ls : listings)
    : reply bool * listings :=
  match getListing id ls with
  | None => (Error 404 "Listing not found", ls)
  | Some listing =>
      if notSeller user listing then (Error 403 "Not authorized", ls)
      else (Json true, deleteListing id ls)
  end.

(** Modelled from the spec: [storage.getTransactionLogs], the log rows
    of this transaction, oldest first. *)
Definition getTransactionLogs (transactionId : string) (st : Storage.t)
    : list Transaction.log :=
  filter (λ l, Transaction.transactionId l = Some (JStr transactionId))
    (Storage.transactionLogs st).

(** [GET /api/marketplace/transactions/:transactionId/logs] *)
Definition getLogs (user : User.t) (transactionId : string) (st : Storage.t)
    : reply (list Transaction.log) :=
  match Storage.getTransaction transactionId st with
  | None => Error 404 "Transaction not found"
  | Some transaction =>
      if negb (String.eqb (Transaction.sellerId transaction) (User.id user))
         && negb (String.eqb (Transaction.buyerId transaction) (User.id user))
      then Error 403 "Not authorized"
      else Json (getTransactionLogs transactionId st)
  end.

(** [GET /api/marketplace/transactions/:id] *)
Definition getTransactionRoute (user : User.t) (id : string)
    (st : Storage.t) : reply Transaction.t :=
  match Storage.getTransaction id st with
  | None => Error 404 "Transaction not found"
  | Some transaction =>
      if negb (String.eqb (Transaction.sellerId transaction) (User.id user))
         && negb (String.eqb (Transaction.buyerId transaction) (User.id user))
      then Error 403 "Not authorized"
      else Json transaction
  end.

End Market.

(** carol lists an item. *)
Module MarketSample.

Definition listings : Market.listings :=
  (Market.postListing Sample.carol {["title" := JStr "dominus"]} ∅).2.

Definition listing : gmap string jsval := default ∅ (listings !! "listing").

End MarketSample.

(** ** The health check: [isDatabaseAvailable] and [GET /api/health] *)

Module Health.

(** Which of [poolInstance] and [dbInstance] are set ([server/db.ts]). *)
Record db := mkDb { poolInstance : bool; dbInstance : bool }.

(** [isDatabaseAvailable()] *)
Definition isDatabaseAvailable (d : db) : bool :=
  dbInstance d && poolInstance d.

(** The parts of the report the route decides. *)
Record report := mkReport {
  status : string;
  available : bool;
  connected : bool;
  error : option string;
  warnings : list string
}.

(** [GET /api/health]; [query] is what [pool.query('SELECT 1')] comes
    to: [None] when it resolves, the message when it rejects. The reply
    is the status code with the report. *)
Definition health (d : db) (query : option string) : Z * report :=
  let available := isDatabaseAvailable d in
  let '(connected, error) :=
    if isDatabaseAvailable d && poolInstance d then
      match query with
      | None => (true, None)
      | Some message => (false, Some message)
      end
    else (false, None) in
  let '(status, warnings) :=
    if negb available then
      ("degraded", ["Database not configured - using in-memory storage"])
    else if negb connected then ("degraded", ["Database connection failed"])
    else ("healthy", []) in
  let statusCode := if String.eqb status "healthy" then 200%Z else 503%Z in
  (statusCode, mkReport status available connected error warnings).

End Health.

(** ** Loading the environment: [server/env.ts] *)

Module Env.

(** [process.env], and the parsed content of a [.env] file. *)
Abbreviation env := (gmap string string).

Definition secretKeys : list string :=
  ["DATABASE_URL"; "ENCRYPTION_KEY"; "PGHOST"; "PGPORT"; "PGUSER";
   "PGPASSWORD"; "PGDATABASE"].

(** The [secretKeys.forEach] pass: non-empty values are put aside in
    [replitSecrets], empty ones are deleted from the environment. *)
Definition preserve (keys : list string) (e : env) : env * env :=
  foldl
    (λ '(replitSecrets, e) key,
       match e !! key with
       | Some value =>
           if String.eqb value "" then (replitSecrets, delete key e)
           else (<[key := value]> replitSecrets, e)
       | None => (replitSecrets, e)
       end)
    (∅, e) keys.

(** [config({ path, override: true })]: every key the file defines is
    assigned; [None] is a file that could not be loaded. *)
Definition config (dotenv : option env) (e : env) : env :=
  match dotenv with
  | Some parsed => parsed ∪ e
  | None => e
  end.

(** The module body: put the secrets aside, load the file, put the
    secrets back. *)
Definition load (dotenv : option env) (e : env) : env :=
  let '(replitSecrets, e) := preserve secretKeys e in
  let e := config dotenv e in
  replitSecrets ∪ e.

(** The value when it passes [value !== undefined && value !== ''],
    the test of the first branch. *)
Definition kept (v : option string) : option string :=
  match v with
  | Some v => if String.eqb v "" then None else Some v
  | None => None
  end.

End Env.

(** ** The request log line of [server/index.ts] *)

Module AccessLog.

(** A JavaScript string as its UTF-16 code units. *)
Abbreviation text := (list N).

(** The code units of an ASCII literal. *)
Fixpoint units (s : string) : text :=
  match s with
  | EmptyString => []
  | String a s => Ascii.N_of_ascii a :: units s
  end.

(** ["…"], U+2026. *)
Definition ellipsis : N := 8230.

(** [if (logLine.length > 80) logLine = logLine.slice(0, 79) + "…"] *)
Definition clip (logLine : text) : text :=
  if bool_decide (80 < length logLine)
  then (take 79 logLine ++ [ellipsis])%list
  else logLine.

(** The [res.on("finish")] handler: what is handed to [log], if
    anything. [statusCode] and [duration] are the decimal renderings of
    the two numbers, [captured] the JSON text of the captured reply when a
    truthy one was captured. *)
Definition onFinish (method path statusCode duration : text)
    (captured : option text) : option text :=
  if bool_decide (units "/api" `prefix_of` path) then
    let logLine :=
      (method ++ units " " ++ path ++ units " " ++ statusCode
       ++ units " in " ++ duration ++ units "ms")%list in
    let logLine :=
      match captured with
      | Some json => (logLine ++ units " :: " ++ json)%list
      | None => logLine
      end in
    Some (clip logLine)
  else None.

End AccessLog.

(** * Properties *)

(** ** Rows found by a predicate *)

Section FindRow.
Context {A : Type} (P : A → Prop) `{∀ x, Decision (P x)}.
Implicit Types m : gmap string A.

Lemma find_row_Some m x :
  Storage.find_row P m = Some x → P x ∧ ∃ k, m !! k = Some x.
Proof.
  unfold Storage.find_row. intros Hf.
  destruct (head _) as [[k y]|] eqn:Hh; simplify_eq/=.
  apply head_Some_elem_of, elem_of_map_to_list in Hh.
  apply map_lookup_filter_Some in Hh as [Hk HP]. eauto.
Qed.

Lemma find_row_None m :
  Storage.find_row P m = None ↔ ∀ k x, m !! k = Some x → ¬ P x.
Proof.
  unfold Storage.find_row. rewrite fmap_None, head_None, map_to_list_empty_iff.
  rewrite map_empty_filter. unfold map_Forall. naive_solver.
Qed.
End FindRow.

Lemma find_row_unique {A} (P : A → Prop) `{∀ x, Decision (P x)}
    (m : gmap string A) k x :
  m !! k = Some x → P x →
  (∀ k' x', m !! k' = Some x' → P x' → k' = k) →
  Storage.find_row P m = Some x.
Proof.
  intros Hk HP Huniq. destruct (Storage.find_row P m) as [y|] eqn:Hf.
  - apply find_row_Some in Hf as [HPy [k' Hk']].
    rewrite (Huniq k' y Hk' HPy) in Hk'. congruence.
  - rewrite find_row_None in Hf. by destruct (Hf k x).
Qed.

(** ** Truthiness *)

Lemma truthy_Some (t : string) : truthy (Some t) = true ↔ t ≠ "".
Proof.
  simpl. rewrite negb_true_iff. split.
  - intros Hne ->. by rewrite String.eqb_refl in Hne.
  - intros Hne. by apply String.eqb_neq.
Qed.

Lemma truthy_is_Some (s : option string) : truthy s = true → ∃ t, s = Some t ∧ t ≠ "".
Proof. destruct s as [t|]; [|done]. rewrite truthy_Some. eauto. Qed.

(** ** Sessions *)

Section SessionFacts.
Import Session.
Variable getUser : string → option User.t.

Lemma getUserFromSession_stale cookie now (ss : sessions) :
  stale cookie now ss → (getUserFromSession getUser cookie now ss).1 = None.
Proof.
  unfold getUserFromSession.
  intros [Hf|[(t & -> & Hn)|(t & s & -> & Hs & Hexp)]].
  - by rewrite Hf.
  - rewrite Hn. by destruct (truthy (Some t)).
  - rewrite Hs, bool_decide_eq_true_2 by done. by destruct (truthy (Some t)).
Qed.

Lemma getUserFromSession_absent t now (ss : sessions) :
  ss !! t = None → (getUserFromSession getUser (Some t) now ss).1 = None.
Proof. intros Hn. apply getUserFromSession_stale. right; left; eauto. Qed.

Lemma requireAuth_unauthorized cookie now (ss : sessions) :
  (requireAuth getUser cookie now ss).1 = unauthorized
  ↔ (getUserFromSession getUser cookie now ss).1 = None.
Proof.
  unfold requireAuth.
  destruct (getUserFromSession getUser cookie now ss) as [[u|] ss']; simpl;
    split; (done || discriminate).
Qed.

(** The map only ever loses the looked-up token. *)
Lemma getUserFromSession_resolve cookie now (ss : sessions) :
  sessions_resolve getUser ss →
  sessions_resolve getUser (getUserFromSession getUser cookie now ss).2.
Proof.
  intros Hres. unfold getUserFromSession.
  destruct (truthy cookie); simpl; [|done].
  destruct cookie as [t|]; [|done].
  destruct (ss !! t) as [s|]; [case_bool_decide|]; simpl;
    try done; by apply map_Forall_delete.
Qed.

Lemma createSession_resolve token userId now (ss : sessions) :
  is_Some (getUser userId) → sessions_resolve getUser ss →
  sessions_resolve getUser (createSession token userId now ss).2.
Proof. intros Hu Hres. by apply map_Forall_insert_2. Qed.
End SessionFacts.

(** C9. A request to a route behind [requireAuth] gets the 401 reply
    exactly when its session cookie is absent, not in the session map,
    or past its expiry; the expiry of a session is seven days after its
    creation; and looking up an expired token deletes its entry, after
    which that token is rejected at any later time. The session map is
    one whose entries name stored users, as every map built by
    [createSession] is. *)
Theorem requireAuth_rejects_exactly_stale_tokens
    (getUser : string → option User.t) (cookie : option string) (now : Z)
    (ss : Session.sessions) :
  Session.sessions_resolve getUser ss →
  ((Session.requireAuth getUser cookie now ss).1 = Session.unauthorized
   ↔ Session.stale cookie now ss)
  ∧ (∀ t s, cookie = Some t → t ≠ "" → ss !! t = Some s →
       (Session.expiresAt s < now)%Z →
       (Session.requireAuth getUser cookie now ss).2 = delete t ss
       ∧ ∀ later,
           (Session.requireAuth getUser cookie later (delete t ss)).1
           = Session.unauthorized)
  ∧ (∀ token userId u created, token ≠ "" → getUser userId = Some u →
       (Session.requireAuth getUser (Some token) now
          (Session.createSession token userId created ss).2).1 = inr u
       ↔ (now ≤ created + 7 * 24 * 60 * 60 * 1000)%Z).
Proof.
  intros Hres. split; [|split].
  - rewrite requireAuth_unauthorized. split.
    + unfold Session.getUserFromSession, Session.stale.
      destruct (truthy cookie) eqn:Htr; simpl; [|by left].
      apply truthy_is_Some in Htr as (t & -> & Ht).
      destruct (ss !! t) as [s|] eqn:Hs; [|right; left; eauto].
      case_bool_decide as Hexp; [right; right; eauto|].
      simpl. intros Hnone. destruct (Hres t s Hs) as [u Hu]. congruence.
    + apply getUserFromSession_stale.
  - intros t s -> Ht Hs Hexp. split.
    + unfold Session.requireAuth, Session.getUserFromSession.
      apply truthy_Some in Ht. rewrite Ht, Hs. simpl.
      by rewrite bool_decide_eq_true_2.
    + intros later. apply requireAuth_unauthorized, getUserFromSession_absent.
      apply lookup_delete_eq.
  - intros token userId u created Ht Hu.
    unfold Session.requireAuth, Session.getUserFromSession, Session.createSession.
    apply truthy_Some in Ht. rewrite Ht. simpl. rewrite lookup_insert_eq. simpl.
    unfold Session.SESSION_LIFETIME. case_bool_decide as Hexp; simpl.
    + split; [discriminate|lia].
    + rewrite Hu. split; [lia|done].
Qed.

(** A run of [requireAuth] on the sample session map, checked at a time
    inside alice's session. *)
Lemma requireAuth_rejects_exactly_stale_tokens_witness :
  Session.sessions_resolve Sample.getUser Sample.sessions
  ∧ ((Session.requireAuth Sample.getUser (Some "tok") 2000 Sample.sessions).1
       = Session.unauthorized
     ↔ Session.stale (Some "tok") 2000 Sample.sessions).
Proof.
  assert (Hres : Session.sessions_resolve Sample.getUser Sample.sessions)
    by (unfold Session.sessions_resolve; compute_done).
  split; [exact Hres|].
  apply (requireAuth_rejects_exactly_stale_tokens
           Sample.getUser (Some "tok") 2000 Sample.sessions Hres).
Defined.

(** ** The OAuth nonce *)

Section OAuthFacts.
Import OAuth.
Variable decodeState : string → option stateData.
Variable encodeURIComponent : string → string.

(** The callback, once past its [error], [code] and [state] presence
    checks, as a function of what the state decodes to. *)
Lemma callback_checked q raw now (st : oauthStates) :
  truthy (error q) = false → truthy (code q) = true →
  state q = Some raw → raw ≠ "" →
  callback decodeState encodeURIComponent q now st =
    match decodeState raw with
    | None => (Rejected "/?error=invalid_state_format", st)
    | Some d =>
        match nonce d ≫= (λ n, pair n <$> st !! n) with
        | None => (Rejected "/?error=invalid_state", st)
        | Some (n, s) =>
            if bool_decide (expiresAt s < now)%Z
            then (Rejected "/?error=state_expired", delete n st)
            else (TokenExchange (default "" (code q)) (invite d) (returnTo d),
                  delete n st)
        end
    end.
Proof.
  intros He Hc Hs Hraw. unfold callback. rewrite He, Hc, Hs. simpl.
  apply truthy_Some in Hraw. simpl in Hraw. by rewrite Hraw.
Qed.

(** A callback that reaches the token exchange consumed a stored,
    unexpired nonce. *)
Lemma callback_proceeds_inv q now (st : oauthStates) :
  proceeds (callback decodeState encodeURIComponent q now st).1 →
  valid_state decodeState q now st
  ∧ ∃ n, nonce_of decodeState q = Some n
         ∧ (callback decodeState encodeURIComponent q now st).2 = delete n st.
Proof.
  unfold callback, valid_state, nonce_of.
  destruct (truthy (error q)); [done|].
  destruct (truthy (code q)); [|done]. simpl.
  destruct (truthy (state q)) eqn:Hs; [|done]. simpl.
  apply truthy_is_Some in Hs as (raw & -> & Hraw). simpl.
  destruct (decodeState raw) as [d|] eqn:Hd; [|done].
  destruct (nonce d) as [n|] eqn:Hn; [|done]. simpl.
  destruct (st !! n) as [s|] eqn:Hst; [|done]. simpl.
  case_bool_decide as Hexp; [done|]. simpl. intros _. split.
  - exists raw, d, n, s. repeat split; try done. lia.
  - eauto.
Qed.

(** A nonce that is not in the store validates nothing. *)
Lemma callback_unknown_nonce q n now (st : oauthStates) :
  nonce_of decodeState q = Some n → st !! n = None →
  ¬ proceeds (callback decodeState encodeURIComponent q now st).1.
Proof.
  intros Hn Hst Hp. apply callback_proceeds_inv in Hp as [Hv _].
  destruct Hv as (raw & d & n' & s & Hs & _ & Hd & Hn' & Hs' & _).
  unfold nonce_of in Hn. rewrite Hs, Hd in Hn. congruence.
Qed.
End OAuthFacts.

(** C7, as amended. For a callback request that carries an authorization
    code and no OAuth error parameter, the handler goes on to the token
    exchange exactly when the request's state names a nonce that is in
    the nonce store and has not expired; otherwise it redirects to an
    error page. A nonce is stored by [/api/auth/discord] with an expiry
    ten minutes after issue, and is deleted when a callback uses it, so
    no later callback naming the same nonce reaches the token exchange. *)
Theorem callback_proceeds_iff_valid_nonce
    (decodeState : string → option OAuth.stateData)
    (encodeURIComponent : string → string)
    (q : OAuth.query) (now : Z) (st : OAuth.oauthStates) :
  truthy (OAuth.code q) = true → truthy (OAuth.error q) = false →
  (OAuth.proceeds (OAuth.callback decodeState encodeURIComponent q now st).1
   ↔ OAuth.valid_state decodeState q now st)
  ∧ (¬ OAuth.proceeds (OAuth.callback decodeState encodeURIComponent q now st).1 →
     ∃ e, (OAuth.callback decodeState encodeURIComponent q now st).1
          = OAuth.Rejected ("/?error=" ++ e))
  ∧ (OAuth.proceeds (OAuth.callback decodeState encodeURIComponent q now st).1 →
     ∃ n, OAuth.nonce_of decodeState q = Some n
       ∧ (OAuth.callback decodeState encodeURIComponent q now st).2 = delete n st
       ∧ ∀ q' later, OAuth.nonce_of decodeState q' = Some n →
           ¬ OAuth.proceeds
               (OAuth.callback decodeState encodeURIComponent q' later
                  (delete n st)).1)
  ∧ (∀ encodeState client redirectUri n inviteCode returnTo issued,
       (OAuth.initiate encodeState encodeURIComponent client redirectUri
          n inviteCode returnTo issued st).2 !! n
       = Some (OAuth.mkStored (issued + 10 * 60 * 1000))).
Proof.
  intros Hc He. split; [|split; [|split]].
  - split; [by intros [? _]%callback_proceeds_inv|].
    intros (raw & d & n & s & Hs & Hraw & Hd & Hn & Hst & Hexp).
    rewrite (callback_checked _ _ q raw) by done.
    rewrite Hd, Hn. simpl. rewrite Hst. simpl.
    by rewrite bool_decide_eq_false_2 by lia.
  - unfold OAuth.callback. rewrite He, Hc. simpl.
    destruct (truthy (OAuth.state q)); simpl; [|by eexists].
    destruct (decodeState _) as [d|]; [|by eexists].
    destruct (OAuth.nonce d ≫= _) as [[n s]|]; [|by eexists].
    case_bool_decide; simpl; [by eexists|]. by intros [].
  - intros (_ & n & Hn & Hdel)%callback_proceeds_inv.
    exists n. repeat split; try done.
    intros q' later Hn'. eapply callback_unknown_nonce; [done|].
    apply lookup_delete_eq.
  - intros. unfold OAuth.initiate, OAuth.STATE_LIFETIME. simpl.
    by rewrite lookup_insert_eq.
Qed.

(** A callback on the sample nonce store, within the nonce's lifetime. *)
Lemma callback_proceeds_iff_valid_nonce_witness :
  let q := OAuth.mkQuery (Some "code") (Some "n1") None in
  truthy (OAuth.code q) = true ∧ truthy (OAuth.error q) = false
  ∧ (OAuth.proceeds (OAuth.callback Sample.decodeState id q 5 Sample.oauthStates).1
     ↔ OAuth.valid_state Sample.decodeState q 5 Sample.oauthStates).
Proof.
  split; [reflexivity|]. split; [reflexivity|].
  apply (callback_proceeds_iff_valid_nonce Sample.decodeState id
           (OAuth.mkQuery (Some "code") (Some "n1") None) 5 Sample.oauthStates);
    reflexivity.
Defined.

(** C7 as stated fails: a request whose state names a stored, unexpired
    nonce but which carries no authorization code is redirected to
    [/?error=missing_code] and never reaches the token exchange. *)
Lemma callback_valid_nonce_without_code_rejected :
  let q := OAuth.mkQuery None (Some "n1") None in
  OAuth.callback Sample.decodeState id q 5 Sample.oauthStates
    = (OAuth.Rejected "/?error=missing_code", Sample.oauthStates)
  ∧ ¬ (OAuth.proceeds (OAuth.callback Sample.decodeState id q 5 Sample.oauthStates).1
       ↔ OAuth.valid_state Sample.decodeState q 5 Sample.oauthStates).
Proof.
  split; [reflexivity|]. intros [_ Hv]. apply Hv.
  exists "n1", (OAuth.mkState (Some "n1") None None), "n1",
    (OAuth.mkStored 600000).
  repeat split; done.
Qed.

(** ** The appeal webhook *)

(** C3. One call of the appeal webhook sends the payload once, with a
    five-second abort timer; if that request gets an ok response nothing
    more is sent; if it gets a non-ok response or fails, the call waits
    one second and sends the same payload to the same URL once more, and
    nothing after that. The call reports success exactly when the first
    request, or else the retry, got an ok response. *)
Theorem callBanAppealWebhook_retries_at_most_once
    (net : nat → Webhook.fetched) (webhookUrl : string) (appeal : Appeal.t)
    (ban : Ban.t) (act : Webhook.action) (now : Z) :
  ∃ body,
    let run := Webhook.callBanAppealWebhook net webhookUrl appeal ban act now in
    Webhook.appealId body = Appeal.id appeal
    ∧ Webhook.status body = Appeal.status appeal
    ∧ Webhook.userRobloxId body = Ban.robloxUserId ban
    ∧ (Webhook.returned_ok net 0 →
       run.2 = [Webhook.Post webhookUrl body (Some 5000%Z)])
    ∧ (¬ Webhook.returned_ok net 0 →
       run.2 = [Webhook.Post webhookUrl body (Some 5000%Z);
                Webhook.Wait 1000;
                Webhook.Post webhookUrl body None])
    ∧ (Webhook.success run.1 = true
       ↔ Webhook.returned_ok net 0
         ∨ (¬ Webhook.returned_ok net 0 ∧ Webhook.returned_ok net 1)).
Proof.
  exists (Webhook.mkPayload (Appeal.id appeal) act (Appeal.status appeal)
            (Ban.discordUserId ban) (Ban.robloxUserId ban)
            (Ban.robloxUsername ban) (Ban.reason ban)
            (Appeal.appealText appeal) (Appeal.reviewNote appeal) now).
  cbv zeta. split; [|split; [|split]]; [reflexivity..|].
  unfold Webhook.callBanAppealWebhook, Webhook.returned_ok.
  destruct (net 0) as [s0|m0]; [destruct (Webhook.ok s0) eqn:Hfirst|];
    (destruct (net 1) as [s1|m1]; [destruct (Webhook.ok s1) eqn:Hretry|]);
    simpl; rewrite ?Hfirst, ?Hretry; simpl;
    intuition (discriminate || auto).
Qed.

(** ** Appeal review *)

Section AppealFacts.
Import Storage Routes.
Variable unbanUser : string → string → string → unbanResult.

Lemma updateBan_found k u b (st : Storage.t) :
  bans st !! k = Some b →
  updateBan k u st = (Some (Ban.apply u b), set_bans <[k := Ban.apply u b]> st).
Proof. intros Hb. unfold updateBan. by rewrite Hb. Qed.

(** The approval block touches the ban table only, and there only the
    ban's own row, which it leaves inactive. *)
Lemma approve_store server appeal ban now (st : Storage.t) :
  bans st !! Ban.id ban = Some ban →
  ∃ ban',
    Ban.isActive ban' = false
    ∧ (approve unbanUser server appeal ban now st).1.2
      = set_bans <[Ban.id ban := ban']> st.
Proof.
  intros Hb. unfold approve.
  unfold updateBan at 2. rewrite Hb. simpl.
  unfold updateBan. simpl. rewrite lookup_insert_eq. simpl.
  eexists. split; last (unfold set_bans; simpl; by rewrite insert_insert_eq).
  done.
Qed.

(** The route, once its three lookups and the ownership test pass. *)
Lemma patchAppeal_authorized user id body now (st : Storage.t) appeal server ban :
  getAppeal id st = Some appeal →
  getServer (Appeal.serverId appeal) st = Some server →
  Server.ownerId server = User.id user →
  getBan (Appeal.banId appeal) st = Some ban →
  ∃ st1 fx result,
    (if is_approved (status body)
     then approve unbanUser server appeal ban now st
     else (None, st, [])) = (result, st1, fx)
    ∧ ∃ fx',
      patchAppeal unbanUser user id body now st =
        (Json (mkAppealReply
                 (updateAppeal id
                    (Appeal.mkUpdate (status body) (reviewNote body)
                       (Some (User.id user)) (Some now)) st1).1
                 (is_approved (status body))
                 (is_approved (status body)
                  && from_option success false result)),
         (updateAppeal id
            (Appeal.mkUpdate (status body) (reviewNote body)
               (Some (User.id user)) (Some now)) st1).2,
         fx').
Proof.
  intros Ha Hs Ho Hb. unfold patchAppeal. rewrite Ha, Hs, Ho, String.eqb_refl, Hb.
  simpl.
  destruct (if is_approved (status body) then _ else _) as [[result st1] fx].
  exists st1, fx, result. split; [done|].
  destruct (updateAppeal _ _ st1) as [updated st2]. simpl. by eexists.
Qed.
End AppealFacts.

Lemma updateBan_appeals k u (st : Storage.t) :
  Storage.appeals (Storage.updateBan k u st).2 = Storage.appeals st.
Proof. unfold Storage.updateBan. by destruct (Storage.bans st !! k). Qed.

Lemma updateAppeal_bans k u (st : Storage.t) :
  Storage.bans (Storage.updateAppeal k u st).2 = Storage.bans st.
Proof. unfold Storage.updateAppeal. by destruct (Storage.appeals st !! k). Qed.

Lemma approve_appeals unbanUser server appeal ban now (st : Storage.t) :
  Storage.appeals (Routes.approve unbanUser server appeal ban now st).1.2
  = Storage.appeals st.
Proof. unfold Routes.approve. simpl. by rewrite !updateBan_appeals. Qed.

(** C1, as amended. [PATCH /api/appeals/:id] by the owner of the
    appeal's server, the associated ban existing, sets the appeal's
    status to the status the request carries and records the reviewer,
    the review time and the note given, whatever the appeal's current
    status is: it moves a pending appeal to approved or rejected, and it
    does the same to an appeal that is already approved or rejected. *)
Theorem patchAppeal_sets_status_from_any_status
    (unbanUser : string → string → string → Routes.unbanResult)
    (user : User.t) (id : string) (body : Routes.appealBody) (now : Z)
    (st : Storage.t) (appeal : Appeal.t) (server : Server.t) (ban : Ban.t)
    (s : string) :
  Storage.getAppeal id st = Some appeal →
  Storage.getServer (Appeal.serverId appeal) st = Some server →
  Server.ownerId server = User.id user →
  Storage.getBan (Appeal.banId appeal) st = Some ban →
  Routes.status body = Some s →
  ∃ a,
    Storage.getAppeal id (Routes.patchAppeal unbanUser user id body now st).1.2
      = Some a
    ∧ Appeal.status a = s
    ∧ Appeal.reviewedBy a = Some (User.id user)
    ∧ Appeal.reviewedAt a = Some now
    ∧ (∀ note, Routes.reviewNote body = Some note →
         Appeal.reviewNote a = Some note).
Proof.
  intros Ha Hs Ho Hb Hst.
  destruct (patchAppeal_authorized unbanUser user id body now st appeal server ban)
    as (st1 & fx & result & Hap & fx' & ->); try done.
  assert (Storage.appeals st1 = Storage.appeals st) as Hst1.
  { destruct (Routes.is_approved (Routes.status body)).
    - pose proof (approve_appeals unbanUser server appeal ban now st) as Heq.
      by rewrite Hap in Heq.
    - by simplify_eq. }
  simpl. unfold Storage.updateAppeal, Storage.getAppeal in *.
  rewrite Hst1, Ha. simpl. rewrite lookup_insert_eq.
  eexists. split; [done|]. rewrite Hst. simpl.
  split; [done|]. split; [done|]. split; [done|].
  intros note Hnote. by rewrite Hnote.
Qed.

(** alice moves the sample pending appeal to rejected. *)
Lemma patchAppeal_sets_status_from_any_status_witness :
  Storage.getAppeal "a1" Sample.store = Some Sample.pendingAppeal
  ∧ ∃ a,
      Storage.getAppeal "a1"
        (Routes.patchAppeal Sample.unbanUser Sample.alice "a1"
           (Routes.mkAppealBody (Some "rejected") (Some "no evidence")) 900
           Sample.store).1.2
        = Some a
      ∧ Appeal.status a = "rejected"
      ∧ Appeal.reviewedBy a = Some "u1"
      ∧ Appeal.reviewedAt a = Some 900%Z
      ∧ Appeal.reviewNote a = Some "no evidence".
Proof.
  split; [reflexivity|].
  destruct (patchAppeal_sets_status_from_any_status Sample.unbanUser
              Sample.alice "a1"
              (Routes.mkAppealBody (Some "rejected") (Some "no evidence")) 900
              Sample.store Sample.pendingAppeal Sample.server Sample.timedBan
              "rejected" eq_refl eq_refl eq_refl eq_refl eq_refl)
    as (a & Hrow & Hstatus & Hby & Hat & Hnote).
  exists a. split; [exact Hrow|]. split; [exact Hstatus|].
  split; [exact Hby|]. split; [exact Hat|]. exact (Hnote _ eq_refl).
Defined.

(** C1 as stated fails: the sample appeal [a2] is already approved and
    reviewed; a later PATCH with status rejected overwrites its status
    and review fields, and a later PATCH with status approved
    deactivates its ban over again. *)
Lemma patchAppeal_reviews_approved_appeal_again :
  Appeal.status Sample.approvedAppeal = "approved"
  ∧ Storage.getAppeal "a2"
      (Routes.patchAppeal Sample.unbanUser Sample.alice "a2"
         (Routes.mkAppealBody (Some "rejected") (Some "on second thought"))
         900 Sample.store).1.2
    = Some (Appeal.mk "a2" "b2" "s1" None "please" "rejected" (Some "u1")
              (Some "on second thought") (Some 900%Z))
  ∧ Ban.isActive Sample.permanentBan = true
  ∧ Ban.isActive <$>
      Storage.getBan "b2"
        (Routes.patchAppeal Sample.unbanUser Sample.alice "a2"
           (Routes.mkAppealBody (Some "approved") None) 900 Sample.store).1.2
    = Some false.
Proof. repeat split; vm_compute; reflexivity. Qed.

(** C2. When the owner of the appeal's server PATCHes an appeal with
    status approved and the associated ban exists, the ban is inactive
    in the store the request leaves, and the reply carries
    [banUpdated = true]. *)
Theorem patchAppeal_approved_deactivates_ban
    (unbanUser : string → string → string → Routes.unbanResult)
    (user : User.t) (id : string) (body : Routes.appealBody) (now : Z)
    (st : Storage.t) (appeal : Appeal.t) (server : Server.t) (ban : Ban.t) :
  Storage.bans_keyed st →
  Storage.getAppeal id st = Some appeal →
  Storage.getServer (Appeal.serverId appeal) st = Some server →
  Server.ownerId server = User.id user →
  Storage.getBan (Appeal.banId appeal) st = Some ban →
  Routes.status body = Some "approved" →
  (∃ r, (Routes.patchAppeal unbanUser user id body now st).1.1 = Json r
        ∧ Routes.banUpdated r = true)
  ∧ (∃ ban',
       Storage.getBan (Appeal.banId appeal)
         (Routes.patchAppeal unbanUser user id body now st).1.2 = Some ban'
       ∧ Ban.isActive ban' = false).
Proof.
  intros Hkeyed Ha Hs Ho Hb Hst.
  destruct (patchAppeal_authorized unbanUser user id body now st appeal server ban)
    as (st1 & fx & result & Hap & fx' & ->); try done.
  rewrite Hst in *. simpl in Hap |- *.
  split; [by eexists|].
  pose proof (Hkeyed _ _ Hb) as Hid. simpl in Hid.
  destruct (approve_store unbanUser server appeal ban now st) as (ban' & Hin & Heq).
  { by rewrite Hid. }
  rewrite Hap in Heq. simpl in Heq. subst st1.
  exists ban'. split; [|done].
  unfold Storage.getBan. rewrite updateAppeal_bans, Hid. simpl.
  apply lookup_insert_eq.
Qed.

(** alice approves the sample pending appeal. *)
Lemma patchAppeal_approved_deactivates_ban_witness :
  let run :=
    Routes.patchAppeal Sample.unbanUser Sample.alice "a1"
      (Routes.mkAppealBody (Some "approved") None) 900 Sample.store in
  Storage.bans_keyed Sample.store
  ∧ (∃ r, run.1.1 = Json r ∧ Routes.banUpdated r = true)
  ∧ (∃ ban', Storage.getBan "b1" run.1.2 = Some ban' ∧ Ban.isActive ban' = false).
Proof.
  assert (Hkeyed : Storage.bans_keyed Sample.store)
    by (unfold Storage.bans_keyed; compute_done).
  split; [exact Hkeyed|].
  apply (patchAppeal_approved_deactivates_ban Sample.unbanUser Sample.alice
           "a1" (Routes.mkAppealBody (Some "approved") None) 900 Sample.store
           Sample.pendingAppeal Sample.server Sample.timedBan Hkeyed);
    reflexivity.
Defined.

(** ** Ban check *)

(** C6. [GET /api/game/check-ban/:robloxUserId], for the ban the store
    holds for that server and Roblox user: if the ban's [expiresAt] is
    earlier than the current time the reply is [isBanned = false] and
    the ban's row is written back with [isActive = false]; if the ban
    has no [expiresAt], or one that is not earlier than the current
    time, the reply is [isBanned = true] with the ban's details and the
    store is left as it was. *)
Theorem checkBan_expires_on_read
    (serverId robloxUserId : string) (now : Z) (st : Storage.t) (ban : Ban.t) :
  Storage.bans_keyed st →
  Storage.getBanByRobloxUserId serverId robloxUserId st = Some ban →
  (∀ e, Ban.expiresAt ban = Some e → (e < now)%Z →
     (Routes.checkBan serverId robloxUserId now st).1.1 = Json Routes.notBanned
     ∧ Routes.isBanned Routes.notBanned = false
     ∧ ∃ ban',
         Storage.getBan (Ban.id ban)
           (Routes.checkBan serverId robloxUserId now st).1.2 = Some ban'
         ∧ Ban.isActive ban' = false
         ∧ Ban.expiresAt ban' = Ban.expiresAt ban
         ∧ Ban.reason ban' = Ban.reason ban)
  ∧ (Ban.expiresAt ban = None
     ∨ (∃ e, Ban.expiresAt ban = Some e ∧ (now ≤ e)%Z) →
     (Routes.checkBan serverId robloxUserId now st).1.2 = st
     ∧ ∃ r, (Routes.checkBan serverId robloxUserId now st).1.1 = Json r
            ∧ Routes.isBanned r = true
            ∧ Routes.banId r = Some (Ban.id ban)).
Proof.
  intros Hkeyed Hfind. unfold Routes.checkBan. rewrite Hfind. split.
  - intros e He Hlt. rewrite He. simpl. rewrite bool_decide_eq_true_2 by done.
    simpl. split; [done|]. split; [done|].
    apply find_row_Some in Hfind as [_ [k Hk]].
    pose proof (Hkeyed _ _ Hk) as Hid. simpl in Hid. subst k.
    unfold Storage.updateBan, Storage.getBan. rewrite Hk. simpl.
    rewrite lookup_insert_eq. by eexists.
  - intros [Hnone|(e & He & Hle)].
    + rewrite Hnone. simpl. split; [done|]. by eexists.
    + rewrite He. simpl. rewrite bool_decide_eq_false_2 by lia.
      simpl. split; [done|]. by eexists.
Qed.

(** The sample timed ban, checked after its expiry. *)
Lemma checkBan_expires_on_read_witness :
  Storage.bans_keyed Sample.store
  ∧ Storage.getBanByRobloxUserId "s1" "r1" Sample.store = Some Sample.timedBan
  ∧ (Routes.checkBan "s1" "r1" 2000 Sample.store).1.1 = Json Routes.notBanned
  ∧ Ban.isActive <$>
      Storage.getBan "b1" (Routes.checkBan "s1" "r1" 2000 Sample.store).1.2
    = Some false.
Proof.
  assert (Hkeyed : Storage.bans_keyed Sample.store)
    by (unfold Storage.bans_keyed; compute_done).
  assert (Hfind : Storage.getBanByRobloxUserId "s1" "r1" Sample.store
                  = Some Sample.timedBan) by reflexivity.
  split; [exact Hkeyed|]. split; [exact Hfind|].
  destruct (checkBan_expires_on_read "s1" "r1" 2000 Sample.store
              Sample.timedBan Hkeyed Hfind) as [Hexpired _].
  destruct (Hexpired 1000%Z eq_refl eq_refl) as (Hreply & _ & ban' & Hrow & Hoff & _).
  split; [exact Hreply|].
  change (Ban.id Sample.timedBan) with "b1" in Hrow.
  rewrite Hrow. simpl. by rewrite Hoff.
Defined.

(** ** Marketplace escrow *)

Section EscrowFacts.
Import Storage Routes.

Lemma party_lookup user escrow (st : Storage.t) :
  party user escrow st ↔
  ∃ transaction,
    transactionId escrow ≫= (λ t, getTransaction t st) = Some transaction
    ∧ (Transaction.sellerId transaction = User.id user
       ∨ Transaction.buyerId transaction = User.id user).
Proof.
  unfold party. split.
  - intros (t & tx & -> & Htx & Hor). eauto.
  - intros (tx & Hbind & Hor).
    destruct (transactionId escrow) as [t|]; [|done]. eauto.
Qed.

Lemma seller_or_buyer_test transaction user :
  negb (String.eqb (Transaction.sellerId transaction) (User.id user))
  && negb (String.eqb (Transaction.buyerId transaction) (User.id user)) = false
  ↔ Transaction.sellerId transaction = User.id user
    ∨ Transaction.buyerId transaction = User.id user.
Proof.
  rewrite andb_false_iff, !negb_false_iff, !String.eqb_eq. done.
Qed.

Lemma patchEscrow_party user id body (st : Storage.t) escrow :
  getEscrow id st = Some escrow → party user escrow st →
  patchEscrow user id body st =
    (Json (Some (body ∪ escrow)),
     createTransactionLog
       (Transaction.mkLog (escrow !! "transactionId") "escrow_updated"
          (User.id user) body)
       (set_escrows <[id := body ∪ escrow]> st),
     []).
Proof.
  intros He (tx & Htx & Hor)%party_lookup.
  unfold patchEscrow. rewrite He, Htx.
  apply seller_or_buyer_test in Hor. rewrite Hor.
  unfold updateEscrow. unfold getEscrow in He. by rewrite He.
Qed.

Lemma patchEscrow_stranger user id body (st : Storage.t) escrow :
  getEscrow id st = Some escrow → ¬ party user escrow st →
  patchEscrow user id body st = (Error 403 "Not authorized", st, []).
Proof.
  intros He Hno. unfold patchEscrow. rewrite He.
  destruct (transactionId escrow ≫= _) as [tx|] eqn:Htx; [|done].
  destruct (negb _ && negb _) eqn:Htest; [done|].
  destruct Hno. apply party_lookup. exists tx. split; [done|].
  by apply seller_or_buyer_test.
Qed.

End EscrowFacts.



(** C5, as amended. The status of an escrow is what an authorized PATCH
    writes: when the seller or the buyer of the escrow's transaction
    sends a body with a [status], the escrow row holds that status
    afterwards, a released one included, and no confirmation is looked
    for; a requester who is neither leaves the row as it was. *)
Theorem patchEscrow_status_set_by_either_party
    (user : User.t) (id : string) (body : gmap string jsval)
    (st : Storage.t) (escrow : gmap string jsval) (v : jsval) :
  Storage.getEscrow id st = Some escrow →
  body !! "status" = Some v →
  (Routes.party user escrow st →
     ∃ escrow',
       Storage.getEscrow id (Routes.patchEscrow user id body st).1.2
         = Some escrow'
       ∧ escrow' !! "status" = Some v)
  ∧ (¬ Routes.party user escrow st →
     Storage.getEscrow id (Routes.patchEscrow user id body st).1.2
       = Some escrow).
Proof.
  intros He Hv. split.
  - intros Hp. rewrite (patchEscrow_party user id body st escrow) by done.
    exists (body ∪ escrow). unfold Storage.getEscrow. simpl.
    rewrite lookup_insert_eq. split; [done|]. by apply lookup_union_Some_l.
  - intros Hno. by rewrite (patchEscrow_stranger user id body st escrow).
Qed.

(** alice, the seller of the sample sale, releases its escrow. *)
Lemma patchEscrow_status_set_by_either_party_witness :
  Storage.getEscrow "e1" Sample.store = Some Sample.escrow
  ∧ ∃ escrow',
      Storage.getEscrow "e1"
        (Routes.patchEscrow Sample.alice "e1" {["status" := JStr "released"]}
           Sample.store).1.2 = Some escrow'
      ∧ escrow' !! "status" = Some (JStr "released").
Proof.
  split; [reflexivity|].
  apply (patchEscrow_status_set_by_either_party Sample.alice "e1"
           {["status" := JStr "released"]} Sample.store Sample.escrow
           (JStr "released")); [reflexivity|vm_compute; reflexivity|].
  exists "t1", Sample.sale. split; [reflexivity|]. split; [reflexivity|].
  left. reflexivity.
Defined.

(** C5 as stated fails on both counts: the seller, who is not the buyer,
    moves the sample escrow to released with one PATCH; and a PATCH by
    the buyer that marks the escrow confirmed leaves it confirmed, not
    released. *)
Lemma patchEscrow_seller_releases_buyer_confirm_does_not :
  Transaction.sellerId Sample.sale = User.id Sample.alice
  ∧ Transaction.buyerId Sample.sale ≠ User.id Sample.alice
  ∧ (Storage.getEscrow "e1"
       (Routes.patchEscrow Sample.alice "e1" {["status" := JStr "released"]}
          Sample.store).1.2 ≫= (.!! "status"))
    = Some (JStr "released")
  ∧ Transaction.buyerId Sample.sale = User.id Sample.bob
  ∧ (Storage.getEscrow "e1"
       (Routes.patchEscrow Sample.bob "e1"
          (<["buyerConfirmed" := JBool true]> {["status" := JStr "confirmed"]})
          Sample.store).1.2 ≫= (.!! "status"))
    = Some (JStr "confirmed").
Proof. repeat split; (done || (vm_compute; reflexivity)). Qed.

(** ** Moderator shifts *)

Section ShiftFacts.
Import Storage Routes.

Lemma getActiveShift_Some user server (st : Storage.t) a :
  getActiveShiftByUserId user server st = Some a →
  Shift.active_of user server a ∧ ∃ k, shifts st !! k = Some a.
Proof. apply find_row_Some. Qed.

Lemma getActiveShift_None user server (st : Storage.t) :
  getActiveShiftByUserId user server st = None
  ↔ ¬ has_active_shift user server st.
Proof.
  unfold getActiveShiftByUserId, has_active_shift.
  rewrite find_row_None. split.
  - intros Hno (k & s & Hk & Ha). by eapply Hno.
  - intros Hno k s Hk Ha. apply Hno. eauto.
Qed.

Lemma getActiveShift_is_Some user server (st : Storage.t) :
  has_active_shift user server st →
  ∃ a, getActiveShiftByUserId user server st = Some a.
Proof.
  intros Hex. destruct (getActiveShiftByUserId user server st) eqn:Hg; [eauto|].
  by apply getActiveShift_None in Hg.
Qed.

(** Inserting a shift for a user with no active shift on that server
    keeps active shifts unique per user and server. *)
Lemma createShift_one_active i (st : Storage.t) :
  one_active_shift st →
  ¬ has_active_shift (Shift.i_userId i) (Shift.i_serverId i) st →
  one_active_shift (createShift i st).2.
Proof.
  intros Hone Hnone k1 k2 s1 s2 user server. unfold createShift. simpl.
  set (new := fresh_string "shift" (shifts st)).
  intros H1 H2 Ha1 Ha2.
  apply lookup_insert_Some in H1 as [[<- <-]|[Hne1 H1]];
    apply lookup_insert_Some in H2 as [[<- <-]|[Hne2 H2]]; try done.
  - destruct Hnone. destruct Ha1 as (<- & <- & _). simpl. by exists k2, s2.
  - destruct Hnone. destruct Ha2 as (<- & <- & _). simpl. by exists k1, s1.
  - by eapply Hone.
Qed.

(** Run without another handler in between, a start route is one pass
    over the store. *)
Lemma shiftsStart_unfold user serverId now (st : Storage.t) :
  shiftsStart user serverId now st
  = if negb (truthy serverId) then (Error 400 "serverId required", st, [])
    else
    let serverId := default "" serverId in
    match getServer serverId st with
    | None => (Error 404 "Server not found", st, [])
    | Some server =>
    if negb (ownerOrMember server user serverId st) then
      (Error 403 "Not authorized - you must be a member of this server",
       st, [])
    else
    match getActiveShiftByUserId (User.id user) serverId st with
    | Some activeShift =>
        (Error 400 "You already have an active shift", st, [])
    | None =>
        let '(shift, st) :=
          createShift
            (Shift.mkInsert serverId (User.id user) now None "active"
               zeroMetrics) st in
        (Json shift, st,
         [Broadcast (shift_started serverId (User.id user) (Shift.id shift))])
    end end.
Proof.
  unfold shiftsStart, shiftsStartTask.
  destruct (negb (truthy serverId)); [done|]. cbn [Task.run Task.read].
  destruct (getServer _ st) as [server|]; [|done]. cbn [Task.run Task.read].
  unfold ownerOrMember. rewrite negb_orb.
  destruct (negb _ && negb _); [done|]. cbn [Task.run Task.read].
  by destruct (getActiveShiftByUserId _ _ st).
Qed.

Lemma serverShiftsStart_unfold user serverId now (st : Storage.t) :
  serverShiftsStart user serverId now st
  = match getServer serverId st with
    | None => (Error 403 "Not authorized", st, [])
    | Some server =>
    if negb (String.eqb (Server.ownerId server) (User.id user)) then
      (Error 403 "Not authorized", st, [])
    else
    match getActiveShiftByUserId (User.id user) serverId st with
    | Some activeShift =>
        (Error 400 "You already have an active shift", st, [])
    | None =>
        let '(shift, st) :=
          createShift
            (Shift.mkInsert serverId (User.id user) now None "active" ∅) st in
        (Json shift, st, [])
    end end.
Proof.
  unfold serverShiftsStart, serverShiftsStartTask. cbn [Task.run Task.read].
  destruct (getServer _ st) as [server|]; [|done].
  destruct (negb _); [done|]. cbn [Task.run Task.read].
  by destruct (getActiveShiftByUserId _ _ st).
Qed.

(** The two start routes either leave the store alone or insert one
    shift for a user who had no active shift on the server. *)
Lemma shiftsStart_store user serverId now (st : Storage.t) :
  (shiftsStart user serverId now st).1.2 = st
  ∨ ∃ i, ¬ has_active_shift (Shift.i_userId i) (Shift.i_serverId i) st
         ∧ (shiftsStart user serverId now st).1.2 = (createShift i st).2.
Proof.
  rewrite shiftsStart_unfold. cbv zeta.
  destruct (negb (truthy serverId)); [by left|].
  destruct (getServer _ st) as [server|]; [|by left].
  destruct (negb (ownerOrMember _ _ _ _)); [by left|].
  destruct (getActiveShiftByUserId _ _ st) eqn:Hact; [by left|].
  right. apply getActiveShift_None in Hact. by eexists (Shift.mkInsert _ _ _ _ _ _).
Qed.

Lemma serverShiftsStart_store user serverId now (st : Storage.t) :
  (serverShiftsStart user serverId now st).1.2 = st
  ∨ ∃ i, ¬ has_active_shift (Shift.i_userId i) (Shift.i_serverId i) st
         ∧ (serverShiftsStart user serverId now st).1.2 = (createShift i st).2.
Proof.
  rewrite serverShiftsStart_unfold.
  destruct (getServer _ st) as [server|]; [|by left].
  destruct (negb (String.eqb _ _)); [by left|].
  destruct (getActiveShiftByUserId _ _ st) eqn:Hact; [by left|].
  right. apply getActiveShift_None in Hact. by eexists (Shift.mkInsert _ _ _ _ _ _).
Qed.
End ShiftFacts.

Lemma ownerOrMember_set_shifts server user serverId f (st : Storage.t) :
  Routes.ownerOrMember server user serverId (Storage.set_shifts f st)
  = Routes.ownerOrMember server user serverId st.
Proof. reflexivity. Qed.

(** The row [createShift] inserts is found as the active shift when its
    user had none on that server. *)
Lemma getActiveShift_after_create (user server : string) (now : Z)
    (metrics : gmap string Z) (st : Storage.t) :
  ¬ Routes.has_active_shift user server st →
  let created :=
    Storage.createShift
      (Shift.mkInsert server user now None "active" metrics) st in
  Storage.getActiveShiftByUserId user server created.2 = Some created.1.
Proof.
  intros Hnone created. unfold Storage.getActiveShiftByUserId.
  apply (find_row_unique _ _ (fresh_string "shift" (Storage.shifts st))).
  - apply lookup_insert_eq.
  - done.
  - intros k s Hk Hact. simpl in Hk.
    apply lookup_insert_Some in Hk as [[<- _]|[_ Hk]]; [done|].
    destruct Hnone. by exists k, s.
Qed.

(** The server-scoped end route closes a shift only out of the active
    status: any other status is answered with 400 and no write. *)
Lemma serverShiftEnd_only_from_active
    (getShiftMetrics : string → Z → Z → Storage.t → gmap string Z)
    (user : User.t) (serverId shiftId : string) (now : Z) (st : Storage.t)
    (server : Server.t) (shift : Shift.t) :
  Storage.getServer serverId st = Some server →
  Server.ownerId server = User.id user →
  Storage.getShift shiftId st = Some shift →
  Shift.serverId shift = serverId →
  (Shift.status shift = "active" →
     Shift.status <$>
       Storage.getShift shiftId
         (Routes.serverShiftEnd getShiftMetrics user serverId shiftId now st).1.2
     = Some "completed")
  ∧ (Shift.status shift ≠ "active" →
     Routes.serverShiftEnd getShiftMetrics user serverId shiftId now st
     = (Error 400 "Shift is not active", st, [])).
Proof.
  intros Hs Ho Hsh Hsrv. unfold Routes.serverShiftEnd.
  rewrite Hs, Ho, String.eqb_refl, Hsh, Hsrv, String.eqb_refl. simpl. split.
  - intros ->. simpl. unfold Storage.updateShift, Storage.getShift in *.
    rewrite Hsh. simpl. by rewrite lookup_insert_eq.
  - intros Hna. apply String.eqb_neq in Hna. by rewrite Hna.
Qed.

(** Handled one at a time, both start routes refuse a requester who
    already has an active shift on the server, with a 4xx reply and no
    write to the store (the reply is the 400 "You already have an
    active shift" once the route's own authorization test has passed);
    so in a store where no user has two active shifts on one server, a
    start request that runs with no other handler in between does not
    produce a second one. *)
Theorem shift_start_keeps_one_active_shift
    (user : User.t) (serverId : string) (now : Z) (st : Storage.t) :
  Routes.one_active_shift st →
  Routes.one_active_shift (Routes.shiftsStart user (Some serverId) now st).1.2
  ∧ Routes.one_active_shift (Routes.serverShiftsStart user serverId now st).1.2
  ∧ (Routes.has_active_shift (User.id user) serverId st →
     (∃ code message,
        Routes.shiftsStart user (Some serverId) now st
          = (Error code message, st, [])
        ∧ (400 ≤ code < 500)%Z)
     ∧ (∃ code message,
          Routes.serverShiftsStart user serverId now st
            = (Error code message, st, [])
          ∧ (400 ≤ code < 500)%Z)
     ∧ (∀ server,
          serverId ≠ "" → Storage.getServer serverId st = Some server →
          Routes.ownerOrMember server user serverId st = true →
          Routes.shiftsStart user (Some serverId) now st
            = (Error 400 "You already have an active shift", st, []))
     ∧ (∀ server,
          Storage.getServer serverId st = Some server →
          Server.ownerId server = User.id user →
          Routes.serverShiftsStart user serverId now st
            = (Error 400 "You already have an active shift", st, []))).
Proof.
  intros Hone. split; [|split].
  - destruct (shiftsStart_store user (Some serverId) now st) as [->|(i & Hno & ->)];
      [done|by apply createShift_one_active].
  - destruct (serverShiftsStart_store user serverId now st) as [->|(i & Hno & ->)];
      [done|by apply createShift_one_active].
  - intros [a Ha]%getActiveShift_is_Some.
    rewrite shiftsStart_unfold, serverShiftsStart_unfold. simpl.
    destruct (String.eqb serverId "") eqn:Hempty; simpl.
    + apply String.eqb_eq in Hempty as ->.
      split; [eexists _, _; split; [done|lia]|].
      destruct (Storage.getServer "" st) as [server|] eqn:Hs.
      * rewrite Ha. split; [|split; [done|]].
        -- destruct (negb (String.eqb _ _)); eexists _, _; (split; [done|lia]).
        -- intros server' [= <-] ->. by rewrite String.eqb_refl.
      * split; [eexists _, _; split; [done|lia]|]. split; done.
    + destruct (Storage.getServer serverId st) as [server|] eqn:Hs.
      * rewrite Ha. split; [|split; [|split]].
        -- destruct (negb (Routes.ownerOrMember _ _ _ _));
             eexists _, _; (split; [done|lia]).
        -- destruct (negb (String.eqb _ _)); eexists _, _; (split; [done|lia]).
        -- intros server' _ [= <-] ->. done.
        -- intros server' [= <-] ->. by rewrite String.eqb_refl.
      * split; [eexists _, _; split; [done|lia]|].
        split; [eexists _, _; split; [done|lia]|]. split; done.
Qed.

(** bob, whose shift on the sample server is open, asks to start
    another. *)
Lemma shift_start_keeps_one_active_shift_witness :
  Routes.one_active_shift Sample.store
  ∧ Routes.one_active_shift
      (Routes.shiftsStart Sample.bob (Some "s1") 900 Sample.store).1.2
  ∧ Routes.shiftsStart Sample.bob (Some "s1") 900 Sample.store
    = (Error 400 "You already have an active shift", Sample.store, []).
Proof.
  assert (Hone : Routes.one_active_shift Sample.store).
  { intros k1 k2 s1 s2 user server H1 H2 _ _.
    change (Storage.shifts Sample.store)
      with ({["sh1" := Sample.openShift]} : gmap string Shift.t) in H1, H2.
    apply lookup_singleton_Some in H1 as [<- _].
    by apply lookup_singleton_Some in H2 as [<- _]. }
  split; [exact Hone|].
  destruct (shift_start_keeps_one_active_shift Sample.bob "s1" 900 Sample.store Hone)
    as (Hkept & _ & Hrefuse).
  split; [exact Hkept|].
  destruct Hrefuse as (_ & _ & Hbody & _).
  { exists "sh1", Sample.openShift. split; [reflexivity|]. by repeat split. }
  by apply (Hbody Sample.server).
Defined.

(** Two inserts in a row give two rows under two ids. *)
Lemma createShift_twice (i1 i2 : Shift.insert) (st : Storage.t) :
  let r1 := Storage.createShift i1 st in
  let r2 := Storage.createShift i2 r1.2 in
  Shift.id r1.1 ≠ Shift.id r2.1
  ∧ Storage.shifts r2.2 !! Shift.id r1.1 = Some r1.1
  ∧ Storage.shifts r2.2 !! Shift.id r2.1 = Some r2.1.
Proof.
  unfold Storage.createShift. simpl.
  set (id1 := fresh_string "shift" (Storage.shifts st)).
  set (row1 := Shift.mk id1 _ _ _ _ _ _).
  set (id2 := fresh_string "shift" (<[id1 := row1]> (Storage.shifts st))).
  assert (Hne : id1 ≠ id2).
  { intros Heq.
    pose proof (fresh_string_fresh (<[id1 := row1]> (Storage.shifts st)) "shift")
      as Hfresh.
    fold id2 in Hfresh. rewrite <- Heq in Hfresh.
    by rewrite lookup_insert_eq in Hfresh. }
  split; [done|]. split.
  - rewrite lookup_insert_ne by done. by rewrite lookup_insert_eq.
  - by rewrite lookup_insert_eq.
Qed.

(** Two rows that are active shifts of one user on one server, under
    two ids, break the invariant. *)
Lemma two_active_shifts (user server : string) (metrics : gmap string Z)
    (now1 now2 : Z) (st : Storage.t) :
  let r1 :=
    Storage.createShift
      (Shift.mkInsert server user now1 None "active" metrics) st in
  let r2 :=
    Storage.createShift
      (Shift.mkInsert server user now2 None "active" metrics) r1.2 in
  Shift.id r1.1 ≠ Shift.id r2.1
  ∧ Storage.shifts r2.2 !! Shift.id r1.1 = Some r1.1
  ∧ Storage.shifts r2.2 !! Shift.id r2.1 = Some r2.1
  ∧ Shift.active_of user server r1.1
  ∧ Shift.active_of user server r2.1
  ∧ ¬ Routes.one_active_shift r2.2.
Proof.
  intros r1 r2.
  destruct (createShift_twice
              (Shift.mkInsert server user now1 None "active" metrics)
              (Shift.mkInsert server user now2 None "active" metrics) st)
    as (Hne & H1 & H2).
  fold r1 in Hne, H1, H2. fold r2 in Hne, H1, H2.
  assert (Ha1 : Shift.active_of user server r1.1) by done.
  assert (Ha2 : Shift.active_of user server r2.1) by done.
  repeat (split; [done|]).
  intros Hone. apply Hne.
  by apply (Hone _ _ _ _ user server H1 H2).
Qed.

(** C10. Two start requests of one user that overlap both open a
    shift. Each handler has its active-shift check answered before
    either reaches [createShift], so both checks find no shift and both
    insert: both requests are answered with their shift, and the store
    ends with two active shifts of the user on the server, under two
    ids. This holds for [/api/shifts/start] for an owner or member and
    for the server-scoped route for the owner. Handled one after the
    other, the second request is refused with 400 and writes nothing. *)
Theorem shift_start_overlapping_requests_open_two_shifts
    (user : User.t) (serverId : string) (server : Server.t)
    (now1 now2 : Z) (st : Storage.t) :
  serverId ≠ "" →
  Storage.getServer serverId st = Some server →
  Routes.ownerOrMember server user serverId st = true →
  Storage.getActiveShiftByUserId (User.id user) serverId st = None →
  (∃ shift1 shift2 st2,
     Task.interleave Routes.overlappingStarts
       (Routes.shiftsStartTask user (Some serverId) now1)
       (Routes.shiftsStartTask user (Some serverId) now2) st
     = (Task.Return (Json shift1)
          [Broadcast (shift_started serverId (User.id user) (Shift.id shift1))],
        Task.Return (Json shift2)
          [Broadcast (shift_started serverId (User.id user) (Shift.id shift2))],
        st2)
     ∧ Shift.id shift1 ≠ Shift.id shift2
     ∧ Storage.shifts st2 !! Shift.id shift1 = Some shift1
     ∧ Storage.shifts st2 !! Shift.id shift2 = Some shift2
     ∧ Shift.active_of (User.id user) serverId shift1
     ∧ Shift.active_of (User.id user) serverId shift2
     ∧ ¬ Routes.one_active_shift st2)
  ∧ (Server.ownerId server = User.id user →
     ∃ shift1 shift2 st2,
       Task.interleave Routes.overlappingServerStarts
         (Routes.serverShiftsStartTask user serverId now1)
         (Routes.serverShiftsStartTask user serverId now2) st
       = (Task.Return (Json shift1) [], Task.Return (Json shift2) [], st2)
       ∧ Shift.id shift1 ≠ Shift.id shift2
       ∧ Storage.shifts st2 !! Shift.id shift1 = Some shift1
       ∧ Storage.shifts st2 !! Shift.id shift2 = Some shift2
       ∧ Shift.active_of (User.id user) serverId shift1
       ∧ Shift.active_of (User.id user) serverId shift2
       ∧ ¬ Routes.one_active_shift st2)
  ∧ (∃ shift1 st1,
       Routes.shiftsStart user (Some serverId) now1 st
       = (Json shift1, st1,
          [Broadcast (shift_started serverId (User.id user) (Shift.id shift1))])
       ∧ Routes.shiftsStart user (Some serverId) now2 st1
         = (Error 400 "You already have an active shift", st1, [])).
Proof.
  intros Hne Hs Hm Hact.
  pose proof Hne as Htr%truthy_Some.
  assert (Hguard :
    negb (String.eqb (Server.ownerId server) (User.id user))
    && negb (bool_decide (is_Some
         (Storage.getServerMemberByUserAndServer (User.id user) serverId st)))
    = false).
  { rewrite <- negb_orb. unfold Routes.ownerOrMember in Hm. by rewrite Hm. }
  split; [|split].
  - unfold Routes.overlappingStarts, Routes.shiftsStartTask.
    rewrite Htr.
    cbn [negb default from_option Task.interleave Task.step Task.read].
    unfold id.
    repeat (first [rewrite Hs | rewrite Hguard | rewrite Hact];
            cbn [Task.interleave Task.step Task.read]).
    pose proof (two_active_shifts (User.id user) serverId Routes.zeroMetrics
                  now1 now2 st) as Htwo.
    cbv zeta in Htwo.
    destruct (Storage.createShift _ st) as [shift1 st1]. cbn [fst snd] in Htwo.
    destruct (Storage.createShift _ st1) as [shift2 st2]. cbn [fst snd] in Htwo.
    by exists shift1, shift2, st2.
  - intros Ho.
    unfold Routes.overlappingServerStarts, Routes.serverShiftsStartTask.
    cbn [Task.interleave Task.step Task.read].
    rewrite Hs, Ho, String.eqb_refl.
    cbn [negb Task.interleave Task.step Task.read].
    repeat (first [rewrite Hs | rewrite Ho, String.eqb_refl | rewrite Hact];
            cbn [negb Task.interleave Task.step Task.read]).
    pose proof (two_active_shifts (User.id user) serverId ∅ now1 now2 st)
      as Htwo.
    cbv zeta in Htwo.
    destruct (Storage.createShift _ st) as [shift1 st1]. cbn [fst snd] in Htwo.
    destruct (Storage.createShift _ st1) as [shift2 st2]. cbn [fst snd] in Htwo.
    by exists shift1, shift2, st2.
  - rewrite shiftsStart_unfold, Htr. cbn [negb default from_option]. unfold id.
    rewrite Hs, Hm, Hact. cbn [negb].
    apply getActiveShift_None in Hact.
    pose proof (getActiveShift_after_create (User.id user) serverId now1
                  Routes.zeroMetrics st Hact) as Hafter.
    cbv zeta in Hafter.
    destruct (Storage.createShift _ st) as [shift1 st1] eqn:Hc.
    cbn [fst snd] in Hafter.
    exists shift1, st1. split; [done|].
    assert (Hst1 : ∃ f, st1 = Storage.set_shifts f st).
    { unfold Storage.createShift in Hc. injection Hc as _ <-. by eexists. }
    destruct Hst1 as [f Hst1].
    rewrite shiftsStart_unfold, Htr. cbn [negb default from_option]. unfold id.
    rewrite Hafter, Hst1.
    change (Storage.getServer serverId (Storage.set_shifts f st))
      with (Storage.getServer serverId st).
    by rewrite Hs, ownerOrMember_set_shifts, Hm.
Qed.

(** alice, owner of the sample server with no shift open, sends two
    start requests that overlap. *)
Lemma shift_start_overlapping_requests_open_two_shifts_witness :
  Storage.getActiveShiftByUserId (User.id Sample.alice) "s1" Sample.store
    = None
  ∧ ∃ shift1 shift2 st2,
      Task.interleave Routes.overlappingStarts
        (Routes.shiftsStartTask Sample.alice (Some "s1") 100)
        (Routes.shiftsStartTask Sample.alice (Some "s1") 101) Sample.store
      = (Task.Return (Json shift1)
           [Broadcast
              (shift_started "s1" (User.id Sample.alice) (Shift.id shift1))],
         Task.Return (Json shift2)
           [Broadcast
              (shift_started "s1" (User.id Sample.alice) (Shift.id shift2))],
         st2)
      ∧ Shift.id shift1 ≠ Shift.id shift2
      ∧ ¬ Routes.one_active_shift st2.
Proof.
  assert (Hact : Storage.getActiveShiftByUserId (User.id Sample.alice) "s1"
                   Sample.store = None) by (vm_compute; reflexivity).
  split; [exact Hact|].
  destruct (shift_start_overlapping_requests_open_two_shifts Sample.alice "s1"
              Sample.server 100 101 Sample.store)
    as [(shift1 & shift2 & st2 & Hrun & Hne & _ & _ & _ & _ & Hnot) _];
    [discriminate|reflexivity|reflexivity|exact Hact|].
  exists shift1, shift2, st2. split; [exact Hrun|]. split; [exact Hne|].
  exact Hnot.
Defined.

(** C8, as amended. [POST /api/shifts/end] for a requester who is the
    owner or a member of the server named in the body: if the requester
    has an active shift there, one such shift gets status completed and
    the request time as its end time, the other columns keeping their
    values, and the duration broadcast with the closing is the end time
    minus the shift's start time; if the requester has no active shift
    there, the reply is the 404 "No active shift found" and the store
    is left as it was. *)
Theorem shiftsEnd_completes_active_shift
    (user : User.t) (serverId : string) (now : Z) (st : Storage.t)
    (server : Server.t) :
  Storage.shifts_keyed st →
  serverId ≠ "" →
  Storage.getServer serverId st = Some server →
  Routes.ownerOrMember server user serverId st = true →
  (Routes.has_active_shift (User.id user) serverId st →
     ∃ a,
       Storage.getShift (Shift.id a) st = Some a
       ∧ Shift.active_of (User.id user) serverId a
       ∧ let closed :=
           Shift.mk (Shift.id a) (Shift.serverId a) (Shift.userId a)
             (Shift.startTime a) (Some now) "completed" (Shift.metrics a) in
         Routes.shiftsEnd user (Some serverId) now st
         = (Json (Some closed),
            Storage.set_shifts <[Shift.id a := closed]> st,
            [Broadcast (shift_ended serverId (User.id user) (Shift.id a)
                          (now - Shift.startTime a))]))
  ∧ (¬ Routes.has_active_shift (User.id user) serverId st →
     Routes.shiftsEnd user (Some serverId) now st
     = (Error 404 "No active shift found", st, [])).
Proof.
  intros Hkeyed Hne Hs Hm. unfold Routes.shiftsEnd.
  apply truthy_Some in Hne. rewrite Hne. simpl. rewrite Hs, Hm. simpl. split.
  - intros [a Ha]%getActiveShift_is_Some. rewrite Ha.
    pose proof (getActiveShift_Some _ _ _ _ Ha) as [Hact [k Hk]].
    pose proof (Hkeyed _ _ Hk) as Hid. simpl in Hid. subst k.
    exists a. split; [done|]. split; [done|].
    unfold Storage.updateShift. by rewrite Hk.
  - intros Hno%getActiveShift_None. by rewrite Hno.
Qed.

(** bob, a member of the sample server, ends his open shift at time
    900; it had started at time 100. *)
Lemma shiftsEnd_completes_active_shift_witness :
  Storage.shifts_keyed Sample.store
  ∧ Storage.getServer "s1" Sample.store = Some Sample.server
  ∧ Routes.ownerOrMember Sample.server Sample.bob "s1" Sample.store = true
  ∧ Routes.has_active_shift "u2" "s1" Sample.store
  ∧ ∃ a,
      Storage.getShift (Shift.id a) Sample.store = Some a
      ∧ Routes.shiftsEnd Sample.bob (Some "s1") 900 Sample.store
        = (Json (Some (Shift.mk (Shift.id a) (Shift.serverId a) (Shift.userId a)
                         (Shift.startTime a) (Some 900%Z) "completed"
                         (Shift.metrics a))),
           Storage.set_shifts
             <[Shift.id a :=
                 Shift.mk (Shift.id a) (Shift.serverId a) (Shift.userId a)
                   (Shift.startTime a) (Some 900%Z) "completed"
                   (Shift.metrics a)]> Sample.store,
           [Broadcast (shift_ended "s1" "u2" (Shift.id a)
                         (900 - Shift.startTime a))]).
Proof.
  assert (Hkeyed : Storage.shifts_keyed Sample.store)
    by (unfold Storage.shifts_keyed; compute_done).
  assert (Hopen : Routes.has_active_shift "u2" "s1" Sample.store).
  { exists "sh1", Sample.openShift. split; [reflexivity|]. by repeat split. }
  split; [exact Hkeyed|]. split; [reflexivity|]. split; [reflexivity|].
  split; [exact Hopen|].
  destruct (shiftsEnd_completes_active_shift Sample.bob "s1" 900 Sample.store
              Sample.server Hkeyed) as [Hclose _];
    [discriminate|reflexivity|reflexivity|].
  destruct (Hclose Hopen) as (a & Hrow & _ & Hrun).
  exists a. split; [exact Hrow|exact Hrun].
Defined.

(** C8 as stated fails for a requester who is neither owner nor member
    of the server. carol has no active shift on the sample server and
    gets 403, not 404. bob, removed from the server's members while his
    shift is open, gets 403 too, and his shift stays active. *)
Lemma shiftsEnd_refuses_non_member_with_403 :
  ¬ Routes.has_active_shift (User.id Sample.carol) "s1" Sample.store
  ∧ Routes.shiftsEnd Sample.carol (Some "s1") 900 Sample.store
    = (Error 403 "Not authorized - you must be a member of this server",
       Sample.store, [])
  ∧ Routes.has_active_shift (User.id Sample.bob) "s1" Sample.storeAfterRemoval
  ∧ Routes.shiftsEnd Sample.bob (Some "s1") 900 Sample.storeAfterRemoval
    = (Error 403 "Not authorized - you must be a member of this server",
       Sample.storeAfterRemoval, [])
  ∧ Shift.status <$> Storage.getShift "sh1" Sample.storeAfterRemoval
    = Some "active".
Proof.
  split; [|split; [|split; [|split]]].
  - by apply getActiveShift_None.
  - reflexivity.
  - exists "sh1", Sample.openShift. split; [reflexivity|]. by repeat split.
  - reflexivity.
  - reflexivity.
Qed.

(** * Further properties of the routes *)

(** ** Session lookup *)

(** X1. A session lookup only ever drops the token it was asked about:
    every other token keeps its entry, no entry is added or changed,
    and a lookup that finds a user leaves the whole map as it was (the
    expiry is not pushed forward by use). *)
Theorem getUserFromSession_touches_only_its_token
    (getUser : string → option User.t) (cookie : option string) (now : Z)
    (ss : Session.sessions) :
  (∀ t, cookie ≠ Some t →
     (Session.getUserFromSession getUser cookie now ss).2 !! t = ss !! t)
  ∧ (Session.getUserFromSession getUser cookie now ss).2 ⊆ ss
  ∧ (∀ u, (Session.getUserFromSession getUser cookie now ss).1 = Some u →
       (Session.getUserFromSession getUser cookie now ss).2 = ss).
Proof.
  unfold Session.getUserFromSession.
  destruct (truthy cookie); simpl; [|done].
  destruct cookie as [t0|]; [|done].
  destruct (ss !! t0) as [s|] eqn:Hs; [case_bool_decide|]; simpl.
  - split; [|split; [apply delete_subseteq|done]].
    intros t Hne. apply lookup_delete_ne. congruence.
  - done.
  - split; [|split; [apply delete_subseteq|done]].
    intros t Hne. apply lookup_delete_ne. congruence.
Qed.

(** ** The appeal webhook *)

(** X2. When the webhook call fails it reports the error of the first
    attempt, never that of the retry: the message names the first
    response's status, or is the first rejection's message, whatever
    the retry came to; a successful call reports no error. *)
Theorem callBanAppealWebhook_reports_first_error
    (net : nat → Webhook.fetched) (webhookUrl : string) (appeal : Appeal.t)
    (ban : Ban.t) (act : Webhook.action) (now : Z) :
  let result :=
    (Webhook.callBanAppealWebhook net webhookUrl appeal ban act now).1 in
  (Webhook.success result = true → Webhook.error result = None)
  ∧ (Webhook.success result = false →
     Webhook.error result
     = Some match net 0 with
            | Webhook.Response status =>
                "Webhook returned status " ++ pretty status
            | Webhook.Throws message => message
            end).
Proof.
  cbv zeta. unfold Webhook.callBanAppealWebhook.
  destruct (net 0) as [s0|m0]; [destruct (Webhook.ok s0)|];
    (destruct (net 1) as [s1|m1]; [destruct (Webhook.ok s1)|]);
    simpl; split; (done || discriminate).
Qed.

(** ** The OAuth state *)

(** X3. Issue and callback compose. [/api/auth/discord] redirects to
    the authorize URL with one state as its last parameter; when the
    callback receives that state with an authorization code, then up to
    ten minutes after issue it goes on to the token exchange carrying
    the invite code and return path given at issue (empty ones
    dropped), and later than that it redirects to
    [/?error=state_expired]; either way the nonce is gone afterwards.
    The state codec is one that decodes what it encoded. *)
Theorem oauth_state_round_trip
    (encodeState : OAuth.stateData → string)
    (decodeState : string → option OAuth.stateData)
    (encodeURIComponent : string → string) (client redirectUri : string)
    (n : string) (inviteCode returnTo : option string) (issued now : Z)
    (code : string) (st : OAuth.oauthStates) :
  let d := OAuth.mkState (Some n) (truthy_str inviteCode) (truthy_str returnTo) in
  let issue :=
    OAuth.initiate encodeState encodeURIComponent client redirectUri n
      inviteCode returnTo issued st in
  decodeState (encodeState d) = Some d →
  encodeState d ≠ "" → code ≠ "" →
  ∃ state,
    issue.1
    = Redirect
        ("https://discord.com/api/oauth2/authorize?client_id=" ++ client
         ++ "&response_type=code&redirect_uri="
         ++ encodeURIComponent redirectUri
         ++ "&scope=identify%20guilds&state=" ++ state)
    ∧ (∀ other,
         issue.1
         = Redirect
             ("https://discord.com/api/oauth2/authorize?client_id=" ++ client
              ++ "&response_type=code&redirect_uri="
              ++ encodeURIComponent redirectUri
              ++ "&scope=identify%20guilds&state=" ++ other) →
         other = state)
    ∧ ((now ≤ issued + 10 * 60 * 1000)%Z →
       OAuth.callback decodeState encodeURIComponent
         (OAuth.mkQuery (Some code) (Some state) None) now issue.2
       = (OAuth.TokenExchange code (truthy_str inviteCode)
            (truthy_str returnTo),
          delete n st))
    ∧ ((issued + 10 * 60 * 1000 < now)%Z →
       OAuth.callback decodeState encodeURIComponent
         (OAuth.mkQuery (Some code) (Some state) None) now issue.2
       = (OAuth.Rejected "/?error=state_expired", delete n st)).
Proof.
  intros d issue Hcodec Hne Hcode.
  exists (encodeState d). split; [reflexivity|]. split.
  { intros other. subst issue. unfold OAuth.initiate. cbn [fst].
    fold d. intros [= Heq].
    repeat apply (inj (String.app _)) in Heq. done. }
  set (q := OAuth.mkQuery (Some code) (Some (encodeState d)) None).
  assert (Hst : issue.2 = <[n := OAuth.mkStored (issued + OAuth.STATE_LIFETIME)]> st)
    by reflexivity.
  assert (Hcb : OAuth.callback decodeState encodeURIComponent q now issue.2 =
                if bool_decide (issued + OAuth.STATE_LIFETIME < now)%Z
                then (OAuth.Rejected "/?error=state_expired", delete n issue.2)
                else (OAuth.TokenExchange code (truthy_str inviteCode)
                        (truthy_str returnTo), delete n issue.2)).
  { rewrite (callback_checked _ _ q (encodeState d)); try done.
    - rewrite Hcodec. simpl. subst issue. unfold OAuth.initiate. simpl.
      by rewrite lookup_insert_eq.
    - by apply truthy_Some. }
  assert (Hdel : delete n issue.2 = delete n st).
  { rewrite Hst. apply delete_insert_eq. }
  rewrite Hcb, Hdel. unfold OAuth.STATE_LIFETIME. split; intros Ht.
  - by rewrite bool_decide_eq_false_2 by lia.
  - by rewrite bool_decide_eq_true_2 by lia.
Qed.

(** A state issued at time 0 on the sample codec comes back at time 5. *)
Lemma oauth_state_round_trip_witness :
  Sample.decodeState (Sample.encodeState (OAuth.mkState (Some "n1") None None))
    = Some (OAuth.mkState (Some "n1") None None)
  ∧ ∃ state,
      (OAuth.initiate Sample.encodeState id "client" "https://app.example/cb"
         "n1" None None 0 ∅).1
      = Redirect
          ("https://discord.com/api/oauth2/authorize?client_id=client"
           ++ "&response_type=code&redirect_uri=https://app.example/cb"
           ++ "&scope=identify%20guilds&state=" ++ state)
      ∧ OAuth.callback Sample.decodeState id
          (OAuth.mkQuery (Some "code") (Some state) None) 5 Sample.oauthStates
        = (OAuth.TokenExchange "code" None None, delete "n1" ∅).
Proof.
  split; [reflexivity|].
  destruct (oauth_state_round_trip Sample.encodeState Sample.decodeState id
              "client" "https://app.example/cb" "n1" None None 0 5 "code" ∅)
    as (state & Hurl & _ & Hin & _); [reflexivity|discriminate|discriminate|].
  exists state. split; [exact Hurl|]. apply Hin. lia.
Defined.

(** What a callback that answers [state_expired] went through. *)
Lemma callback_expired_inv
    (decodeState : string → option OAuth.stateData)
    (encodeURIComponent : string → string)
    (q : OAuth.query) (now : Z) (st : OAuth.oauthStates) :
  (OAuth.callback decodeState encodeURIComponent q now st).1
    = OAuth.Rejected "/?error=state_expired" →
  ∃ raw d n,
    truthy (OAuth.error q) = false ∧ truthy (OAuth.code q) = true
    ∧ OAuth.state q = Some raw ∧ raw ≠ ""
    ∧ decodeState raw = Some d ∧ OAuth.nonce d = Some n
    ∧ (OAuth.callback decodeState encodeURIComponent q now st).2 = delete n st.
Proof.
  unfold OAuth.callback.
  destruct (truthy (OAuth.error q)) eqn:He; [simpl; intros; simplify_eq/=|].
  destruct (truthy (OAuth.code q)) eqn:Hc; [|simpl; intros; simplify_eq/=].
  simpl.
  destruct (truthy (OAuth.state q)) eqn:Hs; [|simpl; intros; simplify_eq/=].
  simpl. apply truthy_is_Some in Hs as (raw & Hraw & Hne). rewrite Hraw. simpl.
  destruct (decodeState raw) as [d|] eqn:Hd; [|simpl; intros; simplify_eq/=].
  destruct (OAuth.nonce d) as [n|] eqn:Hn; [|simpl; intros; simplify_eq/=].
  simpl.
  destruct (st !! n) as [s|] eqn:Hst; [|simpl; intros; simplify_eq/=]. simpl.
  case_bool_decide; simpl; [|intros; simplify_eq/=].
  intros _. by exists raw, d, n.
Qed.

(** X4. The callback only ever removes the nonce its own state names:
    every other nonce in the store keeps its entry and none is added.
    An expired nonce is removed by the attempt that finds it expired,
    so a second attempt with the same state is answered with
    [/?error=invalid_state]. *)
Theorem callback_removes_only_the_named_nonce
    (decodeState : string → option OAuth.stateData)
    (encodeURIComponent : string → string)
    (q : OAuth.query) (now : Z) (st : OAuth.oauthStates) :
  (∀ n, OAuth.nonce_of decodeState q ≠ Some n →
     (OAuth.callback decodeState encodeURIComponent q now st).2 !! n = st !! n)
  ∧ (OAuth.callback decodeState encodeURIComponent q now st).2 ⊆ st
  ∧ ((OAuth.callback decodeState encodeURIComponent q now st).1
       = OAuth.Rejected "/?error=state_expired" →
     ∀ later,
       (OAuth.callback decodeState encodeURIComponent q later
          (OAuth.callback decodeState encodeURIComponent q now st).2).1
       = OAuth.Rejected "/?error=invalid_state").
Proof.
  split; [|split].
  - unfold OAuth.callback, OAuth.nonce_of.
    destruct (truthy (OAuth.error q)); [done|].
    destruct (truthy (OAuth.code q)); [|done]. simpl.
    destruct (truthy (OAuth.state q)) eqn:Hs; [|done]. simpl.
    apply truthy_is_Some in Hs as (raw & -> & Hne). simpl.
    destruct (decodeState raw) as [d|]; [|done].
    destruct (OAuth.nonce d) as [n0|]; [|done]. simpl.
    destruct (st !! n0) as [s|]; [|done]. simpl.
    case_bool_decide; simpl; intros n Hn; apply lookup_delete_ne; congruence.
  - unfold OAuth.callback.
    destruct (truthy (OAuth.error q)); [done|].
    destruct (truthy (OAuth.code q)); [|done]. simpl.
    destruct (truthy (OAuth.state q)); [|done]. simpl.
    destruct (decodeState _) as [d|]; [|done].
    destruct (OAuth.nonce d ≫= _) as [[n0 s]|]; [|done].
    case_bool_decide; simpl; apply delete_subseteq.
  - intros (raw & d & n & He & Hc & Hs & Hne & Hd & Hn & ->)%callback_expired_inv.
    intros later. rewrite (callback_checked _ _ q raw) by done.
    rewrite Hd, Hn. simpl. by rewrite lookup_delete_eq.
Qed.

(** ** Appeal review, further *)

(** The whole run of an authorized review: the approval block, then the
    write of the appeal, then the notifications. *)
Lemma patchAppeal_run
    (unbanUser : string → string → string → Routes.unbanResult)
    (user : User.t) (id : string) (body : Routes.appealBody) (now : Z)
    (st : Storage.t) (appeal : Appeal.t) (server : Server.t) (ban : Ban.t) :
  Storage.getAppeal id st = Some appeal →
  Storage.getServer (Appeal.serverId appeal) st = Some server →
  Server.ownerId server = User.id user →
  Storage.getBan (Appeal.banId appeal) st = Some ban →
  let reviewed :=
    Appeal.apply
      (Appeal.mkUpdate (Routes.status body) (Routes.reviewNote body)
         (Some (User.id user)) (Some now)) appeal in
  let webhookUrl := Server.settings_ server ≫= Server.banAppealWebhook in
  ∃ result st1 fx1,
    (if Routes.is_approved (Routes.status body)
     then Routes.approve unbanUser server appeal ban now st
     else (None, st, [])) = (result, st1, fx1)
    ∧ Routes.patchAppeal unbanUser user id body now st =
        (Json (Routes.mkAppealReply (Some reviewed)
                 (Routes.is_approved (Routes.status body))
                 (Routes.is_approved (Routes.status body)
                  && from_option Routes.success false result)),
         Storage.set_appeals <[id := reviewed]> st1,
         (fx1 ++ [Broadcast (appeal_updated id (Routes.status body)
                               (Server.id server))]
              ++ (if truthy webhookUrl
                  then [CallWebhook (default "" webhookUrl) reviewed ban
                          Webhook.updated]
                  else []))%list).
Proof.
  intros Ha Hs Ho Hb reviewed webhookUrl.
  unfold Routes.patchAppeal. rewrite Ha, Hs, Ho, String.eqb_refl, Hb. simpl.
  destruct (if Routes.is_approved (Routes.status body) then _ else _)
    as [[result st1] fx1] eqn:Hap.
  exists result, st1, fx1. split; [done|].
  assert (Storage.appeals st1 = Storage.appeals st) as Hst1.
  { destruct (Routes.is_approved (Routes.status body)).
    - pose proof (approve_appeals unbanUser server appeal ban now st) as Heq.
      by rewrite Hap in Heq.
    - by simplify_eq. }
  unfold Storage.updateAppeal. unfold Storage.getAppeal in Ha.
  by rewrite Hst1, Ha.
Qed.


(** X6. A review whose status is anything but approved never touches
    the ban table and reports [banUpdated = false] and
    [robloxUnbanned = false]; its only broadcast is the
    [appeal_updated] one. *)
Theorem patchAppeal_not_approved_leaves_bans
    (unbanUser : string → string → string → Routes.unbanResult)
    (user : User.t) (id : string) (body : Routes.appealBody) (now : Z)
    (st : Storage.t) :
  Routes.status body ≠ Some "approved" →
  Storage.bans (Routes.patchAppeal unbanUser user id body now st).1.2
    = Storage.bans st
  ∧ (∀ r, (Routes.patchAppeal unbanUser user id body now st).1.1 = Json r →
       Routes.banUpdated r = false ∧ Routes.robloxUnbanned r = false)
  ∧ (∀ m, Broadcast m ∈ (Routes.patchAppeal unbanUser user id body now st).2 →
       ∃ server, m = appeal_updated id (Routes.status body) server).
Proof.
  intros Hno. unfold Routes.patchAppeal.
  assert (Routes.is_approved (Routes.status body) = false) as ->.
  { unfold Routes.is_approved. by apply bool_decide_eq_false_2. }
  destruct (Storage.getAppeal id st) as [appeal|];
    [|split; [done|split; [done|by intros m ?%elem_of_nil]]].
  destruct (Storage.getServer _ st) as [server|];
    [|split; [done|split; [done|by intros m ?%elem_of_nil]]].
  destruct (negb (String.eqb _ _));
    [split; [done|split; [done|by intros m ?%elem_of_nil]]|].
  destruct (Storage.getBan _ st) as [ban|];
    [|split; [done|split; [done|by intros m ?%elem_of_nil]]].
  pose proof (updateAppeal_bans id
    (Appeal.mkUpdate (Routes.status body) (Routes.reviewNote body)
       (Some (User.id user)) (Some now)) st) as Hb.
  destruct (Storage.updateAppeal _ _ st) as [updated st2]. simpl in *.
  split; [done|]. split; [by intros r [= <-]|].
  intros m Hin. exists (Server.id server).
  apply elem_of_cons in Hin as [[= ->]|Hin]; [done|].
  destruct updated; [destruct (truthy _)|]; simpl in Hin.
  - apply elem_of_cons in Hin as [[=]|Hin]. by apply elem_of_nil in Hin.
  - by apply elem_of_nil in Hin.
  - by apply elem_of_nil in Hin.
Qed.

(** alice rejects the sample pending appeal. *)
Lemma patchAppeal_not_approved_leaves_bans_witness :
  Some "rejected" ≠ Some "approved"
  ∧ Storage.bans
      (Routes.patchAppeal Sample.unbanUser Sample.alice "a1"
         (Routes.mkAppealBody (Some "rejected") None) 900 Sample.store).1.2
    = Storage.bans Sample.store.
Proof.
  split; [discriminate|].
  apply (patchAppeal_not_approved_leaves_bans Sample.unbanUser Sample.alice
           "a1" (Routes.mkAppealBody (Some "rejected") None) 900 Sample.store).
  discriminate.
Defined.

(** X7. A review notifies the webhook exactly when the server has one
    configured, and what the webhook is then sent carries the status
    and the note the review just wrote, with action [updated]. *)
Theorem review_webhook_carries_new_status
    (unbanUser : string → string → string → Routes.unbanResult)
    (net : nat → Webhook.fetched)
    (user : User.t) (id : string) (body : Routes.appealBody) (now later : Z)
    (st : Storage.t) (appeal : Appeal.t) (server : Server.t) (ban : Ban.t)
    (s : string) :
  Storage.getAppeal id st = Some appeal →
  Storage.getServer (Appeal.serverId appeal) st = Some server →
  Server.ownerId server = User.id user →
  Storage.getBan (Appeal.banId appeal) st = Some ban →
  Routes.status body = Some s →
  let webhookUrl := Server.settings_ server ≫= Server.banAppealWebhook in
  let fx := (Routes.patchAppeal unbanUser user id body now st).2 in
  (truthy webhookUrl = false → ∀ url a b act, CallWebhook url a b act ∉ fx)
  ∧ (∀ url, webhookUrl = Some url → url ≠ "" →
       ∃ reviewed payload,
         CallWebhook url reviewed ban Webhook.updated ∈ fx
         ∧ head (Webhook.callBanAppealWebhook net url reviewed ban
                   Webhook.updated later).2
           = Some (Webhook.Post url payload (Some 5000%Z))
         ∧ Webhook.appealId payload = Appeal.id appeal
         ∧ Webhook.status payload = s
         ∧ Webhook.action_ payload = Webhook.updated
         ∧ (∀ note, Routes.reviewNote body = Some note →
              Webhook.reviewNote payload = Some note)).
Proof.
  intros Ha Hs Ho Hb Hst webhookUrl fx.
  destruct (patchAppeal_run unbanUser user id body now st appeal server ban)
    as (result & st1 & fx1 & Hap & Hrun); try done.
  subst fx. rewrite Hrun. simpl. fold webhookUrl.
  assert (Hfx1 : ∀ url a b act, CallWebhook url a b act ∉ fx1).
  { intros url a b act Hin. destruct (Routes.is_approved (Routes.status body)).
    - unfold Routes.approve in Hap. simplify_eq.
      apply elem_of_cons in Hin as [[=]|Hin]. by apply elem_of_nil in Hin.
    - simplify_eq. by apply elem_of_nil in Hin. }
  split.
  - intros Hoff url a b act Hin. rewrite Hoff in Hin.
    apply elem_of_app in Hin as [Hin|Hin]; [by eapply Hfx1|].
    apply elem_of_cons in Hin as [[=]|Hin]. by apply elem_of_nil in Hin.
  - intros url Hurl Hne. rewrite Hurl. apply truthy_Some in Hne. rewrite Hne.
    simpl. eexists _, _. split; [|split].
    + apply elem_of_app. right. apply elem_of_cons. right.
      apply elem_of_cons. by left.
    + unfold Webhook.callBanAppealWebhook.
      destruct (net 0) as [s0|m0]; [destruct (Webhook.ok s0)|];
        (destruct (net 1) as [s1|m1]; [destruct (Webhook.ok s1)|]); done.
    + simpl. rewrite Hst. simpl. repeat split.
      intros note Hnote. by rewrite Hnote.
Qed.

(** alice rejects the sample pending appeal; the sample server has a
    webhook, and the network is down. *)
Lemma review_webhook_carries_new_status_witness :
  ∃ reviewed payload,
    CallWebhook "https://hooks.example/appeals" reviewed Sample.timedBan
      Webhook.updated
      ∈ (Routes.patchAppeal Sample.unbanUser Sample.alice "a1"
           (Routes.mkAppealBody (Some "rejected") (Some "no evidence")) 900
           Sample.store).2
    ∧ head (Webhook.callBanAppealWebhook Sample.down
              "https://hooks.example/appeals" reviewed Sample.timedBan
              Webhook.updated 901).2
      = Some (Webhook.Post "https://hooks.example/appeals" payload (Some 5000%Z))
    ∧ Webhook.status payload = "rejected".
Proof.
  destruct (review_webhook_carries_new_status Sample.unbanUser Sample.down
              Sample.alice "a1"
              (Routes.mkAppealBody (Some "rejected") (Some "no evidence"))
              900 901 Sample.store Sample.pendingAppeal Sample.server
              Sample.timedBan "rejected" eq_refl eq_refl eq_refl eq_refl eq_refl)
    as [_ Hsent].
  destruct (Hsent "https://hooks.example/appeals" eq_refl)
    as (reviewed & payload & Hin & Hpost & _ & Hstatus & _); [discriminate|].
  exists reviewed, payload. split; [exact Hin|]. split; [exact Hpost|exact Hstatus].
Defined.

(** ** Logging out *)

(** X8. Logging out revokes the session of the cookie presented: after
    [GET /api/auth/logout] that cookie gets 401 from [requireAuth] at
    any time, while a request with any other cookie is answered, and
    leaves the session map, exactly as if the logout had not happened
    to its token. *)
Theorem logout_revokes_the_session
    (getUser : string → option User.t) (cookie : option string)
    (ss : Session.sessions) :
  (Auth.logout cookie ss).1 = Redirect "/"
  ∧ (∀ later,
       (Session.requireAuth getUser cookie later (Auth.logout cookie ss).2).1
       = Session.unauthorized)
  ∧ (∀ t, cookie ≠ Some t →
       (Auth.logout cookie ss).2 !! t = ss !! t
       ∧ ∀ later,
           (Session.requireAuth getUser (Some t) later (Auth.logout cookie ss).2).1
           = (Session.requireAuth getUser (Some t) later ss).1).
Proof.
  unfold Auth.logout. split; [done|]. simpl.
  destruct (truthy cookie) eqn:Htr.
  - apply truthy_is_Some in Htr as (t0 & -> & Hne). simpl. split.
    + intros later. apply requireAuth_unauthorized, getUserFromSession_absent.
      apply lookup_delete_eq.
    + intros t Hother.
      assert (delete t0 ss !! t = ss !! t) as Hsame
        by (apply lookup_delete_ne; congruence).
      split; [done|]. intros later.
      unfold Session.requireAuth, Session.getUserFromSession.
      rewrite Hsame. destruct (truthy (Some t)); simpl; [|done].
      destruct (ss !! t) as [s|]; [case_bool_decide|]; simpl; try done.
      by destruct (getUser _).
  - split; [|done]. intros later.
    apply requireAuth_unauthorized, getUserFromSession_stale. by left.
Qed.

(** ** Administrator sessions *)

(** X9. A login the route refuses creates no session and writes
    nothing, whether it is refused for a missing field (400), for an
    unknown username or a wrong password (401), or for a password that
    is not a string (500). With a string password an unknown username
    and a wrong password are answered with the same 401; with a truthy
    password that is not a string an unknown username still gets that
    401, while a known one gets 500 ["Login failed"]. *)
Theorem admin_login_failure_creates_no_session
    (compare : string → string → bool) (token : string)
    (body : Admin.loginBody) (now : Z) (admins : gmap string Admin.t)
    (ss : Admin.adminSessions) :
  (∀ code message,
     (Admin.login compare token body now admins ss).1.1 = Error code message →
     Admin.login compare token body now admins ss
     = (Error code message, admins, ss))
  ∧ (∀ name password,
       Admin.b_username body = Some (JStr name) → name ≠ "" →
       Admin.b_password body = Some (JStr password) → password ≠ "" →
       Admin.getAdminByUsername name admins = None
       ∨ (∃ admin, Admin.getAdminByUsername name admins = Some admin
                   ∧ compare password (Admin.passwordHash admin) = false) →
       Admin.login compare token body now admins ss
       = (Error 401 "Invalid credentials", admins, ss))
  ∧ (∀ name,
       Admin.b_username body = Some (JStr name) → name ≠ "" →
       js_truthy (Admin.b_password body) = true →
       js_key (Admin.b_password body) = None →
       Admin.login compare token body now admins ss
       = (match Admin.getAdminByUsername name admins with
          | None => Error 401 "Invalid credentials"
          | Some admin => Error 500 "Login failed"
          end, admins, ss)).
Proof.
  split; [|split].
  - intros code message. unfold Admin.login.
    destruct (negb _ || negb _); [by intros [= <- <-]|].
    destruct (js_key _ ≫= _) as [admin|]; [|by intros [= <- <-]].
    destruct (Admin.b_password body) as [[| |?|?|password]|];
      try (by intros [= <- <-]).
    destruct (negb _); [by intros [= <- <-]|done].
  - intros name password Hn Hne Hp Hpe Hbad. unfold Admin.login.
    rewrite Hn, Hp. apply truthy_Some in Hne, Hpe. simpl in Hne, Hpe |- *.
    rewrite Hne, Hpe. simpl.
    destruct Hbad as [->|(admin & -> & ->)]; done.
  - intros name Hn Hne Htruthy Hkey. unfold Admin.login.
    rewrite Hn, Htruthy. apply truthy_Some in Hne. simpl in Hne |- *.
    rewrite Hne. simpl.
    destruct (Admin.getAdminByUsername name admins) as [admin|]; [|done].
    by destruct (Admin.b_password body) as [[| |?|?|password]|].
Qed.

(** X10. A successful administrator login makes its token pass
    [requireAdminAuth] as that administrator, with no expiry to wait
    out; logging out with the token makes it fail again. Other tokens
    are not affected by either. *)
Theorem admin_login_then_auth_then_logout
    (compare : string → string → bool) (token : string)
    (body : Admin.loginBody) (now : Z) (admins : gmap string Admin.t)
    (ss : Admin.adminSessions) (who : Admin.identity) :
  token ≠ "" →
  (Admin.login compare token body now admins ss).1.1 = Json who →
  let ss1 := (Admin.login compare token body now admins ss).2 in
  Admin.requireAdminAuth (Some token) ss1 = inr (Admin.i_id who)
  ∧ Admin.requireAdminAuth (Some token) (Admin.logout (Some token) ss1).2
    = Admin.unauthorized
  ∧ (∀ other, other ≠ token →
       Admin.requireAdminAuth (Some other) ss1
       = Admin.requireAdminAuth (Some other) ss
       ∧ Admin.requireAdminAuth (Some other) (Admin.logout (Some token) ss1).2
         = Admin.requireAdminAuth (Some other) ss).
Proof.
  intros Hne. unfold Admin.login.
  destruct (negb _ || negb _); [done|].
  destruct (js_key _ ≫= _) as [admin|]; [|done].
  destruct (Admin.b_password body) as [[| |?|?|password]|]; try done.
  destruct (negb _); [done|]. simpl. intros [= <-]. simpl.
  unfold Admin.requireAdminAuth, Admin.logout.
  pose proof Hne as Htr%truthy_Some. simpl in Htr |- *. rewrite Htr. simpl.
  rewrite lookup_insert_eq, lookup_delete_eq. split; [done|]. split; [done|].
  intros other Hother. rewrite lookup_delete_ne by done.
  by rewrite lookup_insert_ne by done.
Qed.

(** The sample administrator logs in with the right password. *)
Lemma admin_login_then_auth_then_logout_witness :
  (Admin.login AdminSample.compare "atok" AdminSample.goodLogin 50
     AdminSample.admins ∅).1.1 = Json (Admin.mkIdentity "ad1" "admin" "admin")
  ∧ Admin.requireAdminAuth (Some "atok")
      (Admin.login AdminSample.compare "atok" AdminSample.goodLogin 50
         AdminSample.admins ∅).2 = inr "ad1".
Proof.
  assert (Hin : (Admin.login AdminSample.compare "atok" AdminSample.goodLogin
                   50 AdminSample.admins ∅).1.1
                = Json (Admin.mkIdentity "ad1" "admin" "admin"))
    by reflexivity.
  split; [exact Hin|].
  destruct (admin_login_then_auth_then_logout AdminSample.compare "atok"
              AdminSample.goodLogin 50 AdminSample.admins ∅
              (Admin.mkIdentity "ad1" "admin" "admin")) as [Hauth _];
    [discriminate|exact Hin|exact Hauth].
Defined.

(** ** Game-server API keys *)

Lemma prefix_split (p h : string) :
  String.prefix p h = true →
  h = p ++ String.substring (String.length p)
             (String.length h - String.length p) h.
Proof.
  revert h. induction p as [|a p IH]; intros h; simpl.
  - intros _. rewrite Nat.sub_0_r. change ("" +:+ ?s) with s.
    induction h as [|b h IHh]; simpl; [done|]. by rewrite <- IHh.
  - destruct h as [|b h]; [done|]. simpl.
    destruct (Ascii.ascii_dec a b) as [->|]; [|done].
    intros Hp. change (String b p +:+ ?s) with (String b (p +:+ s)).
    by rewrite <- (IH h Hp).
Qed.

Lemma prefix_app (p k : string) : String.prefix p (p ++ k) = true.
Proof.
  induction p as [|a p IH].
  - change ("" +:+ k) with k. by destruct k.
  - change (String a p +:+ k) with (String a (p +:+ k)). simpl.
    by destruct (Ascii.ascii_dec a a).
Qed.

Lemma substring_after_prefix (p k : string) :
  String.substring (String.length p)
    (String.length (p ++ k) - String.length p) (p ++ k) = k.
Proof.
  pose proof (prefix_split p (p ++ k) (prefix_app p k)) as Heq.
  by apply (inj (String.app p)) in Heq.
Qed.

(** X11. [validateApiKey] lets a request through exactly when its
    [Authorization] header is ["Bearer "] followed by a key whose hash
    is in the key table, and hands the route that key's row; every
    other request gets 401 and leaves the table as it was. *)
Theorem validateApiKey_accepts_exactly_stored_keys
    (sha256 : string → string) (authorization : option string) (now : Z)
    (keys : GameApi.apiKeys) :
  (∀ key,
     (GameApi.validateApiKey sha256 authorization now keys).1 = inr key
     ↔ ∃ apiKey,
         authorization = Some ("Bearer " ++ apiKey)
         ∧ GameApi.getApiKeyByHash (sha256 apiKey) keys = Some key)
  ∧ (∀ r, (GameApi.validateApiKey sha256 authorization now keys).1 = inl r →
       (GameApi.validateApiKey sha256 authorization now keys).2 = keys
       ∧ ∃ message, r = Error 401 message)
  ∧ (∀ key i,
       (GameApi.validateApiKey sha256 authorization now keys).1 = inr key →
       i ≠ ApiKey.id key →
       (GameApi.validateApiKey sha256 authorization now keys).2 !! i = keys !! i).
Proof.
  unfold GameApi.validateApiKey.
  destruct authorization as [h|]; [|split; [|split]].
  - destruct (String.prefix "Bearer " h) eqn:Hp.
    + pose proof (prefix_split _ _ Hp) as Hh.
      set (k := String.substring 7 (String.length h - 7) h) in *.
      change (String.length "Bearer ") with 7 in Hh. fold k in Hh.
      assert (truthy (Some h) = true) as ->.
      { apply truthy_Some. rewrite Hh. discriminate. }
      simpl. destruct (GameApi.getApiKeyByHash (sha256 k) keys) as [key|] eqn:Hg;
        simpl; (split; [|split]).
      * intros key'. split.
        -- intros [= <-]. exists k. by rewrite <- Hh.
        -- intros (k' & [= Hk'] & Hg').
           rewrite Hh in Hk'. apply (inj (String.append "Bearer ")) in Hk'.
           subst k'. congruence.
      * done.
      * intros key' i [= <-] Hi. unfold GameApi.updateApiKeyLastUsed.
        by rewrite lookup_alter_ne.
      * intros key'. split; [done|].
        intros (k' & [= Hk'] & Hg').
        rewrite Hh in Hk'. apply (inj (String.append "Bearer ")) in Hk'.
        subst k'. congruence.
      * intros r [= <-]. split; [done|by eexists].
      * done.
    + rewrite orb_true_r. simpl. split; [|split].
      * intros key. split; [done|]. intros (k' & [= ->] & _).
        by rewrite prefix_app in Hp.
      * intros r [= <-]. split; [done|by eexists].
      * done.
  - intros key. split; [done|]. by intros (k' & [=] & _).
  - intros r [= <-]. split; [done|by eexists].
  - done.
Qed.

(** The middleware on a well-formed header. *)
Lemma validateApiKey_bearer (sha256 : string → string) (apiKey : string)
    (now : Z) (keys : GameApi.apiKeys) :
  GameApi.validateApiKey sha256 (Some ("Bearer " ++ apiKey)) now keys =
    match GameApi.getApiKeyByHash (sha256 apiKey) keys with
    | None => (inl (Error 401 "Invalid API key"), keys)
    | Some key =>
        (inr key, GameApi.updateApiKeyLastUsed (ApiKey.id key) now keys)
    end.
Proof.
  unfold GameApi.validateApiKey.
  assert (truthy (Some ("Bearer " ++ apiKey)) = true) as ->
    by (by apply truthy_Some).
  rewrite prefix_app.
  pose proof (substring_after_prefix "Bearer " apiKey) as Hsub.
  change (String.length "Bearer ") with 7 in Hsub. cbv zeta.
  by rewrite Hsub.
Qed.

(** X12. The life of an API key. When the owner of a server creates a
    key, the reply carries the key ["blox_"] + random once, while the
    table keeps only its hash and its first twelve characters; a game
    request bearing that key then passes [validateApiKey] as a key of
    that server; and once the owner deletes the key, the same request
    gets 401. The key's hash is one the table does not hold yet. *)
Theorem api_key_create_validate_delete
    (sha256 : string → string) (user : User.t) (random : string)
    (body : GameApi.createBody) (st : Storage.t) (keys : GameApi.apiKeys)
    (server : Server.t) (serverId name : string) (scopes : list string)
    (now : Z) :
  GameApi.b_name body = Some name → name ≠ "" →
  GameApi.b_serverId body = Some serverId → serverId ≠ "" →
  GameApi.b_scopes body = Some scopes → scopes ≠ [] →
  Storage.getServer serverId st = Some server →
  Server.ownerId server = User.id user →
  (∀ k r, keys !! k = Some r → ApiKey.keyHash r ≠ sha256 ("blox_" ++ random)) →
  ∃ key keys1,
    GameApi.postApiKey sha256 user random body st keys
      = (Json (GameApi.mkCreated key ("blox_" ++ random)), keys1)
    ∧ ApiKey.serverId key = serverId
    ∧ ApiKey.keyHash key = sha256 ("blox_" ++ random)
    ∧ ApiKey.keyPreview key = String.substring 0 12 ("blox_" ++ random)
    ∧ (GameApi.validateApiKey sha256 (Some ("Bearer " ++ "blox_" ++ random))
         now keys1).1 = inr key
    ∧ GameApi.deleteApiKeyRoute user (ApiKey.id key) st keys1 = (Json true, keys)
    ∧ (GameApi.validateApiKey sha256 (Some ("Bearer " ++ "blox_" ++ random))
         now keys).1 = inl (Error 401 "Invalid API key").
Proof.
  intros Hn Hne Hs Hse Hsc Hsce Hserver Hown Hfresh.
  set (id := fresh_string "key" keys).
  set (key := ApiKey.mk id serverId name (sha256 ("blox_" ++ random))
                (String.substring 0 12 ("blox_" ++ random)) scopes None).
  assert (Hid : keys !! id = None) by apply fresh_string_fresh.
  assert (Hpost : GameApi.postApiKey sha256 user random body st keys
                  = (Json (GameApi.mkCreated key ("blox_" ++ random)),
                     <[id := key]> keys)).
  { unfold GameApi.postApiKey. rewrite Hn, Hs, Hsc.
    apply truthy_Some in Hne, Hse. rewrite Hne, Hse. simpl.
    rewrite bool_decide_eq_false_2 by (by destruct scopes).
    by rewrite Hserver, Hown, String.eqb_refl. }
  exists key, (<[id := key]> keys). split; [exact Hpost|].
  split; [done|]. split; [done|]. split; [done|]. split; [|split].
  - rewrite validateApiKey_bearer. unfold GameApi.getApiKeyByHash.
    erewrite find_row_unique; [done|apply lookup_insert_eq|done|].
    intros k' r' Hk' Hh. apply lookup_insert_Some in Hk' as [[? _]|[_ Hk']];
      [done|]. by destruct (Hfresh k' r' Hk').
  - unfold GameApi.deleteApiKeyRoute, GameApi.getApiKey, GameApi.deleteApiKey.
    rewrite lookup_insert_eq. simpl.
    rewrite Hserver, Hown, String.eqb_refl. simpl.
    by rewrite delete_insert_id.
  - rewrite validateApiKey_bearer.
    assert (GameApi.getApiKeyByHash (sha256 ("blox_" ++ random)) keys = None)
      as ->; [|done].
    unfold GameApi.getApiKeyByHash. apply find_row_None. intros k r Hk. by apply Hfresh in Hk.
Qed.

(** alice creates the first key of the sample server. *)
Lemma api_key_create_validate_delete_witness :
  ∃ key keys1,
    GameApi.postApiKey KeySample.sha256 Sample.alice "c0ffee" KeySample.request
      Sample.store ∅
      = (Json (GameApi.mkCreated key "blox_c0ffee"), keys1)
    ∧ (GameApi.validateApiKey KeySample.sha256 (Some "Bearer blox_c0ffee")
         77 keys1).1 = inr key
    ∧ GameApi.deleteApiKeyRoute Sample.alice (ApiKey.id key) Sample.store keys1
      = (Json true, ∅).
Proof.
  destruct (api_key_create_validate_delete KeySample.sha256 Sample.alice
              "c0ffee" KeySample.request Sample.store ∅ Sample.server "s1"
              "game" ["bans:read"] 77)
    as (key & keys1 & Hpost & _ & _ & _ & Hvalid & Hdelete & _);
    [reflexivity|discriminate|reflexivity|discriminate|reflexivity
    |discriminate|reflexivity|reflexivity| |].
  - intros k r Hk. by rewrite lookup_empty in Hk.
  - exists key, keys1. split; [exact Hpost|]. split; [exact Hvalid|exact Hdelete].
Defined.

(** ** Ban check, further *)

(** Writing a ban back with [isActive = false] keeps rows under their
    keys and keeps the pair (server, Roblox user) unique. *)
Lemma deactivate_keeps_invariants (st : Storage.t) k ban :
  Storage.bans st !! k = Some ban →
  let st1 :=
    Storage.set_bans <[k := Ban.apply (Ban.mkUpdate (Some false) None) ban]> st in
  (Storage.bans_keyed st → Storage.bans_keyed st1)
  ∧ (bans_unique st → bans_unique st1).
Proof.
  intros Hk st1. split.
  - intros Hkeyed. unfold Storage.bans_keyed, st1. simpl.
    apply map_Forall_insert_2; [|done]. by apply (Hkeyed k ban).
  - intros Huniq k1 k2 b1 b2. unfold st1. simpl. intros H1 H2 Hs Hr.
    apply lookup_insert_Some in H1 as [[-> <-]|[Hne1 H1]];
      apply lookup_insert_Some in H2 as [[-> <-]|[Hne2 H2]]; simpl in *.
    + done.
    + by apply (Huniq k1 k2 ban b2).
    + by apply (Huniq k1 k2 b1 ban).
    + by apply (Huniq k1 k2 b1 b2).
Qed.

(** X13. Once a ban check has answered "not banned", the same check at
    any later time on the store it left answers "not banned" again and
    writes nothing more: an expired ban stays expired. The check keeps
    ban rows under their keys and the pair (server, Roblox user)
    unique. *)
Theorem checkBan_not_banned_is_stable
    (serverId robloxUserId : string) (now later : Z) (st : Storage.t) :
  Storage.bans_keyed st → bans_unique st → (now ≤ later)%Z →
  let st1 := (Routes.checkBan serverId robloxUserId now st).1.2 in
  Storage.bans_keyed st1
  ∧ bans_unique st1
  ∧ ((Routes.checkBan serverId robloxUserId now st).1.1 = Json Routes.notBanned →
     Routes.checkBan serverId robloxUserId later st1
     = (Json Routes.notBanned, st1, [])).
Proof.
  intros Hkeyed Huniq Hlater. unfold Routes.checkBan at 1 2 3.
  destruct (Storage.getBanByRobloxUserId serverId robloxUserId st)
    as [ban|] eqn:Hfind.
  - destruct (Ban.expiresAt ban) as [e|] eqn:He; simpl;
      [case_bool_decide as Hexp; simpl|]; try by repeat split.
    pose proof Hfind as [[Hsrv Hrbx] [k Hk]]%find_row_Some.
    pose proof (Hkeyed _ _ Hk) as Hid. simpl in Hid. subst k.
    unfold Storage.updateBan. rewrite Hk. simpl.
    destruct (deactivate_keeps_invariants st (Ban.id ban) ban Hk) as [Hk1 Hu1].
    split; [by apply Hk1|]. split; [by apply Hu1|]. intros _.
    set (ban' := Ban.apply (Ban.mkUpdate (Some false) None) ban).
    set (st1 := Storage.set_bans <[Ban.id ban := ban']> st).
    assert (Hfind1 : Storage.getBanByRobloxUserId serverId robloxUserId st1
                     = Some ban').
    { apply (find_row_unique _ _ (Ban.id ban)).
      - apply lookup_insert_eq.
      - done.
      - intros k' b' Hk' [Hs' Hr'].
        apply (Hu1 Huniq k' (Ban.id ban) b' ban'); [done|apply lookup_insert_eq|..];
          simpl; congruence. }
    unfold Routes.checkBan. rewrite Hfind1. simpl. rewrite He. simpl.
    rewrite bool_decide_eq_true_2 by lia.
    unfold Storage.updateBan. simpl. rewrite lookup_insert_eq. simpl.
    f_equal. f_equal. unfold st1, Storage.set_bans. simpl.
    by rewrite insert_insert_eq.
  - simpl. split; [done|]. split; [done|]. intros _.
    unfold Routes.checkBan. by rewrite Hfind.
Qed.

(** The sample timed ban, checked at time 2000 and again at 3000. *)
Lemma checkBan_not_banned_is_stable_witness :
  Storage.bans_keyed Sample.store ∧ bans_unique Sample.store
  ∧ Routes.checkBan "s1" "r1" 3000
      (Routes.checkBan "s1" "r1" 2000 Sample.store).1.2
    = (Json Routes.notBanned,
       (Routes.checkBan "s1" "r1" 2000 Sample.store).1.2, []).
Proof.
  assert (Hkeyed : Storage.bans_keyed Sample.store)
    by (unfold Storage.bans_keyed; compute_done).
  assert (Huniq : bans_unique Sample.store).
  { intros k1 k2 b1 b2 H1 H2.
    change (Storage.bans Sample.store)
      with (<["b2" := Sample.permanentBan]>
              ({["b1" := Sample.timedBan]} : gmap string Ban.t)) in H1, H2.
    apply lookup_insert_Some in H1 as [[<- <-]|[_ [<- <-]%lookup_singleton_Some]];
      apply lookup_insert_Some in H2 as [[<- <-]|[_ [<- <-]%lookup_singleton_Some]];
      done. }
  split; [exact Hkeyed|]. split; [exact Huniq|].
  destruct (checkBan_not_banned_is_stable "s1" "r1" 2000 3000 Sample.store
              Hkeyed Huniq) as (_ & _ & Hstable); [lia|].
  apply Hstable. reflexivity.
Defined.

(** ** Filing an appeal *)

(** The filing route on a complete body. *)
Lemma postAppeal_complete (user : User.t) (b : AppealFiling.body)
    (st : Storage.t) banId serverId text :
  AppealFiling.banId b = Some banId → banId ≠ "" →
  AppealFiling.serverId b = Some serverId → serverId ≠ "" →
  AppealFiling.appealText b = Some text → text ≠ "" →
  let id := fresh_string "appeal" (Storage.appeals st) in
  let appeal :=
    Appeal.mk id banId serverId (truthy_str (AppealFiling.discordUserId b))
      text "pending" None None None in
  ∃ fx,
    AppealFiling.postAppeal user b st
    = (Json appeal, Storage.set_appeals <[id := appeal]> st, fx).
Proof.
  intros Hb Hbe Hs Hse Ht Hte id appeal. unfold AppealFiling.postAppeal.
  rewrite Hb, Hs, Ht. apply truthy_Some in Hbe, Hse, Hte.
  rewrite Hbe, Hse, Hte. simpl. by eexists.
Qed.

(** X14. An appeal filed through [POST /api/appeals] always starts
    pending and unreviewed, under an id no appeal had before; filing
    leaves every other appeal and every ban as they were. A body that
    lacks the ban id, the server id or the text is refused with 400 and
    nothing is written. *)
Theorem postAppeal_files_a_pending_appeal
    (user : User.t) (b : AppealFiling.body) (st : Storage.t) :
  (∀ appeal,
     (AppealFiling.postAppeal user b st).1.1 = Json appeal →
     let st1 := (AppealFiling.postAppeal user b st).1.2 in
     Appeal.status appeal = "pending"
     ∧ Appeal.reviewedBy appeal = None
     ∧ Appeal.reviewNote appeal = None
     ∧ Appeal.reviewedAt appeal = None
     ∧ Storage.getAppeal (Appeal.id appeal) st = None
     ∧ Storage.getAppeal (Appeal.id appeal) st1 = Some appeal
     ∧ (∀ k, k ≠ Appeal.id appeal →
          Storage.getAppeal k st1 = Storage.getAppeal k st)
     ∧ Storage.bans st1 = Storage.bans st)
  ∧ (truthy (AppealFiling.banId b) = false
     ∨ truthy (AppealFiling.serverId b) = false
     ∨ truthy (AppealFiling.appealText b) = false →
     AppealFiling.postAppeal user b st
     = (Error 400 "Missing required fields", st, [])).
Proof.
  unfold AppealFiling.postAppeal, AppealFiling.createAppeal. split.
  - destruct (negb _ || negb _ || negb _); [done|]. simpl.
    intros appeal [= <-]. simpl. unfold Storage.getAppeal. simpl.
    repeat split; try done.
    + apply fresh_string_fresh.
    + apply lookup_insert_eq.
    + intros k Hk. by apply lookup_insert_ne.
  - intros [Hm|[Hm|Hm]]; rewrite Hm; simpl; by rewrite ?orb_true_r.
Qed.

(** X15. Filing and review compose: after an appeal has been filed
    against an existing ban of a server, the owner's PATCH with status
    approved on the appeal just filed is accepted, leaves that appeal
    approved with the owner as reviewer, and leaves the ban inactive. *)
Theorem file_then_approve
    (unbanUser : string → string → string → Routes.unbanResult)
    (filer owner : User.t) (b : AppealFiling.body) (now : Z)
    (st : Storage.t) (banId serverId text : string)
    (server : Server.t) (ban : Ban.t) :
  Storage.bans_keyed st →
  AppealFiling.banId b = Some banId → banId ≠ "" →
  AppealFiling.serverId b = Some serverId → serverId ≠ "" →
  AppealFiling.appealText b = Some text → text ≠ "" →
  Storage.getServer serverId st = Some server →
  Server.ownerId server = User.id owner →
  Storage.getBan banId st = Some ban →
  ∃ filed reviewed r,
    (AppealFiling.postAppeal filer b st).1.1 = Json filed
    ∧ let st1 := (AppealFiling.postAppeal filer b st).1.2 in
      let run :=
        Routes.patchAppeal unbanUser owner (Appeal.id filed)
          (Routes.mkAppealBody (Some "approved") None) now st1 in
      run.1.1 = Json r
      ∧ Routes.banUpdated r = true
      ∧ Storage.getAppeal (Appeal.id filed) run.1.2 = Some reviewed
      ∧ Appeal.status reviewed = "approved"
      ∧ Appeal.reviewedBy reviewed = Some (User.id owner)
      ∧ Ban.isActive <$> Storage.getBan banId run.1.2 = Some false.
Proof.
  intros Hkeyed Hb Hbe Hs Hse Ht Hte Hserver Hown Hban.
  destruct (postAppeal_complete filer b st banId serverId text)
    as [fx Hpost]; try done.
  set (id := fresh_string "appeal" (Storage.appeals st)) in *.
  set (filed := Appeal.mk id banId serverId _ text "pending" None None None) in *.
  set (st1 := Storage.set_appeals <[id := filed]> st) in *.
  rewrite Hpost. cbv zeta. cbn [fst snd].
  destruct (patchAppeal_run unbanUser owner id
              (Routes.mkAppealBody (Some "approved") None) now st1
              filed server ban)
    as (result & st2 & fx1 & Hap & Hrun); try done.
  { unfold Storage.getAppeal, st1. simpl. apply lookup_insert_eq. }
  simpl in Hap.
  pose proof (Hkeyed _ _ Hban) as Hid. simpl in Hid.
  destruct (approve_store unbanUser server filed ban now st1)
    as (ban' & Hoff & Hst2).
  { rewrite Hid. exact Hban. }
  rewrite Hap in Hst2. simpl in Hst2. subst st2.
  eexists filed, _, _. split; [done|].
  change (Appeal.id filed) with id. rewrite Hrun. cbn [fst snd].
  split; [done|]. split; [done|].
  split; [unfold Storage.getAppeal; simpl; apply lookup_insert_eq|].
  split; [reflexivity|]. split; [reflexivity|].
  unfold Storage.getBan. simpl. rewrite Hid, lookup_insert_eq. simpl.
  by rewrite Hoff.
Qed.

(** carol files an appeal against the sample permanent ban and alice
    approves it. *)
Lemma file_then_approve_witness :
  Storage.bans_keyed Sample.store
  ∧ ∃ filed,
      (AppealFiling.postAppeal Sample.carol FilingSample.request
         Sample.store).1.1 = Json filed
      ∧ Ban.isActive <$>
          Storage.getBan "b2"
            (Routes.patchAppeal Sample.unbanUser Sample.alice (Appeal.id filed)
               (Routes.mkAppealBody (Some "approved") None) 900
               (AppealFiling.postAppeal Sample.carol FilingSample.request
                  Sample.store).1.2).1.2
        = Some false.
Proof.
  assert (Hkeyed : Storage.bans_keyed Sample.store)
    by (unfold Storage.bans_keyed; compute_done).
  split; [exact Hkeyed|].
  destruct (file_then_approve Sample.unbanUser Sample.carol Sample.alice
              FilingSample.request 900 Sample.store "b2" "s1"
              "it was my brother" Sample.server Sample.permanentBan Hkeyed)
    as (filed & reviewed & r & Hfiled & _ & _ & _ & _ & _ & Hoff);
    [reflexivity|discriminate|reflexivity|discriminate|reflexivity
    |discriminate|reflexivity|reflexivity|reflexivity|].
  exists filed. split; [exact Hfiled|exact Hoff].
Defined.

(** ** Tickets *)

(** X16. A ticket opened through [POST /api/tickets] is always open,
    unassigned and without closer or closing time, whatever status or
    closing fields the body carries; priority and category fall back to
    ["medium"] and ["general"]; the row gets an id no ticket had, and
    only the owner of the server named in the body gets this far. *)
Theorem postTicket_opens_a_ticket
    (user : User.t) (body : gmap string jsval) (st : Storage.t)
    (ts : Tickets.tickets) (row : gmap string jsval) :
  (Tickets.postTicket user body st ts).1.1 = Json row →
  row !! "status" = Some (JStr "open")
  ∧ row !! "assignedTo" = Some JNull
  ∧ row !! "closedBy" = Some JNull
  ∧ row !! "closedAt" = Some JNull
  ∧ row !! "title" = body !! "title"
  ∧ (js_truthy (body !! "priority") = false →
     row !! "priority" = Some (JStr "medium"))
  ∧ (js_truthy (body !! "category") = false →
     row !! "category" = Some (JStr "general"))
  ∧ Tickets.owns user (body !! "serverId") st = true
  ∧ ∃ id, row !! "id" = Some (JStr id) ∧ ts !! id = None
          ∧ (Tickets.postTicket user body st ts).1.2 = <[id := row]> ts.
Proof.
  unfold Tickets.postTicket, Tickets.createTicket.
  destruct (negb _ || negb _ || negb _ || negb _ || negb _) eqn:Hreq; [done|].
  destruct (Tickets.owns user _ st) eqn:Hown; [|done]. simpl.
  intros [= <-].
  repeat (apply orb_false_elim in Hreq as [Hreq ?]).
  assert (Htitle : js_truthy (body !! "title") = true)
    by (by apply negb_false_iff).
  split; [done|]. split; [done|]. split; [done|]. split; [done|].
  split.
  { rewrite !lookup_insert_ne by done. rewrite lookup_insert_eq.
    by destruct (body !! "title"). }
  split.
  { intros Hp. rewrite !lookup_insert_ne by done. rewrite lookup_insert_eq.
    unfold js_or. by rewrite Hp. }
  split.
  { intros Hc. rewrite !lookup_insert_ne by done. rewrite lookup_insert_eq.
    unfold js_or. by rewrite Hc. }
  split; [done|].
  eexists. split; [apply lookup_insert_eq|]. split; [apply fresh_string_fresh|done].
Qed.

(** X17. Closing stamps the closer. When the owner of the ticket's
    server PATCHes a ticket that is not closed with status ["closed"],
    the row afterwards is closed and carries the requester as closer
    and the request time as closing time, whatever the body said about
    those two; a further PATCH on a ticket that is already closed does
    not stamp again. Keys the body does not name keep their values. *)
Theorem patchTicket_stamps_the_closer
    (user : User.t) (id : string) (body : gmap string jsval) (now : Z)
    (st : Storage.t) (ts : Tickets.tickets) (ticket : gmap string jsval) :
  Tickets.getTicket id ts = Some ticket →
  Tickets.owns user (ticket !! "serverId") st = true →
  ∃ row,
    (Tickets.patchTicket user id body now st ts).1
      = (Json (Some row), <[id := row]> ts)
    ∧ (body !! "status" = Some (JStr "closed") →
       ticket !! "status" ≠ Some (JStr "closed") →
       row !! "status" = Some (JStr "closed")
       ∧ row !! "closedBy" = Some (JStr (User.id user))
       ∧ row !! "closedAt" = Some (JNum now))
    ∧ (ticket !! "status" = Some (JStr "closed") →
       body !! "closedBy" = None → body !! "closedAt" = None →
       row !! "closedBy" = ticket !! "closedBy"
       ∧ row !! "closedAt" = ticket !! "closedAt")
    ∧ (∀ k, body !! k = None → k ≠ "closedBy" → k ≠ "closedAt" →
         row !! k = ticket !! k).
Proof.
  intros Hget Hown. unfold Tickets.patchTicket, Tickets.updateTicket.
  rewrite Hget, Hown. unfold Tickets.getTicket in Hget. rewrite Hget. simpl.
  eexists. split; [done|]. split; [|split].
  - intros Hs Hopen. rewrite bool_decide_eq_true_2 by done.
    rewrite bool_decide_eq_false_2 by done. simpl.
    split; [|split]; apply lookup_union_Some_l.
    + by rewrite !lookup_insert_ne.
    + rewrite lookup_insert_ne by done. apply lookup_insert_eq.
    + apply lookup_insert_eq.
  - intros Hclosed Hby Hat.
    rewrite (bool_decide_eq_true_2 (ticket !! "status" = _)) by done.
    rewrite andb_false_r. split; by apply lookup_union_r.
  - intros k Hk Hby Hat. apply lookup_union_r.
    destruct (_ && _); [|done]. by rewrite !lookup_insert_ne.
Qed.

(** alice's ticket is open although the body asked for closed. *)
Lemma postTicket_opens_a_ticket_witness :
  (Tickets.postTicket Sample.alice TicketSample.request Sample.store ∅).1.1
    = Json TicketSample.row
  ∧ TicketSample.row !! "status" = Some (JStr "open")
  ∧ TicketSample.row !! "closedBy" = Some JNull.
Proof.
  assert (Hrun : (Tickets.postTicket Sample.alice TicketSample.request
                    Sample.store ∅).1.1 = Json TicketSample.row)
    by (vm_compute; reflexivity).
  split; [exact Hrun|].
  destruct (postTicket_opens_a_ticket Sample.alice TicketSample.request
              Sample.store ∅ TicketSample.row Hrun)
    as (Hstatus & _ & Hby & _).
  split; [exact Hstatus|exact Hby].
Defined.

(** alice then closes that ticket at time 40. *)
Lemma patchTicket_stamps_the_closer_witness :
  Tickets.getTicket "ticket" TicketSample.opened = Some TicketSample.row
  ∧ ∃ row,
      (Tickets.patchTicket Sample.alice "ticket" {["status" := JStr "closed"]}
         40 Sample.store TicketSample.opened).1
        = (Json (Some row), <["ticket" := row]> TicketSample.opened)
      ∧ row !! "closedBy" = Some (JStr "u1")
      ∧ row !! "closedAt" = Some (JNum 40).
Proof.
  assert (Hget : Tickets.getTicket "ticket" TicketSample.opened
                 = Some TicketSample.row) by (vm_compute; reflexivity).
  split; [exact Hget|].
  destruct (patchTicket_stamps_the_closer Sample.alice "ticket"
              {["status" := JStr "closed"]} 40 Sample.store TicketSample.opened
              TicketSample.row Hget)
    as (row & Hrun & Hclose & _); [vm_compute; reflexivity|].
  exists row. split; [exact Hrun|].
  destruct Hclose as (_ & Hby & Hat);
    [vm_compute; reflexivity|vm_compute; discriminate|].
  split; [exact Hby|exact Hat].
Defined.

(** ** Shifts, from start to end *)

(** X18. A shift from start to end. A member or owner with no active
    shift on the server starts one: it is active, begins at the request
    time, and is what [GET /api/shifts/active] then returns. Ending it
    later closes that same shift with the later time as end time and
    announces a duration equal to the time between the two requests,
    after which the user has no active shift. *)
Theorem shift_start_then_end
    (user : User.t) (serverId : string) (started ended : Z)
    (st : Storage.t) (server : Server.t) :
  serverId ≠ "" →
  Storage.getServer serverId st = Some server →
  Routes.ownerOrMember server user serverId st = true →
  ¬ Routes.has_active_shift (User.id user) serverId st →
  ∃ shift st1 st2 closed,
    Routes.shiftsStart user (Some serverId) started st
      = (Json shift, st1,
         [Broadcast (shift_started serverId (User.id user) (Shift.id shift))])
    ∧ Shift.status shift = "active" ∧ Shift.startTime shift = started
    ∧ Team.shiftsActive user (Some serverId) st1 = Json (Some shift)
    ∧ Routes.shiftsEnd user (Some serverId) ended st1
      = (Json (Some closed), st2,
         [Broadcast (shift_ended serverId (User.id user) (Shift.id shift)
                       (ended - started))])
    ∧ Shift.id closed = Shift.id shift
    ∧ Shift.status closed = "completed" ∧ Shift.endTime closed = Some ended
    ∧ Storage.getShift (Shift.id shift) st2 = Some closed
    ∧ Team.shiftsActive user (Some serverId) st2 = Json None.
Proof.
  intros Hne Hs Hm Hnone.
  set (id := fresh_string "shift" (Storage.shifts st)).
  set (shift := Shift.mk id serverId (User.id user) started None "active"
                  Routes.zeroMetrics).
  set (st1 := Storage.set_shifts <[id := shift]> st).
  assert (Hfound : Storage.getActiveShiftByUserId (User.id user) serverId st1
                   = Some shift)
    by exact (getActiveShift_after_create (User.id user) serverId started
                Routes.zeroMetrics st Hnone).
  pose proof Hne as Htr%truthy_Some.
  assert (Hstart : Routes.shiftsStart user (Some serverId) started st
                   = (Json shift, st1,
                      [Broadcast (shift_started serverId (User.id user)
                                    (Shift.id shift))])).
  { rewrite shiftsStart_unfold. rewrite Htr. simpl. rewrite Hs, Hm. simpl.
    apply getActiveShift_None in Hnone. by rewrite Hnone. }
  set (closed := Shift.apply
                   (Shift.mkUpdate (Some ended) (Some "completed") None) shift).
  set (st2 := Storage.set_shifts <[id := closed]> st1).
  assert (Hrow : Storage.shifts st1 !! id = Some shift)
    by apply lookup_insert_eq.
  assert (Hs1 : Storage.getServer serverId st1 = Some server) by exact Hs.
  assert (Hm1 : Routes.ownerOrMember server user serverId st1 = true)
    by exact Hm.
  exists shift, st1, st2, closed. split; [exact Hstart|].
  split; [done|]. split; [done|]. split.
  { unfold Team.shiftsActive. rewrite Htr. simpl. rewrite Hs1, Hm1. simpl.
    by rewrite Hfound. }
  split.
  { unfold Routes.shiftsEnd. rewrite Htr. simpl. rewrite Hs1, Hm1. simpl.
    rewrite Hfound. unfold Storage.updateShift.
    change (Shift.id shift) with id. by rewrite Hrow. }
  split; [done|]. split; [done|]. split; [done|]. split.
  { unfold Storage.getShift, st2. simpl. apply lookup_insert_eq. }
  unfold Team.shiftsActive. rewrite Htr. simpl.
  change (Storage.getServer serverId st2) with (Storage.getServer serverId st).
  rewrite Hs.
  change (Routes.ownerOrMember server user serverId st2)
    with (Routes.ownerOrMember server user serverId st).
  rewrite Hm. simpl. f_equal.
  apply getActiveShift_None. intros (k & s & Hk & Hact).
  unfold st2, st1 in Hk. simpl in Hk.
  apply lookup_insert_Some in Hk as [[_ <-]|[Hk1 Hk]].
  - by destruct Hact as (_ & _ & ?).
  - apply lookup_insert_Some in Hk as [[? _]|[_ Hk]]; [done|].
    destruct Hnone. by exists k, s.
Qed.

(** alice, who has no open shift on the sample server, starts one at
    time 100 and ends it at time 400. *)
Lemma shift_start_then_end_witness :
  ¬ Routes.has_active_shift "u1" "s1" Sample.store
  ∧ ∃ shift st1 st2 closed,
      Routes.shiftsStart Sample.alice (Some "s1") 100 Sample.store
        = (Json shift, st1, [Broadcast (shift_started "s1" "u1" (Shift.id shift))])
      ∧ Routes.shiftsEnd Sample.alice (Some "s1") 400 st1
        = (Json (Some closed), st2,
           [Broadcast (shift_ended "s1" "u1" (Shift.id shift) (400 - 100))]).
Proof.
  assert (Hnone : ¬ Routes.has_active_shift "u1" "s1" Sample.store)
    by (by apply getActiveShift_None).
  split; [exact Hnone|].
  destruct (shift_start_then_end Sample.alice "s1" 100 400 Sample.store
              Sample.server) as (shift & st1 & st2 & closed & Hstart & _ & _ & _
                                 & Hend & _);
    [discriminate|reflexivity|reflexivity|exact Hnone|].
  exists shift, st1, st2, closed. split; [exact Hstart|exact Hend].
Defined.

(** X19. Ending frees the user for a new shift: in a store where no
    user has two active shifts on one server, once [POST /api/shifts/end]
    has closed the requester's shift, the requester has no active shift
    left there, and a new [POST /api/shifts/start] is accepted. *)
Theorem shift_end_then_start_again
    (user : User.t) (serverId : string) (ended later : Z)
    (st : Storage.t) (server : Server.t) :
  Storage.shifts_keyed st → Routes.one_active_shift st →
  serverId ≠ "" →
  Storage.getServer serverId st = Some server →
  Routes.ownerOrMember server user serverId st = true →
  Routes.has_active_shift (User.id user) serverId st →
  ∃ closed st1 fx shift,
    Routes.shiftsEnd user (Some serverId) ended st = (Json (Some closed), st1, fx)
    ∧ Shift.status closed = "completed"
    ∧ ¬ Routes.has_active_shift (User.id user) serverId st1
    ∧ (Routes.shiftsStart user (Some serverId) later st1).1.1 = Json shift
    ∧ Shift.status shift = "active" ∧ Shift.startTime shift = later.
Proof.
  intros Hkeyed Hone Hne Hs Hm [a Ha]%getActiveShift_is_Some.
  pose proof (getActiveShift_Some _ _ _ _ Ha) as [Hact [k Hk]].
  pose proof (Hkeyed _ _ Hk) as Hid. simpl in Hid. subst k.
  pose proof Hne as Htr%truthy_Some.
  set (closed := Shift.apply
                   (Shift.mkUpdate (Some ended) (Some "completed") None) a).
  set (st1 := Storage.set_shifts <[Shift.id a := closed]> st).
  assert (Hend : Routes.shiftsEnd user (Some serverId) ended st
                 = (Json (Some closed), st1,
                    [Broadcast (shift_ended serverId (User.id user) (Shift.id a)
                                  (ended - Shift.startTime a))])).
  { unfold Routes.shiftsEnd. rewrite Htr. simpl. rewrite Hs, Hm. simpl.
    rewrite Ha. unfold Storage.updateShift. by rewrite Hk. }
  assert (Hfree : ¬ Routes.has_active_shift (User.id user) serverId st1).
  { intros (k & s & Hks & Hacts). unfold st1 in Hks. simpl in Hks.
    apply lookup_insert_Some in Hks as [[_ <-]|[Hne' Hks]].
    - by destruct Hacts as (_ & _ & ?).
    - destruct Hne'. symmetry.
      by apply (Hone k (Shift.id a) s a (User.id user) serverId). }
  assert (Hs1 : Storage.getServer serverId st1 = Some server) by exact Hs.
  assert (Hm1 : Routes.ownerOrMember server user serverId st1 = true)
    by exact Hm.
  eexists closed, st1, _, _. split; [exact Hend|]. split; [done|].
  split; [exact Hfree|].
  rewrite shiftsStart_unfold. rewrite Htr. simpl. rewrite Hs1, Hm1. simpl.
  apply getActiveShift_None in Hfree. rewrite Hfree. simpl.
  split; [done|]. split; done.
Qed.

(** bob ends his open shift on the sample server and starts another. *)
Lemma shift_end_then_start_again_witness :
  Storage.shifts_keyed Sample.store ∧ Routes.one_active_shift Sample.store
  ∧ Routes.has_active_shift "u2" "s1" Sample.store
  ∧ ∃ closed st1 fx shift,
      Routes.shiftsEnd Sample.bob (Some "s1") 900 Sample.store
        = (Json (Some closed), st1, fx)
      ∧ (Routes.shiftsStart Sample.bob (Some "s1") 950 st1).1.1 = Json shift.
Proof.
  assert (Hkeyed : Storage.shifts_keyed Sample.store)
    by (unfold Storage.shifts_keyed; compute_done).
  assert (Hone : Routes.one_active_shift Sample.store).
  { intros k1 k2 s1 s2 user server H1 H2 _ _.
    change (Storage.shifts Sample.store)
      with ({["sh1" := Sample.openShift]} : gmap string Shift.t) in H1, H2.
    apply lookup_singleton_Some in H1 as [<- _].
    by apply lookup_singleton_Some in H2 as [<- _]. }
  assert (Hopen : Routes.has_active_shift "u2" "s1" Sample.store).
  { exists "sh1", Sample.openShift. split; [reflexivity|]. by repeat split. }
  split; [exact Hkeyed|]. split; [exact Hone|]. split; [exact Hopen|].
  destruct (shift_end_then_start_again Sample.bob "s1" 900 950 Sample.store
              Sample.server Hkeyed Hone)
    as (closed & st1 & fx & shift & Hend & _ & _ & Hstart & _);
    [discriminate|reflexivity|reflexivity|exact Hopen|].
  exists closed, st1, fx, shift. split; [exact Hend|exact Hstart].
Defined.

(** ** Removing a team member *)

(** X20. Removing a member revokes the shift routes. When the owner
    deletes the only membership row of a user who is not the owner, that
    user, who could use the shift routes before, gets 403 from start,
    end and the active-shift read afterwards; the deletion leaves the
    shift table alone, so a shift the user had open stays active. *)
Theorem member_removal_revokes_shift_routes
    (owner member : User.t) (serverId memberId : string) (now : Z)
    (st : Storage.t) (server : Server.t) (m : Member.t) :
  serverId ≠ "" →
  Storage.getServer serverId st = Some server →
  Server.ownerId server = User.id owner →
  User.id member ≠ User.id owner →
  Storage.serverMembers st !! memberId = Some m →
  Member.userId m = User.id member → Member.serverId m = serverId →
  Team.only_membership (User.id member) serverId memberId st →
  Routes.ownerOrMember server member serverId st = true
  ∧ ∃ st1,
      Team.deleteMember owner serverId memberId st = (Json true, st1)
      ∧ Storage.shifts st1 = Storage.shifts st
      ∧ Routes.shiftsStart member (Some serverId) now st1
        = (Error 403 "Not authorized - you must be a member of this server",
           st1, [])
      ∧ Routes.shiftsEnd member (Some serverId) now st1
        = (Error 403 "Not authorized - you must be a member of this server",
           st1, [])
      ∧ Team.shiftsActive member (Some serverId) st1
        = Error 403 "Not authorized - you must be a member of this server".
Proof.
  intros Hne Hs Hown Hnot Hm Hu Hsrv Honly.
  pose proof Hne as Htr%truthy_Some. split.
  - unfold Routes.ownerOrMember.
    assert (is_Some (Storage.getServerMemberByUserAndServer (User.id member)
                       serverId st)) as Hsome.
    { unfold Storage.getServerMemberByUserAndServer.
      erewrite find_row_unique; [done|exact Hm|done|].
      intros k m' Hk [Hu' Hs']. by apply (Honly k m'). }
    rewrite bool_decide_eq_true_2 by done. apply orb_true_r.
  - set (st1 := Team.deleteServerMember memberId st).
    assert (Hdel : Team.deleteMember owner serverId memberId st = (Json true, st1)).
    { unfold Team.deleteMember. by rewrite Hs, Hown, String.eqb_refl. }
    assert (Hs1 : Storage.getServer serverId st1 = Some server) by exact Hs.
    assert (Hout : Routes.ownerOrMember server member serverId st1 = false).
    { unfold Routes.ownerOrMember. rewrite Hown.
      apply String.eqb_neq in Hnot. rewrite String.eqb_sym, Hnot. simpl.
      apply bool_decide_eq_false_2. intros [m' Hm'].
      apply find_row_Some in Hm' as [[Hu' Hs'] [k Hk]]. simpl in Hk.
      apply lookup_delete_Some in Hk as [Hk1 Hk].
      destruct Hk1. symmetry. by apply (Honly k m'). }
    exists st1. split; [exact Hdel|]. split; [done|].
    rewrite !shiftsStart_unfold. unfold Routes.shiftsEnd, Team.shiftsActive.
    rewrite Htr. simpl. by rewrite Hs1, Hout.
Qed.

(** alice removes bob, whose shift is open, from the sample server. *)
Lemma member_removal_revokes_shift_routes_witness :
  Routes.ownerOrMember Sample.server Sample.bob "s1" Sample.store = true
  ∧ ∃ st1,
      Team.deleteMember Sample.alice "s1" "m1" Sample.store = (Json true, st1)
      ∧ Routes.shiftsEnd Sample.bob (Some "s1") 900 st1
        = (Error 403 "Not authorized - you must be a member of this server",
           st1, []).
Proof.
  destruct (member_removal_revokes_shift_routes Sample.alice Sample.bob "s1"
              "m1" 900 Sample.store Sample.server (Member.mk "m1" "s1" "u2"))
    as (Hbefore & st1 & Hdel & _ & _ & Hend & _);
    [discriminate|reflexivity|reflexivity|discriminate|reflexivity
    |reflexivity|reflexivity| |].
  - intros k m Hk _ _.
    change (Storage.serverMembers Sample.store)
      with ({["m1" := Member.mk "m1" "s1" "u2"]} : gmap string Member.t) in Hk.
    by apply lookup_singleton_Some in Hk as [<- _].
  - split; [exact Hbefore|]. exists st1. split; [exact Hdel|exact Hend].
Defined.

(** ** Marketplace listings *)

(** X21. A listing belongs to whoever created it: the row made by
    [POST /api/marketplace/listings] has the requester as seller even
    when the body names someone else, and keeps the body's other keys;
    any other user's PATCH or DELETE on it is refused with 403 and
    changes nothing, while the creator's DELETE removes it and leaves
    the table as it was before the listing. *)
Theorem listing_belongs_to_its_creator
    (user : User.t) (body : gmap string jsval) (ls : Market.listings) :
  ∃ id row,
    Market.postListing user body ls = (Json row, <[id := row]> ls)
    ∧ ls !! id = None
    ∧ row !! "sellerId" = Some (JStr (User.id user))
    ∧ row !! "id" = Some (JStr id)
    ∧ (∀ k, k ≠ "sellerId" → k ≠ "id" → row !! k = body !! k)
    ∧ (∀ other changes, User.id other ≠ User.id user →
         Market.patchListing other id changes (<[id := row]> ls)
           = (Error 403 "Not authorized", <[id := row]> ls)
         ∧ Market.deleteListingRoute other id (<[id := row]> ls)
           = (Error 403 "Not authorized", <[id := row]> ls))
    ∧ Market.deleteListingRoute user id (<[id := row]> ls) = (Json true, ls).
Proof.
  set (id := fresh_string "listing" ls).
  set (row := <["id" := JStr id]> (<["sellerId" := JStr (User.id user)]> body)).
  assert (Hfresh : ls !! id = None) by apply fresh_string_fresh.
  assert (Hseller : row !! "sellerId" = Some (JStr (User.id user))).
  { unfold row. rewrite lookup_insert_ne by done. apply lookup_insert_eq. }
  exists id, row. split; [done|]. split; [done|]. split; [done|].
  split; [apply lookup_insert_eq|]. split; [|split].
  - intros k Hs Hi. unfold row. by rewrite !lookup_insert_ne.
  - intros other changes Hother.
    unfold Market.patchListing, Market.deleteListingRoute, Market.getListing,
      Market.notSeller.
    rewrite lookup_insert_eq, Hseller.
    rewrite bool_decide_eq_false_2 by congruence. done.
  - unfold Market.deleteListingRoute, Market.getListing, Market.notSeller,
      Market.deleteListing.
    rewrite lookup_insert_eq, Hseller, bool_decide_eq_true_2 by done. simpl.
    by rewrite delete_insert_id.
Qed.

(** X22. A listing can be handed over by PATCH: when its seller sends a
    body whose [sellerId] names another user, the row takes that seller,
    after which the former seller's PATCH and DELETE get 403 and the new
    seller's DELETE is accepted. *)
Theorem patchListing_hands_the_listing_over
    (seller heir : User.t) (id : string) (body : gmap string jsval)
    (ls : Market.listings) (listing : gmap string jsval) :
  Market.getListing id ls = Some listing →
  listing !! "sellerId" = Some (JStr (User.id seller)) →
  body !! "sellerId" = Some (JStr (User.id heir)) →
  User.id heir ≠ User.id seller →
  ∃ row,
    Market.patchListing seller id body ls = (Json (Some row), <[id := row]> ls)
    ∧ row !! "sellerId" = Some (JStr (User.id heir))
    ∧ (∀ changes,
         Market.patchListing seller id changes (<[id := row]> ls)
         = (Error 403 "Not authorized", <[id := row]> ls))
    ∧ Market.deleteListingRoute seller id (<[id := row]> ls)
      = (Error 403 "Not authorized", <[id := row]> ls)
    ∧ Market.deleteListingRoute heir id (<[id := row]> ls)
      = (Json true, delete id ls).
Proof.
  intros Hget Hseller Hbody Hne.
  assert (Hrow : (body ∪ listing) !! "sellerId" = Some (JStr (User.id heir)))
    by (by apply lookup_union_Some_l).
  exists (body ∪ listing). split; [|split; [done|split; [|split]]].
  - unfold Market.patchListing, Market.notSeller, Market.updateListing.
    rewrite Hget, Hseller, bool_decide_eq_true_2 by done. simpl.
    unfold Market.getListing in Hget. by rewrite Hget.
  - intros changes. unfold Market.patchListing, Market.getListing,
      Market.notSeller.
    rewrite lookup_insert_eq, Hrow.
    by rewrite bool_decide_eq_false_2 by congruence.
  - unfold Market.deleteListingRoute, Market.getListing, Market.notSeller.
    rewrite lookup_insert_eq, Hrow.
    by rewrite bool_decide_eq_false_2 by congruence.
  - unfold Market.deleteListingRoute, Market.getListing, Market.notSeller,
      Market.deleteListing.
    rewrite lookup_insert_eq, Hrow, bool_decide_eq_true_2 by done. simpl.
    by rewrite delete_insert_eq.
Qed.

(** ** The escrow audit trail *)

(** X23. Every accepted escrow PATCH is on the transaction's log: after
    a party's PATCH, the log that [GET .../transactions/:id/logs] gives
    the seller or the buyer is the log from before followed by one
    entry naming the requester and the body sent; a refused PATCH adds
    nothing to any log, and a user who is neither seller nor buyer is
    refused the log with 403. *)
Theorem escrow_patch_is_logged
    (user reader : User.t) (id transactionId : string)
    (body : gmap string jsval) (st : Storage.t)
    (escrow : gmap string jsval) (transaction : Transaction.t) :
  Storage.getEscrow id st = Some escrow →
  escrow !! "transactionId" = Some (JStr transactionId) →
  Storage.getTransaction transactionId st = Some transaction →
  let st1 := (Routes.patchEscrow user id body st).1.2 in
  (Routes.party user escrow st →
   Routes.party reader escrow st →
   Market.getLogs reader transactionId st1
   = Json (Market.getTransactionLogs transactionId st
           ++ [Transaction.mkLog (Some (JStr transactionId)) "escrow_updated"
                 (User.id user) body])%list)
  ∧ (¬ Routes.party user escrow st →
     Storage.transactionLogs st1 = Storage.transactionLogs st)
  ∧ (¬ Routes.party reader escrow st →
     Market.getLogs reader transactionId st1 = Error 403 "Not authorized").
Proof.
  intros He Htid Htx st1.
  assert (Hparty : ∀ u, Routes.party u escrow st ↔
            negb (String.eqb (Transaction.sellerId transaction) (User.id u))
            && negb (String.eqb (Transaction.buyerId transaction) (User.id u))
            = false).
  { intros u. rewrite seller_or_buyer_test. unfold Routes.party, Routes.transactionId.
    rewrite Htid. split.
    - intros (t & tx & [= <-] & Ht & Hor). congruence.
    - intros Hor. by exists transactionId, transaction. }
  assert (Htx1 : Storage.getTransaction transactionId st1 = Some transaction).
  { subst st1.
    destruct (negb (String.eqb (Transaction.sellerId transaction) (User.id user))
              && negb (String.eqb (Transaction.buyerId transaction)
                        (User.id user))) eqn:Htest.
    - rewrite (patchEscrow_stranger user id body st escrow); [done..|].
      intros Hp%Hparty. congruence.
    - apply Hparty in Htest.
      by rewrite (patchEscrow_party user id body st escrow). }
  split; [|split].
  - intros Hu Hr. unfold Market.getLogs. rewrite Htx1.
    apply Hparty in Hr. rewrite Hr. f_equal. subst st1.
    rewrite (patchEscrow_party user id body st escrow) by done.
    unfold Market.getTransactionLogs. simpl. rewrite filter_app. f_equal.
    rewrite Htid. by rewrite filter_cons_True.
  - intros Hu. subst st1.
    by rewrite (patchEscrow_stranger user id body st escrow).
  - intros Hr. unfold Market.getLogs. rewrite Htx1.
    destruct (negb _ && negb _) eqn:Htest; [done|].
    by apply Hparty in Htest.
Qed.

(** carol hands her listing over to bob. *)
Lemma patchListing_hands_the_listing_over_witness :
  Market.getListing "listing" MarketSample.listings = Some MarketSample.listing
  ∧ MarketSample.listing !! "sellerId" = Some (JStr "u3")
  ∧ ∃ row,
      Market.patchListing Sample.carol "listing" {["sellerId" := JStr "u2"]}
        MarketSample.listings
        = (Json (Some row), <["listing" := row]> MarketSample.listings)
      ∧ Market.deleteListingRoute Sample.carol "listing"
          (<["listing" := row]> MarketSample.listings)
        = (Error 403 "Not authorized",
           <["listing" := row]> MarketSample.listings).
Proof.
  assert (Hget : Market.getListing "listing" MarketSample.listings
                 = Some MarketSample.listing) by (vm_compute; reflexivity).
  assert (Hseller : MarketSample.listing !! "sellerId" = Some (JStr "u3"))
    by (vm_compute; reflexivity).
  split; [exact Hget|]. split; [exact Hseller|].
  destruct (patchListing_hands_the_listing_over Sample.carol Sample.bob
              "listing" {["sellerId" := JStr "u2"]} MarketSample.listings
              MarketSample.listing Hget Hseller)
    as (row & Hpatch & _ & _ & Hdel & _);
    [vm_compute; reflexivity|discriminate|].
  exists row. split; [exact Hpatch|exact Hdel].
Defined.

(** alice, the seller, releases the sample escrow; bob, the buyer, reads
    the log. *)
Lemma escrow_patch_is_logged_witness :
  Storage.getEscrow "e1" Sample.store = Some Sample.escrow
  ∧ Market.getLogs Sample.bob "t1"
      (Routes.patchEscrow Sample.alice "e1" {["status" := JStr "released"]}
         Sample.store).1.2
    = Json (Market.getTransactionLogs "t1" Sample.store
            ++ [Transaction.mkLog (Some (JStr "t1")) "escrow_updated" "u1"
                  {["status" := JStr "released"]}])%list.
Proof.
  split; [reflexivity|].
  destruct (escrow_patch_is_logged Sample.alice Sample.bob "e1" "t1"
              {["status" := JStr "released"]} Sample.store Sample.escrow
              Sample.sale) as [Hlog _];
    [reflexivity|vm_compute; reflexivity|reflexivity|].
  apply Hlog.
  - exists "t1", Sample.sale. split; [reflexivity|]. split; [reflexivity|].
    left. reflexivity.
  - exists "t1", Sample.sale. split; [reflexivity|]. split; [reflexivity|].
    right. reflexivity.
Defined.

(** ** The health check *)

(** X24. The health route answers 200 exactly when the database is
    available and its probe query succeeds, and 503 otherwise, then with
    status ["degraded"] and one warning that tells a database that is
    not configured from one whose connection failed. A probe error is
    reported exactly when the database is available and the probe
    rejects, and the database counts as available only with both a
    pool and a database handle. *)
Theorem health_code_reflects_the_database
    (d : Health.db) (query : option string) :
  ((Health.health d query).1 = 200%Z
   ↔ Health.isDatabaseAvailable d = true ∧ query = None)
  ∧ ((Health.health d query).1 ≠ 200%Z →
     (Health.health d query).1 = 503%Z
     ∧ Health.status (Health.health d query).2 = "degraded"
     ∧ Health.warnings (Health.health d query).2
       = [if Health.isDatabaseAvailable d
          then "Database connection failed"
          else "Database not configured - using in-memory storage"])
  ∧ (∀ message,
       Health.error (Health.health d query).2 = Some message
       ↔ Health.isDatabaseAvailable d = true ∧ query = Some message)
  ∧ (Health.isDatabaseAvailable d = true
     ↔ Health.poolInstance d = true ∧ Health.dbInstance d = true).
Proof.
  destruct d as [[] []], query as [m|]; vm_compute;
    repeat split; try done; try (intros; simplify_eq; done);
    try (by intros [? ?]); try (intros m' [? ?]; congruence);
    try (intros m' [? ?]; simplify_eq; done).
Qed.

(** ** Loading the environment *)

Lemma kept_Some o v : Env.kept o = Some v ↔ o = Some v ∧ v ≠ "".
Proof.
  unfold Env.kept. destruct o as [w|]; [|by split; [|intros []]].
  destruct (String.eqb w "") eqn:Hw.
  - apply String.eqb_eq in Hw as ->. split; [done|]. by intros [[= <-] ?].
  - apply String.eqb_neq in Hw. split; [by intros [= <-]|by intros [[= <-] ?]].
Qed.

Lemma kept_None o : Env.kept o = None ↔ o = None ∨ o = Some "".
Proof.
  unfold Env.kept. destruct o as [w|]; [|by split; [left|]].
  destruct (String.eqb w "") eqn:Hw.
  - apply String.eqb_eq in Hw as ->. split; [by right|done].
  - apply String.eqb_neq in Hw. split; [done|]. by intros [|[= ->]].
Qed.

Lemma preserve_lookup (keys : list string) (e : Env.env) :
  ∀ k,
    (Env.preserve keys e).1 !! k
    = (if decide (k ∈ keys) then Env.kept (e !! k) else None)
    ∧ (Env.preserve keys e).2 !! k
      = (if decide (k ∈ keys) then Env.kept (e !! k) else e !! k).
Proof.
  unfold Env.preserve. induction keys as [|x keys IH] using rev_ind; intros k.
  - simpl. by rewrite lookup_empty.
  - rewrite foldl_app. simpl.
    destruct (foldl _ _ keys) as [secrets e'] eqn:Hfold. simpl in *.
    destruct (IH x) as [IHx1 IHx2]. destruct (IH k) as [IHk1 IHk2].
    assert (Hx : e' !! x = Env.kept (e !! x)
                 ∨ (¬ (x ∈ keys) ∧ secrets !! x = None ∧ e' !! x = e !! x)).
    { destruct (decide (x ∈ keys)); [by left|by right]. }
    assert (Hsx : secrets !! x = None ∨ secrets !! x = Env.kept (e !! x)).
    { destruct (decide (x ∈ keys)); [by right|by left]. }
    destruct (decide (k = x)) as [->|Hkx].
    + assert (Hin : x ∈ (keys ++ [x])%list).
      { apply elem_of_app. right. by apply list_elem_of_singleton. }
      clear IHk1 IHk2 IHx1 IHx2.
      destruct (e' !! x) as [v|] eqn:Hex;
        [destruct (String.eqb v "") eqn:Hv|]; simpl;
        repeat case_decide; try done.
      * apply String.eqb_eq in Hv as ->. rewrite lookup_delete_eq.
        destruct Hx as [Hx|(_ & Hs & Hx)].
        -- symmetry in Hx. by apply kept_Some in Hx as [_ ?].
        -- rewrite Hs. symmetry in Hx. by rewrite Hx.
      * apply String.eqb_neq in Hv. rewrite lookup_insert_eq, Hex.
        destruct Hx as [Hx|(_ & _ & Hx)]; [done|].
        assert (Env.kept (e !! x) = Some v) as -> by (by apply kept_Some).
        done.
      * rewrite Hex. destruct Hx as [Hx|(_ & Hs & Hx)].
        -- rewrite <- Hx. by destruct Hsx as [->| ->].
        -- rewrite Hs. symmetry in Hx. by rewrite Hx.
    + assert (Hiff : k ∈ (keys ++ [x])%list ↔ k ∈ keys).
      { rewrite elem_of_app, list_elem_of_singleton. tauto. }
      assert (Hgoal : secrets !! k
                      = (if decide (k ∈ (keys ++ [x])%list)
                         then Env.kept (e !! k) else None)
                      ∧ e' !! k
                        = (if decide (k ∈ (keys ++ [x])%list)
                           then Env.kept (e !! k) else e !! k)).
      { rewrite IHk1, IHk2. repeat case_decide; try done; tauto. }
      destruct (e' !! x) as [v|] eqn:Hex;
        [destruct (String.eqb v "") eqn:Hv|]; simpl;
        by rewrite ?lookup_delete_ne, ?lookup_insert_ne by done.
Qed.

(** X25. Secrets set in the process environment win over the [.env]
    file, and the file wins everywhere else: after loading, each of the
    seven secret keys that had a non-empty value keeps it; a secret key
    that was unset or empty, and every other key, has the file's value
    when the file defines it; a key the file does not define keeps its
    old value, except that an empty secret is removed. When the file
    cannot be loaded only that removal happens. *)
Theorem env_secrets_win_over_the_file
    (dotenv : option Env.env) (e : Env.env) (k : string) :
  let file := dotenv ≫= (.!! k) in
  (k ∈ Env.secretKeys → ∀ v, e !! k = Some v → v ≠ "" →
     Env.load dotenv e !! k = Some v)
  ∧ (k ∈ Env.secretKeys → e !! k = None ∨ e !! k = Some "" →
     Env.load dotenv e !! k = file)
  ∧ (k ∉ Env.secretKeys →
     Env.load dotenv e !! k
     = match file with Some v => Some v | None => e !! k end).
Proof.
  intros file. unfold Env.load.
  destruct (preserve_lookup Env.secretKeys e k) as [H1 H2].
  destruct (Env.preserve Env.secretKeys e) as [secrets e'] eqn:Hp.
  simpl in H1, H2.
  assert (Hcfg : Env.config dotenv e' !! k
                 = match file with Some v => Some v | None => e' !! k end).
  { unfold Env.config, file. destruct dotenv as [parsed|]; simpl; [|done].
    rewrite lookup_union. by destruct (parsed !! k), (e' !! k). }
  rewrite lookup_union, Hcfg, H1, H2. clearbody file. clear Hcfg H1 H2.
  split; [|split].
  - intros Hin v Hv Hne. case_decide; [|done].
    assert (Env.kept (e !! k) = Some v) as -> by (by apply kept_Some).
    by destruct file.
  - intros Hin Hempty. case_decide; [|done].
    apply kept_None in Hempty. rewrite Hempty. by destruct file.
  - intros Hout. case_decide; [done|].
    by destruct file, (e !! k).
Qed.

(** ** The request log *)

Lemma clip_length (logLine : AccessLog.text) :
  (length (AccessLog.clip logLine) ≤ 80)%nat.
Proof.
  unfold AccessLog.clip. case_bool_decide; [|lia].
  rewrite length_app, length_take.
  change (length [AccessLog.ellipsis]) with 1. lia.
Qed.

(** X26. The request log never holds a line of more than 80 UTF-16 code
    units and never a request outside [/api]: a line is logged exactly
    when the path starts with [/api]; a line of at most 80 units is
    logged as it is, and a longer one as its first 79 units followed by
    ["…"]. Clipping a clipped line changes nothing. *)
Theorem access_log_lines_are_clipped
    (method path statusCode duration : AccessLog.text)
    (captured : option AccessLog.text) :
  let full :=
    (method ++ AccessLog.units " " ++ path ++ AccessLog.units " "
     ++ statusCode ++ AccessLog.units " in " ++ duration
     ++ AccessLog.units "ms"
     ++ match captured with
        | Some json => AccessLog.units " :: " ++ json
        | None => []
        end)%list in
  let logged := AccessLog.onFinish method path statusCode duration captured in
  (is_Some logged ↔ AccessLog.units "/api" `prefix_of` path)
  ∧ (∀ line, logged = Some line →
       (length line ≤ 80)%nat
       ∧ ((length full ≤ 80)%nat → line = full)
       ∧ ((80 < length full)%nat →
          length line = 80
          ∧ take 79 line = take 79 full
          ∧ line !! 79 = Some AccessLog.ellipsis)
       ∧ AccessLog.clip line = line).
Proof.
  intros full logged.
  assert (Hlogged : logged
            = if bool_decide (AccessLog.units "/api" `prefix_of` path)
              then Some (AccessLog.clip full) else None).
  { subst logged full. unfold AccessLog.onFinish.
    case_bool_decide; [|done]. f_equal. f_equal.
    destruct captured; [|by rewrite !app_nil_r].
    by rewrite <- !(assoc_L (++)). }
  rewrite Hlogged. clearbody full. clear Hlogged logged.
  case_bool_decide as Hp.
  - split; [by split; [|eexists]|]. intros line [= <-].
    split; [apply clip_length|]. unfold AccessLog.clip.
    case_bool_decide as Hlen.
    + split; [lia|]. split.
      * intros _. rewrite length_app, length_take.
        change (length [AccessLog.ellipsis]) with 1.
        split; [lia|]. split.
        -- rewrite take_app_le by (rewrite length_take; lia).
           by rewrite take_take.
        -- rewrite lookup_app_r by (rewrite length_take; lia).
           rewrite length_take.
           by replace (79 - 79 `min` length full) with 0 by lia.
      * rewrite bool_decide_eq_false_2; [done|].
        rewrite length_app, length_take.
  change (length [AccessLog.ellipsis]) with 1. lia.
    + split; [done|]. split; [lia|]. by rewrite bool_decide_eq_false_2.
  - split; [|done]. split; [by intros [? ?]|done].
Qed.

(** ** Reading a transaction *)

(** X27. A transaction can be read by exactly the users who may change
    its escrow: for an escrow on a stored transaction,
    [GET /api/marketplace/transactions/:id] answers with the transaction
    exactly when the escrow PATCH of the same user is accepted, and
    otherwise both refuse with 403; the log of the transaction is
    refused to the same users. *)
Theorem transaction_readers_are_the_escrow_writers
    (user : User.t) (id transactionId : string)
    (body : gmap string jsval) (st : Storage.t)
    (escrow : gmap string jsval) (transaction : Transaction.t) :
  Storage.getEscrow id st = Some escrow →
  escrow !! "transactionId" = Some (JStr transactionId) →
  Storage.getTransaction transactionId st = Some transaction →
  (Market.getTransactionRoute user transactionId st = Json transaction
   ∧ (∃ r, (Routes.patchEscrow user id body st).1.1 = Json r)
   ∧ ∃ logs, Market.getLogs user transactionId st = Json logs)
  ∨ (Market.getTransactionRoute user transactionId st
       = Error 403 "Not authorized"
     ∧ Routes.patchEscrow user id body st
       = (Error 403 "Not authorized", st, [])
     ∧ Market.getLogs user transactionId st = Error 403 "Not authorized").
Proof.
  intros He Htid Htx.
  unfold Market.getTransactionRoute, Market.getLogs, Routes.patchEscrow,
    Routes.transactionId.
  rewrite He, Htid, Htx. simpl. rewrite Htx.
  destruct (negb _ && negb _); [by right|]. left.
  split; [done|]. split; [|by eexists].
  destruct (Storage.updateEscrow id body st) as [updated st']. by eexists.
Qed.

(** carol, a stranger to the sale, is refused the transaction. *)
Lemma transaction_readers_are_the_escrow_writers_witness :
  Storage.getEscrow "e1" Sample.store = Some Sample.escrow
  ∧ Market.getTransactionRoute Sample.carol "t1" Sample.store
    = Error 403 "Not authorized".
Proof.
  split; [reflexivity|].
  destruct (transaction_readers_are_the_escrow_writers Sample.carol "e1" "t1"
              ∅ Sample.store Sample.escrow Sample.sale) as [[H _]|[H _]];
    [reflexivity|vm_compute; reflexivity|reflexivity| |exact H].
  vm_compute in H. discriminate H.
Defined.
